(** * Empathy-Bot: the emotion post-processing core

    A shallow embedding of [EmotionDetector] (src/emotion_detector.py) and of
    the cultural profiles it loads (src/data_preprocessing.py):

    - [_process_model_output]     the score normalizer,
    - [_apply_cultural_context]   the cultural adjuster,
    - [_calculate_intensity]      the intensity classifier,
    - [get_emotion_trends] and [_calculate_trend], the trend analyzer.

    Python's [float] is IEEE-754 binary64.  The functions are written once,
    over an interface [PyFloat] of the arithmetic they use, and read at two
    instances: Rocq's primitive binary64 floats (what the interpreter
    computes, bit for bit) and the rationals [Q] (exact arithmetic, the
    reading in which a distribution "sums to 1").  Python dictionaries keep
    insertion order, and [sum] adds in that order, so a dictionary is an
    association list.  [sum] is read as plain left-to-right addition; the
    compensated summation of CPython 3.12 returns the same float wherever a
    sum is evaluated on concrete scores below, since none of them has more
    than two non-zero terms. *)

From Stdlib Require Import List String Ascii Bool Arith ZArith QArith Qreduction.
From Stdlib Require Import Lia Lqa PrimFloat Uint63 Permutation.
From Stdlib Require Import SpecFloat FloatOps FloatAxioms.
Import ListNotations.

Local Open Scope string_scope.
Local Open Scope list_scope.

(** ** Numbers *)

(** The arithmetic the detector performs on scores. [of_int] is the implicit
    conversion of a Python [int] that meets a [float]; [lit n d] is the
    decimal literal whose value is [n/d] (so [lit 8 10] is [0.8]). *)
Class PyFloat (A : Type) : Type := {
  of_int : Z -> A;
  lit : Z -> positive -> A;
  fadd : A -> A -> A;
  fmul : A -> A -> A;
  fdiv : A -> A -> A;
  feqb : A -> A -> bool;
  fltb : A -> A -> bool;
  fleb : A -> A -> bool
}.

Definition float_of_Z (z : Z) : float :=
  match z with
  | Zneg p => PrimFloat.opp (PrimFloat.of_uint63 (Uint63.of_Z (Zpos p)))
  | _ => PrimFloat.of_uint63 (Uint63.of_Z z)
  end.

(** binary64: a decimal literal denotes the float nearest to its value, which
    is what the correctly rounded quotient of two small integers returns. *)
#[export] Instance binary64 : PyFloat float := {
  of_int := float_of_Z;
  lit := fun n d => PrimFloat.div (float_of_Z n) (float_of_Z (Zpos d));
  fadd := PrimFloat.add;
  fmul := PrimFloat.mul;
  fdiv := PrimFloat.div;
  feqb := PrimFloat.eqb;
  fltb := PrimFloat.ltb;
  fleb := PrimFloat.leb
}.

(** Exact arithmetic; every result is kept in lowest terms. *)
#[export] Instance rational : PyFloat Q := {
  of_int := fun z => inject_Z z;
  lit := fun n d => Qred (n # d);
  fadd := fun a b => Qred (a + b);
  fmul := fun a b => Qred (a * b);
  fdiv := fun a b => Qred (a / b);
  feqb := Qeq_bool;
  fltb := fun a b => negb (Qle_bool b a);
  fleb := Qle_bool
}.

(** ** Exceptions *)

Inductive exn : Type :=
  | ZeroDivisionError
  | AttributeError
  | TypeError
  | ValueError.

(** A computation that may raise: [inl e] raises [e], [inr v] returns [v]. *)
Definition result (A : Type) : Type := (exn + A)%type.

Definition ret {A} (v : A) : result A := inr v.
Definition raise {A} (e : exn) : result A := inl e.

Definition bind {A B} (c : result A) (k : A -> result B) : result B :=
  match c with
  | inl e => inl e
  | inr v => k v
  end.

Notation "x <- c ;; k" := (bind c (fun x => k))
  (at level 61, c at next level, right associativity).

(** ** Dictionaries *)

Definition dict (V : Type) : Type := list (string * V).

Section Dict.
Context {V : Type}.

Fixpoint dict_get (k : string) (d : dict V) : option V :=
  match d with
  | [] => None
  | (k', v) :: d' => if String.eqb k k' then Some v else dict_get k d'
  end.

(** [k in d] *)
Definition dict_mem (k : string) (d : dict V) : bool :=
  match dict_get k d with Some _ => true | None => false end.

(** [d[k] = v]: an existing key keeps its place, a new key goes last. *)
Fixpoint dict_set (k : string) (v : V) (d : dict V) : dict V :=
  match d with
  | [] => [(k, v)]
  | (k', v') :: d' =>
      if String.eqb k k' then (k', v) :: d' else (k', v') :: dict_set k v d'
  end.

Definition dict_keys (d : dict V) : list string := map fst d.
Definition dict_values (d : dict V) : list V := map snd d.

(** [d.get(k, default)] *)
Definition dict_get_default (k : string) (default : V) (d : dict V) : V :=
  match dict_get k d with Some v => v | None => default end.
End Dict.

(** [{k: f(k, v) for k, v in d.items()}] where [f] may raise. *)
Fixpoint dict_comprehension {V W} (f : string -> V -> result W) (d : dict V)
  : result (dict W) :=
  match d with
  | [] => ret []
  | (k, v) :: d' =>
      w <- f k v ;;
      r <- dict_comprehension f d' ;;
      ret ((k, w) :: r)
  end.

(** [k in l] for a list of strings *)
Definition str_in (k : string) (l : list string) : bool :=
  existsb (String.eqb k) l.

Section Arithmetic.
Context {A : Type} `{PyFloat A}.

(** [sum(values)]: the accumulator starts at the int [0]. *)
Definition pysum (values : list A) : A := fold_left fadd values (of_int 0).

(** [x / y] on floats *)
Definition truediv (x y : A) : result A :=
  if feqb y (of_int 0) then raise ZeroDivisionError else ret (fdiv x y).

(** [n / m] on ints *)
Definition int_truediv (n m : Z) : result A :=
  if (m =? 0)%Z then raise ZeroDivisionError else ret (fdiv (of_int n) (of_int m)).

(** [max(values)] of a non-empty sequence: the first maximal element. *)
Definition pymax (v : A) (vs : list A) : A :=
  fold_left (fun m x => if fltb m x then x else m) vs v.
End Arithmetic.

(** ** The taxonomy (EmotionDetector.__init__) *)

Definition taxonomy : list string :=
  [ "admiration"; "amusement"; "anger"; "annoyance"; "approval"; "caring"; "confusion"; "curiosity";
    "desire"; "disappointment"; "disapproval"; "disgust"; "embarrassment"; "excitement"; "fear";
    "gratitude"; "grief"; "joy"; "love"; "nervousness"; "optimism"; "pride"; "realization";
    "relief"; "remorse"; "sadness"; "surprise"; "neutral" ].

Definition positive_emotions : list string :=
  [ "admiration"; "amusement"; "approval"; "caring";
    "curiosity"; "desire"; "excitement"; "gratitude";
    "joy"; "love"; "optimism"; "pride";
    "realization"; "relief" ].

Definition negative_emotions : list string :=
  [ "anger"; "annoyance"; "disappointment";
    "disapproval"; "disgust"; "embarrassment"; "fear";
    "grief"; "nervousness"; "remorse"; "sadness" ].

Definition neutral_emotions : list string :=
  [ "surprise"; "neutral"; "confusion" ].

Section Normalizer.
Context {A : Type} `{PyFloat A}.

(** [self.emotion_scores] as [__init__] leaves it: every label at [0.0]. *)
Definition emotion_scores_init : dict A :=
  map (fun k => (k, lit 0 1)) taxonomy.

(** One element of the classifier's output, [{'label': ..., 'score': ...}]. *)
Record item : Type := Item { label : string; score : A }.

(** What [_process_model_output] may be handed: a list of items, or
    something that is not a list (the fallback pipeline returns a dict). *)
Inductive py_results : Type :=
  | ResList (items : list item)
  | ResOther.

(** The body of the [for item in result] loop. *)
Definition store_item (scores : dict A) (it : item) : dict A :=
  if dict_mem (label it) scores
  then dict_set (label it) (score it) scores
  else dict_set "neutral" (lit 5 10) scores.

(** [_process_model_output(self, results)].  [self_scores] is
    [self.emotion_scores] on entry; the second component of the result is
    [self.emotion_scores] on exit.  The returned dictionary is that same
    object. *)
Definition _process_model_output (results : py_results) (self_scores : dict A)
  : result (dict A) * dict A :=
  let scores :=
    match results with
    | ResList ((_ :: _) as items) => fold_left store_item items self_scores
    | _ => self_scores
    end in
  let total_score := pysum (dict_values scores) in
  if fltb (of_int 0) total_score then
    match dict_comprehension (fun _ v => truediv v total_score) scores with
    | inr normalized => (inr normalized, normalized)
    | inl e => (inl e, scores)
    end
  else
    let scores' := dict_set "neutral" (lit 1 1) scores in
    (inr scores', scores').
End Normalizer.

Arguments item A : clear implicits.
Arguments py_results A : clear implicits.

(** ** Cultural profiles (data_preprocessing.load_cultural_context) *)

(** A value stored in a profile: a string, or a list of strings. *)
Inductive pyval : Type :=
  | VStr (s : string)
  | VList (l : list string).

(** [v == s] for a string literal [s] *)
Definition pyval_is (v : pyval) (s : string) : bool :=
  match v with
  | VStr s' => String.eqb s' s
  | VList _ => false
  end.

Definition profile : Type := dict pyval.

Definition load_cultural_context : dict profile :=
  [ ("western",
      [ ("communication_style", VStr "direct");
        ("emotional_expression", VStr "expressive");
        ("tone_preference", VStr "casual");
        ("self_expression", VStr "individual");
        ("conflict_response", VStr "confrontational");
        ("feedback_style", VStr "direct");
        ("support_preferences", VList ["practical_advice"; "emotional_validation"]);
        ("values", VList ["autonomy"; "achievement"; "openness"]) ]);
    ("eastern",
      [ ("communication_style", VStr "indirect");
        ("emotional_expression", VStr "reserved");
        ("tone_preference", VStr "formal");
        ("self_expression", VStr "collective");
        ("conflict_response", VStr "avoidant");
        ("feedback_style", VStr "indirect");
        ("support_preferences", VList ["group_harmony"; "respectful_distance"]);
        ("values", VList ["harmony"; "respect"; "duty"]) ]);
    ("default",
      [ ("communication_style", VStr "balanced");
        ("emotional_expression", VStr "adaptive");
        ("tone_preference", VStr "neutral");
        ("self_expression", VStr "flexible");
        ("conflict_response", VStr "contextual");
        ("feedback_style", VStr "constructive");
        ("support_preferences", VList ["empathetic_listening"; "gentle_guidance"]);
        ("values", VList ["adaptability"; "understanding"; "balance"]) ]) ].

(** [self.cultural_context.get(context, self.cultural_context.get('default', {}))]
    followed by [context_info.get('emotional_expression', 'adaptive')]. *)
Definition expression_style (cultural_context : dict profile) (context : string) : pyval :=
  let context_info :=
    dict_get_default context (dict_get_default "default" [] cultural_context)
                     cultural_context in
  dict_get_default "emotional_expression" (VStr "adaptive") context_info.

Section Adjuster.
Context {A : Type} `{PyFloat A}.

(** [for emotion in adjusted_scores:
       if emotion not in self.neutral_emotions: adjusted_scores[emotion] *= factor].
    Every key is visited once and only its own value is rewritten.  In the
    reserved branch the [else] arm evaluates
    [adjusted_scores[emotion] + 0.2 * sum(emotion_scores.values())] and
    drops the value, so a neutral-class entry is kept as it is. *)
Definition scale_outward (factor : A) (adjusted_scores : dict A) : dict A :=
  map (fun '(emotion, v) =>
         if negb (str_in emotion neutral_emotions)
         then (emotion, fmul v factor)
         else (emotion, v))
      adjusted_scores.

(** The scores after the style branch, before they are normalized. *)
Definition adjust_for_style (style : pyval) (emotion_scores : dict A) : dict A :=
  if pyval_is style "reserved" then scale_outward (lit 8 10) emotion_scores
  else if pyval_is style "expressive" then scale_outward (lit 12 10) emotion_scores
  else emotion_scores.

(** The [try] block of [_apply_cultural_context]. *)
Definition _apply_cultural_context_try
    (cultural_context : dict profile) (emotion_scores : dict A) (context : string)
  : result (dict A) :=
  let style := expression_style cultural_context context in
  let adjusted_scores := adjust_for_style style emotion_scores in
  let total := pysum (dict_values adjusted_scores) in
  if fltb (of_int 0) total
  then dict_comprehension (fun _ v => truediv v total) adjusted_scores
  else ret adjusted_scores.

(** [_apply_cultural_context(self, emotion_scores, context)], with
    [self.cultural_context] as first argument: [except Exception] returns
    the scores it was given. *)
Definition _apply_cultural_context
    (cultural_context : dict profile) (emotion_scores : dict A) (context : string)
  : dict A :=
  match _apply_cultural_context_try cultural_context emotion_scores context with
  | inr adjusted_scores => adjusted_scores
  | inl _ => emotion_scores
  end.
End Adjuster.

(** ** Text *)

(** A Python [str] is a sequence of Unicode code points; [len] is the
    length of the sequence. *)
Definition codepoint : Type := N.
Definition text : Type := list codepoint.

(** The text of a string literal of the source, whose characters are all
    ASCII: one code point for each character. *)
Definition text_of (s : string) : text := map N_of_ascii (list_ascii_of_string s).

(** The tables of the Unicode database that Python consults: [c.isupper()]
    for a character [c], [s.lower()] for a text [s] (which may change its
    length) and [s.upper()] for a label.  The model takes them as they come;
    what is proved holds for every such table, Python's among them. *)
Class PyStr : Type := {
  isupper : codepoint -> bool;
  lower : text -> text;
  upper : string -> string
}.

(** The three tables on the Basic Latin block, where Python's are: A to Z
    are the uppercase letters and a to z their lowercase forms.  The worked
    examples, all on ASCII texts, are evaluated with these. *)
Definition basic_latin_isupper (c : codepoint) : bool := (65 <=? c)%N && (c <=? 90)%N.

Definition basic_latin_lower (c : codepoint) : codepoint :=
  if basic_latin_isupper c then (c + 32)%N else c.

Definition basic_latin_upper (c : ascii) : ascii :=
  let n := nat_of_ascii c in
  if (97 <=? n)%nat && (n <=? 122)%nat then ascii_of_nat (n - 32)%nat else c.

Fixpoint str_map (f : ascii -> ascii) (s : string) : string :=
  match s with
  | EmptyString => EmptyString
  | String c s' => String (f c) (str_map f s')
  end.

Definition basic_latin : PyStr :=
  {| isupper := basic_latin_isupper;
     lower := map basic_latin_lower;
     upper := str_map basic_latin_upper |}.

(** [s.startswith(sub)] *)
Fixpoint starts_with (sub s : text) : bool :=
  match sub, s with
  | [], _ => true
  | _ :: _, [] => false
  | c :: sub', c' :: s' => N.eqb c c' && starts_with sub' s'
  end.

(** [sub in s] *)
Fixpoint contains (sub s : text) : bool :=
  if starts_with sub s then true
  else match s with
       | [] => false
       | _ :: s' => contains sub s'
       end.

(** [any(mod in text for mod in mods)], the [mods] being literals *)
Definition any_in (mods : list string) (t : text) : bool :=
  existsb (fun m => contains (text_of m) t) mods.

(** [s.count(sub)] for a non-empty [sub]: the occurrences met from left to
    right, none overlapping the one before; [skip] is the number of
    characters still covered by the last occurrence. *)
Fixpoint count_from (sub s : text) (skip : nat) : Z :=
  match s with
  | [] => 0%Z
  | _ :: s' =>
      match skip with
      | S k => count_from sub s' k
      | O =>
          if starts_with sub s
          then (1 + count_from sub s' (List.length sub - 1))%Z
          else count_from sub s' 0
      end
  end.

Definition str_count (sub s : text) : Z :=
  match sub with
  | [] => (Z.of_nat (List.length s) + 1)%Z
  | _ => count_from sub s 0
  end.

(** [not s] for a string [s] *)
Definition is_empty (s : text) : bool :=
  match s with
  | [] => true
  | _ :: _ => false
  end.

(** [' '.join(parts)] *)
Fixpoint join (sep : text) (parts : list text) : text :=
  match parts with
  | [] => []
  | [part] => part
  | part :: parts' => part ++ sep ++ join sep parts'
  end.

(** [sum] of ints. *)
Definition zsum (l : list Z) : Z := fold_left Z.add l 0%Z.

(** What a caller may pass as [text]: a string, [None], or an int. *)
Inductive py_text : Type :=
  | TStr (s : text)
  | TNone
  | TInt (n : Z).

(** [bool(text)] *)
Definition truthy (text : py_text) : bool :=
  match text with
  | TStr s => negb (is_empty s)
  | TNone => false
  | TInt n => negb (n =? 0)%Z
  end.

(** [text.count('!')] *)
Definition py_count_exclam (text : py_text) : result Z :=
  match text with
  | TStr s => ret (str_count (text_of "!") s)
  | _ => raise AttributeError
  end.

(** [sum(1 for c in text if c.isupper())] *)
Definition py_count_upper {PS : PyStr} (text : py_text) : result Z :=
  match text with
  | TStr s => ret (zsum (map (fun _ => 1%Z) (filter isupper s)))
  | _ => raise TypeError
  end.

(** [len(text)] *)
Definition py_len (text : py_text) : result Z :=
  match text with
  | TStr s => ret (Z.of_nat (List.length s))
  | _ => raise TypeError
  end.

(** ** The intensity classifier *)

Inductive intensity_level : Type := Low | Medium | High.

Definition intensity_str (l : intensity_level) : string :=
  match l with
  | Low => "low"
  | Medium => "medium"
  | High => "high"
  end.

(** [self.intensity_modifiers] *)
Definition intensity_modifiers : dict (list string) :=
  [ ("high",
      [ "very"; "extremely"; "incredibly"; "absolutely"; "totally";
        "completely"; "utterly"; "really really"; "so"; "!!!";
        "tremendously"; "immensely"; "super"; "insanely";
        "ridiculously"; "hugely"; "wildly"; "overwhelmingly";
        "soooo"; "nooo way"; "yesss"; "omg"; "oh my god"; "wow";
        "ugh"; "argh"; "not at all"; "never"; "no way" ]);
    ("medium",
      [ "quite"; "pretty"; "rather"; "fairly"; "somewhat"; "really";
        "relatively"; "kind of"; "sort of"; "more or less"; "moderately";
        "reasonably"; "kinda"; "pretty much" ]);
    ("low",
      [ "a bit"; "slightly"; "little"; "maybe"; "perhaps"; "not really";
        "not sure"; "sorta"; "I guess"; "possibly"; "kinda small";
        "barely"; "hardly"; "almost"; "just a touch"; "hardly ever"; "scarcely" ]) ].

Section Intensity.
Context {A : Type} `{PyFloat A} {PS : PyStr}.

(** [max(emotion_scores.values()) if emotion_scores else 0] *)
Definition max_score_of (emotion_scores : dict A) : A :=
  match dict_values emotion_scores with
  | [] => of_int 0
  | v :: vs => pymax v vs
  end.

(** The three tiers of returns that close [_calculate_intensity]. *)
Definition intensity_decision
    (max_score : A) (exclam : Z) (caps : A) (high_match med_match low_match : bool)
  : intensity_level :=
  if fleb (lit 75 100) max_score then
    if (2 <? exclam)%Z || fltb (lit 3 10) caps || high_match then High
    else if (1 <=? exclam)%Z || fleb (lit 1 10) caps || med_match then Medium
    else if low_match then Low
    else High
  else if fleb (lit 45 100) max_score then
    if (3 <=? exclam)%Z || fleb (lit 3 10) caps || high_match then High
    else if (1 <=? exclam)%Z || fleb (lit 1 10) caps || med_match then Medium
    else if low_match then Low
    else Medium
  else
    if (3 <=? exclam)%Z || fleb (lit 3 10) caps || high_match then High
    else if (1 <=? exclam)%Z || fleb (lit 1 10) caps || med_match then Medium
    else if low_match then Low
    else Low.

(** The [try] block of [_calculate_intensity]. *)
Definition _calculate_intensity_try (emotion_scores : dict A) (text : py_text)
  : result intensity_level :=
  let max_score := max_score_of emotion_scores in
  let text_lower := match text with TStr s => lower s | _ => [] end in
  exclam <- (if truthy text then py_count_exclam text else ret 0%Z) ;;
  caps <- (if truthy text
           then (n <- py_count_upper text ;;
                 len <- py_len text ;;
                 int_truediv n (Z.max 1 len))
           else ret (of_int 0)) ;;
  let modifiers :=
    match intensity_modifiers with
    | [] => [("high", []); ("medium", []); ("low", [])]
    | _ => intensity_modifiers
    end in
  let high_match := any_in (dict_get_default "high" [] modifiers) text_lower in
  let med_match := any_in (dict_get_default "medium" [] modifiers) text_lower in
  let low_match := any_in (dict_get_default "low" [] modifiers) text_lower in
  ret (intensity_decision max_score exclam caps high_match med_match low_match).

(** [_calculate_intensity(self, emotion_scores, text)]: [except Exception]
    returns ['low']. *)
Definition _calculate_intensity (emotion_scores : dict A) (text : py_text)
  : intensity_level :=
  match _calculate_intensity_try emotion_scores text with
  | inr level => level
  | inl _ => Low
  end.
End Intensity.

(** ** The trend analyzer *)

Inductive trend_label : Type :=
  | insufficient_data
  | stable
  | improving
  | declining
  | mixed.

Definition trend_str (t : trend_label) : string :=
  match t with
  | insufficient_data => "insufficient_data"
  | stable => "stable"
  | improving => "improving"
  | declining => "declining"
  | mixed => "mixed"
  end.

Definition trend_eqb (a b : trend_label) : bool :=
  String.eqb (trend_str a) (trend_str b).

(** What [_calculate_trend] may be handed: a list or tuple of emotions, or
    something else. *)
Inductive py_window : Type :=
  | WSeq (emotions : list string)
  | WOther.

(** [sum(1 for e in emotions if e in labels)] *)
Definition count_in (labels : list string) (emotions : list string) : nat :=
  List.length (filter (fun e => str_in e labels) emotions).

(** [set(emotions)] *)
Definition pyset (emotions : list string) : list string :=
  nodup string_dec emotions.

(** [_calculate_trend(self, emotions)].  On strings nothing in the body
    raises, so neither [except] arm is entered. *)
Definition _calculate_trend (emotions : py_window) : trend_label :=
  match emotions with
  | WOther => insufficient_data
  | WSeq [] => insufficient_data
  | WSeq emotions =>
      let pos_count := count_in positive_emotions emotions in
      let neg_count := count_in negative_emotions emotions in
      if (List.length (pyset emotions) =? 1)%nat then stable
      else if (neg_count <? pos_count)%nat then improving
      else if (pos_count <? neg_count)%nat then declining
      else mixed
  end.

(** [deque(maxlen=...).append(x)]: a full deque drops its oldest element. *)
Definition deque_append (maxlen : nat) (d : list string) (x : string) : list string :=
  if (maxlen =? 0)%nat then d
  else if (List.length d =? maxlen)%nat then tl d ++ [x]
  else d ++ [x].

(** [l[-n:]] *)
Definition last_n {T} (n : nat) (l : list T) : list T :=
  skipn (List.length l - n) l.

(** An emotion detection result as [get_emotion_trends] reads it; [None] is
    a missing key. *)
Record emotion_result : Type := EmotionResult {
  primary_emotion : option string;
  intensity : option string
}.

(** [result.get('primary_emotion', 'neutral')] *)
Definition primary_of (r : emotion_result) : string :=
  match primary_emotion r with Some e => e | None => "neutral" end.

(** [result.get('intensity', 'low')] *)
Definition intensity_of (r : emotion_result) : string :=
  match intensity r with Some i => i | None => "low" end.

(** [emotion_counts[emotion] = emotion_counts.get(emotion, 0) + 1] *)
Definition count_emotion (emotion_counts : dict nat) (emotion : string) : dict nat :=
  dict_set emotion (dict_get_default emotion 0%nat emotion_counts + 1)%nat emotion_counts.

(** [max(emotion_counts.keys(), key=lambda k: emotion_counts[k])]: the first
    key whose count is maximal; [max] of nothing raises. *)
Definition max_key (emotion_counts : dict nat) : result string :=
  match emotion_counts with
  | [] => raise ValueError
  | kc :: rest =>
      ret (fst (fold_left (fun best kc' => if (snd best <? snd kc')%nat then kc' else best)
                          rest kc))
  end.

Definition intensity_values : dict Z :=
  [ ("low", 1%Z); ("medium", 2%Z); ("high", 3%Z) ].

(** The buffer [recent_emotions] after the second loop. *)
Definition recent_emotions (emotion_results : list emotion_result) : list string :=
  fold_left (fun d r => deque_append 10 d (primary_of r)) emotion_results [].

Section Trends.
Context {A : Type} `{PyFloat A} {PS : PyStr}.

(** [np.mean] of a list of ints. *)
Definition np_mean (l : list Z) : A :=
  fdiv (of_int (fold_left Z.add l 0%Z)) (of_int (Z.of_nat (List.length l))).

(** The dictionary [get_emotion_trends] returns; a key the empty-input
    report does not have is [None]. *)
Record trend_report : Type := TrendReport {
  dominant_emotion : string;
  emotion_distribution : option (dict nat);
  average_intensity : option A;
  trend : string;
  total_messages : option nat;
  analysis : string
}.

(** [get_emotion_trends(self, emotion_results)].  The string assigned to
    [trend] when the buffer holds fewer than 3 emotions is overwritten before
    anything reads it, and is left out. *)
Definition get_emotion_trends (emotion_results : list emotion_result)
  : result trend_report :=
  match emotion_results with
  | [] =>
      ret {| dominant_emotion := "neutral";
             emotion_distribution := None;
             average_intensity := None;
             trend := "stable";
             total_messages := None;
             analysis := "No data available" |}
  | _ =>
      let emotion_counts :=
        fold_left (fun counts r => count_emotion counts (primary_of r))
                  emotion_results [] in
      let intensities := map intensity_of emotion_results in
      dominant <- max_key emotion_counts ;;
      let avg_intensity :=
        np_mean (map (fun i => dict_get_default i 1%Z intensity_values) intensities) in
      let recent := recent_emotions emotion_results in
      let short_term_trend := _calculate_trend (WSeq (last_n 3 recent)) in
      let medium_window := last_n 7 recent in
      let medium_term_trend := _calculate_trend (WSeq medium_window) in
      let overall :=
        if trend_eqb short_term_trend medium_term_trend
        then trend_str short_term_trend
        else "mixed" in
      let trend_text :=
        ("short-term: " ++ trend_str short_term_trend ++
         ", mid-term: " ++ trend_str medium_term_trend ++
         " and overall: " ++ overall)%string in
      ret {| dominant_emotion := dominant;
             emotion_distribution := Some emotion_counts;
             average_intensity := Some avg_intensity;
             trend := trend_text;
             total_messages := Some (List.length emotion_results);
             analysis := ("Primary emotion: " ++ upper dominant ++
                          " with " ++ trend_text ++ " trend")%string |}
  end.
End Trends.

Arguments trend_report A : clear implicits.

(** * The rest of the detector and the code around it

    [EmotionDetector.detect_emotion] and [batch_detect_emotions], the
    fallback [SimpleEmotionDetector] (src/simple_emotion_detector.py), the
    bookkeeping of [ResponseGenerator] (src/response_generator.py) and the
    session analytics of [EmotionalChatbot] (src/chatbot.py).  What these
    call outside the repository is an argument of the model: the
    transformers pipeline and the text preprocessor are functions handed to
    [detect_emotion], and the answer of the language model is handed to
    [generate_response].  The 'timestamp' entries, readings of the system
    clock that nothing else reads, are left out of the records. *)

(** ** Builtins *)

(** [max(d.keys(), key=lambda k: d[k])] with the value it was chosen for:
    the first key whose value is greatest; [max] of nothing raises. *)
Definition argmax {V} (gt : V -> V -> bool) (d : dict V) : result (string * V) :=
  match d with
  | [] => raise ValueError
  | kv :: rest =>
      ret (fold_left (fun best kv' => if gt (snd kv') (snd best) then kv' else best)
                     rest kv)
  end.

(** [a > b] and [min(a, b)] on floats. *)
Definition fgtb {A} `{PyFloat A} (a b : A) : bool := fltb b a.
Definition pymin {A} `{PyFloat A} (a b : A) : A := if fltb b a then b else a.

(** ** Detection results *)

(** The dictionary [detect_emotion] returns; ['keyword_matches'] is a key of
    the simple detector's results only. *)
Record detection (A : Type) : Type := Detection {
  det_primary_emotion : string;
  det_confidence : A;
  det_all_emotions : dict A;
  det_cultural_context : string;
  det_original_text : text;
  det_processed_text : text;
  det_intensity : intensity_level;
  det_keyword_matches : option Z
}.

Arguments Detection {A}.
Arguments det_primary_emotion {A} _.
Arguments det_confidence {A} _.
Arguments det_all_emotions {A} _.
Arguments det_cultural_context {A} _.
Arguments det_original_text {A} _.
Arguments det_processed_text {A} _.
Arguments det_intensity {A} _.
Arguments det_keyword_matches {A} _.

(** A detection as [get_emotion_trends] reads it. *)
Definition as_emotion_result {A} (r : detection A) : emotion_result :=
  {| primary_emotion := Some (det_primary_emotion r);
     intensity := Some (intensity_str (det_intensity r)) |}.

(** ** SimpleEmotionDetector *)

Module SimpleEmotionDetector.

Definition emotion_keywords : dict (list string) :=
  [ ("joy",
      [ "happy"; "excited"; "thrilled"; "delighted"; "elated"; "joyful"; "cheerful";
        "pleased"; "glad"; "fantastic"; "amazing"; "wonderful"; "great"; "awesome";
        "excellent"; "perfect"; "love"; "celebrating"; "celebration"; "success";
        "achievement"; "won"; "victory"; "proud" ]);
    ("sadness",
      [ "sad"; "depressed"; "down"; "blue"; "unhappy"; "miserable"; "heartbroken";
        "crying"; "tears"; "lonely"; "empty"; "disappointed"; "grief"; "sorrow";
        "hurt"; "pain"; "loss"; "devastated"; "hopeless"; "despair"; "rejected";
        "abandoned"; "betrayed"; "failed" ]);
    ("anger",
      [ "angry"; "furious"; "mad"; "rage"; "irritated"; "annoyed"; "frustrated";
        "outraged"; "livid"; "enraged"; "infuriated"; "pissed"; "hate"; "disgusted";
        "fed up"; "stupid"; "ridiculous"; "unfair"; "betrayed"; "cheated"; "scammed";
        "terrible"; "awful" ]);
    ("fear",
      [ "scared"; "afraid"; "frightened"; "terrified"; "worried"; "anxious"; "nervous";
        "concerned"; "panic"; "stress"; "overwhelmed"; "helpless"; "vulnerable";
        "insecure"; "uncertain"; "doubt"; "apprehensive"; "tense"; "uneasy";
        "paranoid"; "threatened" ]);
    ("surprise",
      [ "surprised"; "shocked"; "amazed"; "astonished"; "stunned"; "unexpected"; "wow";
        "unbelievable"; "incredible"; "remarkable"; "extraordinary"; "sudden";
        "abrupt"; "out of nowhere"; "blindsided" ]);
    ("disgust",
      [ "disgusting"; "gross"; "revolting"; "repulsive"; "sickening"; "nauseating";
        "appalling"; "horrible"; "repugnant"; "vile"; "offensive"; "distasteful";
        "unpleasant"; "yucky" ]) ].

Definition intensity_modifiers : dict (list string) :=
  [ ("high",
      [ "very"; "extremely"; "incredibly"; "absolutely"; "totally"; "completely";
        "utterly"; "really really"; "so"; "!!!"; "tremendously"; "immensely" ]);
    ("medium",
      [ "quite"; "pretty"; "rather"; "fairly"; "somewhat"; "really" ]);
    ("low",
      [ "a bit"; "slightly"; "little"; "kind of"; "sort of"; "maybe" ]) ].

(** The trend of the simple [get_emotion_trends]: the last three emotions,
    once there are three. *)
Definition simple_trend (emotions : list string) : string :=
  if (3 <=? List.length emotions)%nat then
    let recent := last_n 3 emotions in
    if forallb (fun e => str_in e ["joy"; "surprise"]) recent then "improving"
    else if forallb (fun e => str_in e ["sadness"; "anger"; "fear"]) recent then "declining"
    else "mixed"
  else "stable".

Section Simple.
Context {A : Type} `{PyFloat A} {PS : PyStr}.

Definition _create_neutral_result : detection A :=
  {| det_primary_emotion := "neutral";
     det_confidence := lit 5 10;
     det_all_emotions := [("neutral", lit 1 1)];
     det_cultural_context := "default";
     det_original_text := [];
     det_processed_text := [];
     det_intensity := Low;
     det_keyword_matches := Some 0%Z |}.

(** The single cascade of returns of the simple [_calculate_intensity]. *)
Definition intensity_decision (exclam : Z) (caps : A) (high_match med_match low_match : bool)
  : intensity_level :=
  if (2 <? exclam)%Z || fltb (lit 3 10) caps || high_match then High
  else if (1 <=? exclam)%Z || fleb (lit 1 10) caps || med_match then Medium
  else if low_match then Low
  else High.

Definition _calculate_intensity_try (text : py_text) : result intensity_level :=
  let text_lower := match text with TStr s => lower s | _ => [] end in
  exclam <- (if truthy text then py_count_exclam text else ret 0%Z) ;;
  caps <- (if truthy text
           then (n <- py_count_upper text ;;
                 len <- py_len text ;;
                 int_truediv n (Z.max 1 len))
           else ret (of_int 0)) ;;
  let modifiers :=
    match intensity_modifiers with
    | [] => [("high", []); ("medium", []); ("low", [])]
    | _ => intensity_modifiers
    end in
  let high_match := any_in (dict_get_default "high" [] modifiers) text_lower in
  let med_match := any_in (dict_get_default "medium" [] modifiers) text_lower in
  let low_match := any_in (dict_get_default "low" [] modifiers) text_lower in
  ret (intensity_decision exclam caps high_match med_match low_match).

Definition _calculate_intensity (text : py_text) : intensity_level :=
  match _calculate_intensity_try text with
  | inr level => level
  | inl _ => Low
  end.

(** [_apply_cultural_context(self, confidence, emotion, text, context)] *)
Definition _apply_cultural_context (confidence : A) (emotion : string) (text : text)
    (context : string) : A :=
  let confidence :=
    if String.eqb context "eastern" then
      if str_in emotion ["anger"; "joy"] then fmul confidence (lit 9 10) else confidence
    else if String.eqb context "western" then
      if any_in ["i feel"; "i am"] (lower text) then fmul confidence (lit 11 10)
      else confidence
    else confidence in
  pymin (lit 95 100) confidence.

(** The keyword counts of a lowercased text, one per emotion. *)
Definition keyword_scores (text_lower : text) : dict Z :=
  map (fun '(emotion, keywords) =>
         (emotion, fold_left (fun score keyword =>
                                (score + str_count (text_of keyword) text_lower)%Z)
                             keywords 0%Z))
      emotion_keywords.

(** [detect_emotion(self, text, cultural_context)] *)
Definition detect_emotion (text : py_text) (cultural_context : string)
  : result (detection A) :=
  match text with
  | TStr text =>
      if is_empty text then ret _create_neutral_result
      else
        let text_lower := lower text in
        let emotion_scores := keyword_scores text_lower in
        if (zsum (dict_values emotion_scores) =? 0)%Z then ret _create_neutral_result
        else
          primary <- argmax Z.gtb emotion_scores ;;
          let primary_emotion := fst primary in
          let total_matches := zsum (dict_values emotion_scores) in
          let primary_matches := snd primary in
          ratio <- int_truediv primary_matches (Z.max 1 total_matches) ;;
          let confidence := pymin (lit 95 100) (fadd (fmul ratio (lit 8 10)) (lit 2 10)) in
          let intensity := _calculate_intensity (TStr text) in
          let adjusted_confidence :=
            _apply_cultural_context confidence primary_emotion text cultural_context in
          normalized_scores <-
            (if (0 <? total_matches)%Z
             then dict_comprehension (fun _ v => int_truediv v total_matches) emotion_scores
             else ret [("neutral", lit 1 1)]) ;;
          ret {| det_primary_emotion := primary_emotion;
                 det_confidence := adjusted_confidence;
                 det_all_emotions := normalized_scores;
                 det_cultural_context := cultural_context;
                 det_original_text := text;
                 det_processed_text := text_lower;
                 det_intensity := intensity;
                 det_keyword_matches := Some primary_matches |}
  | _ => ret _create_neutral_result
  end.

(** [get_emotion_trends(self, emotion_results)]: [Counter] counts in order
    of first occurrence and [most_common(1)] takes its first maximum. *)
Definition get_emotion_trends (emotion_results : list (detection A))
  : result (trend_report A) :=
  match emotion_results with
  | [] =>
      ret {| dominant_emotion := "neutral";
             emotion_distribution := None;
             average_intensity := None;
             trend := "stable";
             total_messages := None;
             analysis := "No data available" |}
  | _ =>
      let emotions := map det_primary_emotion emotion_results in
      let emotion_counts := fold_left count_emotion emotions [] in
      dominant <- max_key emotion_counts ;;
      let trend := simple_trend emotions in
      ret {| dominant_emotion := dominant;
             emotion_distribution := Some emotion_counts;
             average_intensity := None;
             trend := trend;
             total_messages := Some (List.length emotion_results);
             analysis := ("Primary emotion: " ++ dominant ++
                          " with " ++ trend ++ " trend")%string |}
  end.
End Simple.

End SimpleEmotionDetector.

(** ** EmotionDetector, continued *)

(** What [__init__] leaves in the detector besides the scores: the loaded
    pipeline ([None] when transformers or the model is missing; it returns
    [results[0]] or raises), the preprocessor with the arguments
    [detect_emotion] passes (regular expressions and the lemmatizer, taken
    to return a string), and whether the simple detector was imported. *)
Record detector_env (A : Type) : Type := DetectorEnv {
  emotion_pipeline : option (text -> result (py_results A));
  preprocess_text : text -> text;
  simple_detector : bool
}.

Arguments emotion_pipeline {A} _.
Arguments preprocess_text {A} _.
Arguments simple_detector {A} _.

Section Detect.
Context {A : Type} `{PyFloat A} {PS : PyStr}.

Definition _create_neutral_result : detection A :=
  {| det_primary_emotion := "neutral";
     det_confidence := lit 5 10;
     det_all_emotions := [("neutral", lit 1 1)];
     det_cultural_context := "default";
     det_original_text := [];
     det_processed_text := [];
     det_intensity := Low;
     det_keyword_matches := None |}.

(** The simple detector if there is one, else the neutral result. *)
Definition fallback_result (env : detector_env A) (text : text) (cultural_context : string)
  : result (detection A) :=
  if simple_detector env
  then SimpleEmotionDetector.detect_emotion (TStr text) cultural_context
  else ret _create_neutral_result.

(** The [try] block of [detect_emotion], with [self.emotion_scores] before
    and after. *)
Definition detect_emotion_try
    (pipeline : text -> result (py_results A))
    (text processed_text : text) (cultural_context : string) (self_scores : dict A)
  : result (detection A) * dict A :=
  match pipeline processed_text with
  | inl e => (inl e, self_scores)
  | inr results =>
      let (processed, self_scores') := _process_model_output results self_scores in
      (emotion_scores <- processed ;;
       let adjusted_scores :=
         _apply_cultural_context load_cultural_context emotion_scores cultural_context in
       primary <- argmax fgtb adjusted_scores ;;
       ret {| det_primary_emotion := fst primary;
              det_confidence := snd primary;
              det_all_emotions := adjusted_scores;
              det_cultural_context := cultural_context;
              det_original_text := text;
              det_processed_text := processed_text;
              det_intensity := _calculate_intensity adjusted_scores (TStr text);
              det_keyword_matches := None |},
       self_scores')
  end.

(** [detect_emotion(self, text, cultural_context)] *)
Definition detect_emotion
    (env : detector_env A) (text : py_text) (cultural_context : string)
    (self_scores : dict A)
  : result (detection A) * dict A :=
  match text with
  | TStr text =>
      if is_empty text then (ret _create_neutral_result, self_scores)
      else
        match emotion_pipeline env with
        | None => (fallback_result env text cultural_context, self_scores)
        | Some pipeline =>
            let processed_text := preprocess_text env text in
            match detect_emotion_try pipeline text processed_text cultural_context
                                     self_scores with
            | (inr r, self_scores') => (ret r, self_scores')
            | (inl _, self_scores') =>
                (fallback_result env text cultural_context, self_scores')
            end
        end
  | _ => (ret _create_neutral_result, self_scores)
  end.

(** [batch_detect_emotions(self, texts, cultural_context)]: one call after
    the other on the same detector; an exception ends the comprehension. *)
Fixpoint batch_detect_emotions
    (env : detector_env A) (texts : list py_text) (cultural_context : string)
    (self_scores : dict A)
  : result (list (detection A)) * dict A :=
  match texts with
  | [] => (ret [], self_scores)
  | text :: texts' =>
      match detect_emotion env text cultural_context self_scores with
      | (inl e, self_scores') => (inl e, self_scores')
      | (inr r, self_scores') =>
          match batch_detect_emotions env texts' cultural_context self_scores' with
          | (inl e, self_scores'') => (inl e, self_scores'')
          | (inr rs, self_scores'') => (ret (r :: rs), self_scores'')
          end
      end
  end.
End Detect.

(** ** ResponseGenerator *)

(** An exception that reaches [process_message]: a missing key, one raised
    inside the detector, or one raised outside the repository (by the client
    of the language model), with its message. *)
Inductive exception : Type :=
  | KeyError (key : string)
  | Builtin (e : exn)
  | Raised (message : string).

Definition outcome (A : Type) : Type := (exception + A)%type.

Module ResponseGenerator.

Definition response_types : dict string :=
  [ ("admiration", "affirming");
    ("amusement", "lighthearted");
    ("anger", "validating");
    ("annoyance", "validating");
    ("approval", "affirming");
    ("caring", "appreciative");
    ("confusion", "clarifying");
    ("curiosity", "exploratory");
    ("desire", "encouraging");
    ("disappointment", "comforting");
    ("disapproval", "understanding");
    ("disgust", "understanding");
    ("embarrassment", "normalizing");
    ("excitement", "celebratory");
    ("fear", "reassuring");
    ("gratitude", "appreciative");
    ("grief", "compassionate");
    ("joy", "celebratory");
    ("love", "affirming");
    ("nervousness", "reassuring");
    ("optimism", "encouraging");
    ("pride", "congratulatory");
    ("realization", "exploratory");
    ("relief", "affirming");
    ("remorse", "supportive");
    ("sadness", "supportive");
    ("surprise", "curious");
    ("neutral", "engaging") ].

Definition _classify_response_type (emotion : string) : string :=
  dict_get_default emotion "supportive" response_types.

Definition suggestions : dict (list string) :=
  [ ("joy",
      [ "Tell me more about what made this so special";
        "How do you plan to build on this positive moment?";
        "What other good things have been happening lately?" ]);
    ("sadness",
      [ "Would you like to share more about what's troubling you?";
        "Is there anything specific that might help you feel better?";
        "How can I best support you right now?" ]);
    ("anger",
      [ "Would you like to talk through what happened?";
        "What do you think would help resolve this situation?";
        "How would you like to see this situation improve?" ]);
    ("fear",
      [ "What specific aspects concern you most?";
        "What might help you feel more prepared or confident?";
        "Would it help to break this down into smaller steps?" ]);
    ("surprise",
      [ "How are you processing this unexpected development?";
        "What do you think this means for you going forward?";
        "How has this changed your perspective?" ]);
    ("neutral",
      [ "What's been on your mind lately?";
        "Is there anything you'd like to explore or discuss?";
        "How has your day been going?" ]) ].

Definition _generate_follow_up_suggestions (emotion : string) : list string :=
  dict_get_default emotion (dict_get_default "neutral" [] suggestions) suggestions.

Definition continuity_prefixes : dict string :=
  [ ("sadness", "I notice you're still feeling down. ");
    ("anger", "I can see this situation is still bothering you. ");
    ("fear", "I understand this worry is persisting. ");
    ("joy", "Your happiness continues to shine through! ") ].

(** One entry of [self.conversation_memory]; its ['timestamp'] is the
    length of the memory when the entry was made. *)
Record memory_entry : Type := MemoryEntry {
  mem_user_text : text;
  mem_emotion : string;
  mem_response : string;
  mem_timestamp : nat
}.

Definition _update_memory (conversation_memory : list memory_entry)
    (user_text : text) (emotion response : string) : list memory_entry :=
  let metadata :=
    {| mem_user_text := user_text;
       mem_emotion := emotion;
       mem_response := response;
       mem_timestamp := List.length conversation_memory |} in
  let conversation_memory := conversation_memory ++ [metadata] in
  if (5 <? List.length conversation_memory)%nat
  then tl conversation_memory
  else conversation_memory.

(** The dictionary [generate_response] returns. *)
Record response_data (A : Type) : Type := ResponseData {
  response : string;
  emotion_addressed : string;
  rd_cultural_context : string;
  rd_confidence : A;
  rd_intensity : intensity_level;
  response_type : string;
  follow_up_suggestions : list string
}.

Arguments ResponseData {A}.
Arguments response {A} _.
Arguments emotion_addressed {A} _.
Arguments rd_cultural_context {A} _.
Arguments rd_confidence {A} _.
Arguments rd_intensity {A} _.
Arguments response_type {A} _.
Arguments follow_up_suggestions {A} _.

Section Generator.
Context {A : Type}.

(** [_construct_response]: the prompt is built, which looks the cultural
    context up in the loaded profiles, and sent to the language model, whose
    answer (or failure) [answer] is what the call returns.  The generator's
    own detector is consulted for the prompt only. *)
Definition _construct_response (answer : outcome string) (cultural_context : string)
  : outcome string :=
  if dict_mem cultural_context load_cultural_context then answer
  else inl (KeyError cultural_context).

(** [generate_response(self, emotion_result, user_text, cultural_context)],
    with [self.conversation_memory] before and after. *)
Definition generate_response (answer : outcome string)
    (emotion_result : detection A) (user_text : text) (cultural_context : string)
    (conversation_memory : list memory_entry)
  : outcome (response_data A) * list memory_entry :=
  let emotion := det_primary_emotion emotion_result in
  let intensity := det_intensity emotion_result in
  let confidence := det_confidence emotion_result in
  match _construct_response answer cultural_context with
  | inl e => (inl e, conversation_memory)
  | inr full_response =>
      (inr {| response := full_response;
              emotion_addressed := emotion;
              rd_cultural_context := cultural_context;
              rd_confidence := confidence;
              rd_intensity := intensity;
              response_type := _classify_response_type emotion;
              follow_up_suggestions := _generate_follow_up_suggestions emotion |},
       _update_memory conversation_memory user_text emotion full_response)
  end.

Definition _generate_continuity_response (answer : outcome string)
    (emotion_result : detection A) (user_text : text) (cultural_context : string)
    (conversation_memory : list memory_entry)
  : outcome (response_data A) * list memory_entry :=
  match generate_response answer emotion_result user_text cultural_context
                          conversation_memory with
  | (inl e, conversation_memory') => (inl e, conversation_memory')
  | (inr base_response, conversation_memory') =>
      let emotion := det_primary_emotion emotion_result in
      (inr match dict_get emotion continuity_prefixes with
           | Some prefix =>
               {| response := (prefix ++ response base_response)%string;
                  emotion_addressed := emotion_addressed base_response;
                  rd_cultural_context := rd_cultural_context base_response;
                  rd_confidence := rd_confidence base_response;
                  rd_intensity := rd_intensity base_response;
                  response_type := "continuity_aware";
                  follow_up_suggestions := follow_up_suggestions base_response |}
           | None => base_response
           end,
       conversation_memory')
  end.

(** Whether the last two remembered emotions are one emotion, and the
    current one. *)
Definition emotion_continues (conversation_memory : list memory_entry)
    (current_emotion : string) : bool :=
  if (1 <? List.length conversation_memory)%nat then
    let recent_emotions := map mem_emotion (last_n 2 conversation_memory) in
    if (List.length (pyset recent_emotions) =? 1)%nat
    then String.eqb current_emotion (hd "" recent_emotions)
    else false
  else false.

Definition get_contextual_response (answer : outcome string)
    (emotion_result : detection A) (user_text : text) (cultural_context : string)
    (conversation_memory : list memory_entry)
  : outcome (response_data A) * list memory_entry :=
  if emotion_continues conversation_memory (det_primary_emotion emotion_result)
  then _generate_continuity_response answer emotion_result user_text cultural_context
                                     conversation_memory
  else generate_response answer emotion_result user_text cultural_context
                         conversation_memory.
End Generator.

End ResponseGenerator.

(** ** EmotionalChatbot *)

Module EmotionalChatbot.

(** One entry of [self.conversation_history]. *)
Record conversation_entry (A : Type) : Type := ConversationEntry {
  user_message : text;
  emotion : string;
  confidence : A;
  entry_intensity : intensity_level;
  bot_response : string;
  entry_response_type : string
}.

Arguments ConversationEntry {A}.
Arguments user_message {A} _.
Arguments emotion {A} _.
Arguments confidence {A} _.
Arguments entry_intensity {A} _.
Arguments bot_response {A} _.
Arguments entry_response_type {A} _.

(** [self.user_profile] *)
Record user_profile : Type := UserProfile {
  profile_cultural_context : string;
  total_messages : Z;
  dominant_emotions : dict Z;
  conversation_themes : list string
}.

(** The chatbot: its default context, the scores of its detector, the
    memory of its response generator, its histories and its profile. *)
Record chatbot (A : Type) : Type := Chatbot {
  cultural_context : string;
  emotion_scores : dict A;
  conversation_memory : list ResponseGenerator.memory_entry;
  conversation_history : list (conversation_entry A);
  emotion_history : list (detection A);
  profile : user_profile
}.

Arguments Chatbot {A}.
Arguments cultural_context {A} _.
Arguments emotion_scores {A} _.
Arguments conversation_memory {A} _.
Arguments conversation_history {A} _.
Arguments emotion_history {A} _.
Arguments profile {A} _.

(** The ['error'] entry of an error response: "Invalid message format", or
    "Processing error: " followed by the text of the exception. *)
Inductive error_message : Type :=
  | Invalid_message_format
  | Processing_error (e : exception).

(** The dictionary [process_message] returns, its inner dictionaries laid
    out flat; ['error'] is a key of error responses only. *)
Record reply (A : Type) : Type := Reply {
  reply_bot_response : string;
  reply_primary_emotion : string;
  reply_confidence : A;
  reply_intensity : intensity_level;
  reply_all_emotions : dict A;
  reply_response_type : string;
  reply_cultural_context : string;
  reply_follow_up_suggestions : list string;
  reply_error : option error_message;
  reply_message_count : nat
}.

Arguments Reply {A}.
Arguments reply_bot_response {A} _.
Arguments reply_primary_emotion {A} _.
Arguments reply_confidence {A} _.
Arguments reply_intensity {A} _.
Arguments reply_all_emotions {A} _.
Arguments reply_response_type {A} _.
Arguments reply_cultural_context {A} _.
Arguments reply_follow_up_suggestions {A} _.
Arguments reply_error {A} _.
Arguments reply_message_count {A} _.

Definition theme_keywords : dict (list string) :=
  [ ("work",
      [ "work"; "job"; "career"; "colleague"; "boss"; "office"; "meeting" ]);
    ("relationships",
      [ "friend"; "family"; "partner"; "relationship"; "love"; "dating" ]);
    ("health",
      [ "tired"; "sick"; "health"; "doctor"; "medicine"; "pain" ]);
    ("personal_growth",
      [ "learning"; "goal"; "achievement"; "success"; "failure"; "improve" ]);
    ("daily_life",
      [ "day"; "morning"; "evening"; "home"; "routine"; "schedule" ]) ].

(** The dictionary [_assess_conversation_quality] returns; without a
    conversation it has the first two keys only. *)
Record quality_report : Type := QualityReport {
  quality : string;
  depth : string;
  engagement_score : option Z;
  emotional_openness : option Z
}.

Section Chatbot.
Context {A : Type} `{PyFloat A} {PS : PyStr}.

(** [EmotionalChatbot(cultural_context)] once [__init__] has run. *)
Definition new_chatbot (cultural_context : string) : chatbot A :=
  {| cultural_context := cultural_context;
     emotion_scores := emotion_scores_init;
     conversation_memory := [];
     conversation_history := [];
     emotion_history := [];
     profile := {| profile_cultural_context := cultural_context;
                   total_messages := 0;
                   dominant_emotions := [];
                   conversation_themes := [] |} |}.

Definition _update_conversation_history (bot : chatbot A) (user_message : text)
    (emotion_result : detection A) (response_data : ResponseGenerator.response_data A)
  : chatbot A :=
  let conversation_entry :=
    {| user_message := user_message;
       emotion := det_primary_emotion emotion_result;
       confidence := det_confidence emotion_result;
       entry_intensity := det_intensity emotion_result;
       bot_response := ResponseGenerator.response response_data;
       entry_response_type := ResponseGenerator.response_type response_data |} in
  let emotion := det_primary_emotion emotion_result in
  let tally := dominant_emotions (profile bot) in
  {| cultural_context := cultural_context bot;
     emotion_scores := emotion_scores bot;
     conversation_memory := conversation_memory bot;
     conversation_history := conversation_history bot ++ [conversation_entry];
     emotion_history := emotion_history bot ++ [emotion_result];
     profile :=
       {| profile_cultural_context := profile_cultural_context (profile bot);
          total_messages := (total_messages (profile bot) + 1)%Z;
          dominant_emotions :=
            if dict_mem emotion tally
            then dict_set emotion (dict_get_default emotion 0%Z tally + 1)%Z tally
            else dict_set emotion 1%Z tally;
          conversation_themes := conversation_themes (profile bot) |} |}.

Definition _create_error_response (bot : chatbot A) (error : error_message) : reply A :=
  {| reply_bot_response :=
       "I apologize, but I'm having trouble processing your message right now. Could you please try again?";
     reply_primary_emotion := "neutral";
     reply_confidence := lit 0 1;
     reply_intensity := Low;
     reply_all_emotions := [("neutral", lit 1 1)];
     reply_response_type := "error";
     reply_cultural_context := cultural_context bot;
     reply_follow_up_suggestions :=
       [ "Could you rephrase your message?";
         "Is there something specific I can help with?" ];
     reply_error := Some error;
     reply_message_count := List.length (conversation_history bot) |}.

(** The [try] block of [process_message]: the reply or the exception, and
    the chatbot as the block leaves it. *)
Definition process_message_try (env : detector_env A) (answer : outcome string)
    (user_message : text) (context : string) (bot : chatbot A)
  : outcome (reply A) * chatbot A :=
  match detect_emotion env (TStr user_message) context (emotion_scores bot) with
  | (inl e, scores) =>
      (inl (Builtin e),
       {| cultural_context := cultural_context bot;
          emotion_scores := scores;
          conversation_memory := conversation_memory bot;
          conversation_history := conversation_history bot;
          emotion_history := emotion_history bot;
          profile := profile bot |})
  | (inr emotion_result, scores) =>
      match ResponseGenerator.get_contextual_response
              answer emotion_result user_message context (conversation_memory bot) with
      | (inl e, memory) =>
          (inl e,
           {| cultural_context := cultural_context bot;
              emotion_scores := scores;
              conversation_memory := memory;
              conversation_history := conversation_history bot;
              emotion_history := emotion_history bot;
              profile := profile bot |})
      | (inr response_data, memory) =>
          let bot' :=
            _update_conversation_history
              {| cultural_context := cultural_context bot;
                 emotion_scores := scores;
                 conversation_memory := memory;
                 conversation_history := conversation_history bot;
                 emotion_history := emotion_history bot;
                 profile := profile bot |}
              user_message emotion_result response_data in
          (inr {| reply_bot_response := ResponseGenerator.response response_data;
                  reply_primary_emotion := det_primary_emotion emotion_result;
                  reply_confidence := det_confidence emotion_result;
                  reply_intensity := det_intensity emotion_result;
                  reply_all_emotions := det_all_emotions emotion_result;
                  reply_response_type := ResponseGenerator.response_type response_data;
                  reply_cultural_context := context;
                  reply_follow_up_suggestions :=
                    ResponseGenerator.follow_up_suggestions response_data;
                  reply_error := None;
                  reply_message_count := List.length (conversation_history bot') |},
           bot')
      end
  end.

(** [process_message(self, user_message, cultural_context)]; a
    [cultural_context] of [None] is the default argument. *)
Definition process_message (env : detector_env A) (answer : outcome string)
    (user_message : py_text) (cultural_context_arg : option string) (bot : chatbot A)
  : reply A * chatbot A :=
  match user_message with
  | TStr message =>
      if is_empty message
      then (_create_error_response bot Invalid_message_format, bot)
      else
        let context :=
          match cultural_context_arg with
          | Some c => if String.eqb c "" then cultural_context bot else c
          | None => cultural_context bot
          end in
        match process_message_try env answer message context bot with
        | (inr complete_response, bot') => (complete_response, bot')
        | (inl e, bot') => (_create_error_response bot' (Processing_error e), bot')
        end
  | _ => (_create_error_response bot Invalid_message_format, bot)
  end.

(** [_identify_themes(self)] *)
Definition _identify_themes (history : list (conversation_entry A)) : list string :=
  match history with
  | [] => []
  | _ =>
      let all_messages :=
        join (text_of " ") (map (fun entry => lower (user_message entry)) history) in
      let themes :=
        fold_left (fun themes '(theme, keywords) =>
                     if any_in keywords all_messages then themes ++ [theme] else themes)
                  theme_keywords [] in
      firstn 3 themes
  end.

(** [_assess_conversation_quality(self)] *)
Definition _assess_conversation_quality (history : list (conversation_entry A))
  : result quality_report :=
  match history with
  | [] => ret {| quality := "unknown"; depth := "shallow";
                 engagement_score := None; emotional_openness := None |}
  | _ =>
      let count := Z.of_nat (List.length history) in
      avg_message_length <-
        int_truediv (zsum (map (fun entry => Z.of_nat (List.length (user_message entry)))
                               history))
                    count ;;
      let emotion_variety := Z.of_nat (List.length (pyset (map emotion history))) in
      ret {| quality := if fltb (of_int 30) avg_message_length && (4 <? emotion_variety)%Z
                        then "good" else "basic";
             depth := if (5 <? count)%Z && (6 <? emotion_variety)%Z
                      then "deep" else "moderate";
             engagement_score := Some (Z.min 10 (count + emotion_variety));
             emotional_openness := Some emotion_variety |}
  end.

(** The recommendations of [_generate_session_recommendations] before the
    final [[:4]]. *)
Definition session_recommendations_uncut (history : list (conversation_entry A))
  : result (list string) :=
  let negative_emotions :=
    Z.of_nat (List.length (filter (fun entry => str_in (emotion entry)
                                                       ["sadness"; "anger"; "fear"])
                                  history)) in
  let total_messages := Z.of_nat (List.length history) in
  share <- int_truediv negative_emotions total_messages ;;
  let recommendations :=
    if fltb (lit 6 10) share then
      [ "Consider seeking additional emotional support";
        "Practice mindfulness or stress-reduction techniques" ]
    else if fltb share (lit 2 10) then
      [ "Keep maintaining your positive mindset!";
        "Share your positive energy with others" ]
    else [] in
  let themes := _identify_themes history in
  let recommendations :=
    if str_in "work" themes
    then recommendations ++ ["Consider work-life balance strategies"]
    else recommendations in
  let recommendations :=
    if str_in "relationships" themes
    then recommendations ++ ["Focus on healthy communication patterns"]
    else recommendations in
  ret recommendations.

(** [_generate_session_recommendations(self)] *)
Definition _generate_session_recommendations (history : list (conversation_entry A))
  : result (list string) :=
  match history with
  | [] => ret ["Start a conversation to get personalized recommendations"]
  | _ =>
      recommendations <- session_recommendations_uncut history ;;
      ret (firstn 4 recommendations)
  end.

End Chatbot.

End EmotionalChatbot.

(** * Notions used in the statements *)

(** ** Inputs and outputs of the normalizer *)


(** An input in which every recognized label has score zero. *)
Definition recognized_scores_zero {A} `{PyFloat A} (items : list (item A)) : Prop :=
  forall it, In it items -> str_in (label it) taxonomy = true -> score it = lit 0 1.

(** The degenerate distribution: neutral 1.0, every other label 0.0. *)
Definition degenerate_distribution {A} `{PyFloat A} : dict A :=
  map (fun k => (k, if String.eqb k "neutral" then lit 1 1 else lit 0 1)) taxonomy.


(** The key under which the loop of the normalizer stores an item. *)
Definition write_target {A} (it : item A) : string :=
  if str_in (label it) taxonomy then label it else "neutral".

(** The initial scores with the sentinel in place. *)
Definition sentinel_scores {A} `{PyFloat A} : dict A :=
  dict_set "neutral" (lit 5 10) emotion_scores_init.

(** ** Distributions in exact arithmetic *)

(** The sum of the scores of a distribution. *)
Fixpoint total (d : dict Q) : Q :=
  match d with
  | [] => 0%Q
  | (_, v) :: d' => (v + total d')%Q
  end.

(** The share of the labels outside the neutral class, and of those in it. *)
Fixpoint outward_total (d : dict Q) : Q :=
  match d with
  | [] => 0%Q
  | (k, v) :: d' =>
      ((if negb (str_in k neutral_emotions) then v else 0) + outward_total d')%Q
  end.

Fixpoint neutral_total (d : dict Q) : Q :=
  match d with
  | [] => 0%Q
  | (k, v) :: d' =>
      ((if negb (str_in k neutral_emotions) then 0 else v) + neutral_total d')%Q
  end.

Definition nonnegative (d : dict Q) : Prop :=
  forall k v, In (k, v) d -> (0 <= v)%Q.

(** A distribution divided through by [t]. *)
Definition normalized (t : Q) (d : dict Q) : dict Q :=
  map (fun kv => (fst kv, Qred (snd kv / t)%Q)) d.

(** A complete distribution: non-negative scores that sum to one. *)
Definition complete (d : dict Q) : Prop :=
  nonnegative d /\ (total d == 1)%Q.

(** ** The threshold table of the intensity classifier

    The table of section 4.3 of the specification, written row by row as the
    specification gives it, to be compared with [intensity_decision]. *)

(** The evidence of section 4.3: the peak score, the number of exclamation
    marks, the share of capital letters and the three lexicon matches. *)
Record evidence (A : Type) : Type := Evidence {
  peak : A;
  exclam : Z;
  caps_ratio : A;
  high_match : bool;
  med_match : bool;
  low_match : bool
}.

Arguments peak {A} _.
Arguments exclam {A} _.
Arguments caps_ratio {A} _.
Arguments high_match {A} _.
Arguments med_match {A} _.
Arguments low_match {A} _.

Section Table.
Context {A : Type} `{PyFloat A}.

(** One row of the table: a condition on the peak score, a surface
    condition, and the level the row gives. *)
Definition row : Type := (evidence A -> bool) * (evidence A -> bool) * intensity_level.

Definition peak_ge (n : Z) (d : positive) (e : evidence A) : bool := fleb (lit n d) (peak e).
Definition peak_lt (n : Z) (d : positive) (e : evidence A) : bool := fltb (peak e) (lit n d).

Definition strong_strict (e : evidence A) : bool :=
  (2 <? exclam e)%Z || fltb (lit 3 10) (caps_ratio e) || high_match e.
Definition strong (e : evidence A) : bool :=
  (3 <=? exclam e)%Z || fleb (lit 3 10) (caps_ratio e) || high_match e.
Definition moderate (e : evidence A) : bool :=
  (1 <=? exclam e)%Z || fleb (lit 1 10) (caps_ratio e) || med_match e.
Definition none_of_the_above (_ : evidence A) : bool := true.

Definition intensity_table : list row :=
  [ (peak_ge 75 100, strong_strict, High);
    (peak_ge 75 100, moderate, Medium);
    (peak_ge 75 100, low_match, Low);
    (peak_ge 75 100, none_of_the_above, High);
    (peak_ge 45 100, strong, High);
    (peak_ge 45 100, moderate, Medium);
    (peak_ge 45 100, low_match, Low);
    (peak_ge 45 100, none_of_the_above, Medium);
    (peak_lt 45 100, strong, High);
    (peak_lt 45 100, moderate, Medium);
    (peak_lt 45 100, low_match, Low);
    (peak_lt 45 100, none_of_the_above, Low) ].

(** Rows are checked top to bottom and the first match wins. *)
Fixpoint first_match (rows : list row) (e : evidence A) : option intensity_level :=
  match rows with
  | [] => None
  | (on_peak, on_surface, level) :: rows' =>
      if on_peak e && on_surface e then Some level else first_match rows' e
  end.

(** The level a text without any surface signal gets: the default of the
    tier its peak score falls in. *)
Definition tier_default (max_score : A) : intensity_level :=
  if fleb (lit 75 100) max_score then High
  else if fleb (lit 45 100) max_score then Medium
  else Low.

(** The level the lowest tier gives to a text. *)
Definition lowest_tier (e : evidence A) : intensity_level :=
  if strong e then High else if moderate e then Medium else Low.
End Table.

(** ** What the evidence is evidence of

    The evidence as section 4.3 words it, said of a distribution and a text
    without the functions of the classifier. *)

(** The comparisons of the arithmetic order the values that are numbers, a
    value being a number when it is at most itself: of binary64's values
    NaN alone is not, and NaN is at most nothing.  Zero and 0.45 are
    numbers. *)
Class PyOrder (A : Type) `{PyFloat A} : Prop := {
  fleb_trans : forall x y z : A, fleb x y = true -> fleb y z = true -> fleb x z = true;
  fleb_number : forall x y : A, fleb x y = true -> fleb x x = true;
  fltb_fleb : forall x y : A, fltb x y = true -> fleb x y = true;
  fltb_total : forall x y : A,
    fleb x x = true -> fleb y y = true -> fltb x y = negb (fleb y x);
  zero_is_number : fleb (of_int 0) (of_int 0) = true;
  threshold_is_number : fleb (lit 45 100) (lit 45 100) = true
}.

Section Evidence.
Context {A : Type} `{PyFloat A} {PS : PyStr}.

Definition is_number (x : A) : Prop := fleb x x = true.

(** Every score of the distribution is a number. *)
Definition scores_are_numbers (distribution : dict A) : Prop :=
  forall k v, In (k, v) distribution -> is_number v.

(** The peak of a distribution: one of its scores, which no score exceeds.
    An empty distribution has no score; the classifier takes 0. *)
Definition is_peak (distribution : dict A) (p : A) : Prop :=
  match distribution with
  | [] => p = of_int 0
  | _ :: _ =>
      (exists k, In (k, p) distribution) /\
      forall k v, In (k, v) distribution -> fleb v p = true
  end.

Definition exclamation_mark : codepoint := 33%N.

(** The share of the characters of a text that are uppercase letters, 0 for
    the empty text. *)
Definition share_of_capitals (t : text) : A :=
  match t with
  | [] => of_int 0
  | _ :: _ =>
      fdiv (of_int (Z.of_nat (List.length (filter isupper t))))
           (of_int (Z.of_nat (List.length t)))
  end.

(** [sub] occurs in [s]. *)
Definition is_substring (sub s : text) : Prop :=
  exists before after, s = before ++ sub ++ after.

(** A phrase of the lexicon of a level occurs in the lowercased text. *)
Definition lexicon_match (level : string) (t : text) : Prop :=
  exists phrases phrase,
    In (level, phrases) intensity_modifiers /\
    In phrase phrases /\
    is_substring (text_of phrase) (lower t).

(** [e] is the evidence of a distribution and a text. *)
Record describes (distribution : dict A) (t : text) (e : evidence A) : Prop := Describes {
  describes_peak : is_peak distribution (peak e);
  describes_exclam : exclam e = Z.of_nat (count_occ N.eq_dec t exclamation_mark);
  describes_caps : caps_ratio e = share_of_capitals t;
  describes_high : high_match e = true <-> lexicon_match "high" t;
  describes_med : med_match e = true <-> lexicon_match "medium" t;
  describes_low : low_match e = true <-> lexicon_match "low" t
}.
End Evidence.

(** ** The window rule of the trend analyzer

    Section 4.4 of the specification, steps 3 and 4, to be compared with
    [_calculate_trend] and with the overall trend of [get_emotion_trends]. *)

Definition all_identical (emotions : list string) : bool :=
  match emotions with
  | [] => true
  | e :: rest => forallb (String.eqb e) rest
  end.

(** The valence classes of the data model; a label outside the two lists
    is neutral or ambiguous. *)
Inductive valence : Type := positive_valence | negative_valence | neutral_or_ambiguous.

Definition valence_of (emotion : string) : valence :=
  if in_dec string_dec emotion positive_emotions then positive_valence
  else if in_dec string_dec emotion negative_emotions then negative_valence
  else neutral_or_ambiguous.

Definition has_valence (v : valence) (emotion : string) : bool :=
  match v, valence_of emotion with
  | positive_valence, positive_valence
  | negative_valence, negative_valence
  | neutral_or_ambiguous, neutral_or_ambiguous => true
  | _, _ => false
  end.

(** How many entries of a window have a valence. *)
Fixpoint count_valence (v : valence) (emotions : list string) : nat :=
  match emotions with
  | [] => 0
  | e :: rest =>
      if has_valence v e then S (count_valence v rest) else count_valence v rest
  end.

(** The trend of one window. *)
Definition trend_of_window (window : py_window) : trend_label :=
  match window with
  | WOther => insufficient_data
  | WSeq [] => insufficient_data
  | WSeq emotions =>
      let positives := count_valence positive_valence emotions in
      let negatives := count_valence negative_valence emotions in
      if all_identical emotions then stable
      else if (negatives <? positives)%nat then improving
      else if (positives <? negatives)%nat then declining
      else mixed
  end.

Definition trend_label_eq_dec (a b : trend_label) : {a = b} + {a <> b}.
Proof. decide equality. Defined.

(** The overall trend: the short-window trend if the medium-window trend is
    the same, else 'mixed'. *)
Definition overall_trend (short medium : trend_label) : trend_label :=
  if trend_label_eq_dec short medium then short else mixed.

(** The composed trend string of the report. *)
Definition trend_text (short medium overall : trend_label) : string :=
  ("short-term: " ++ trend_str short ++
   ", mid-term: " ++ trend_str medium ++
   " and overall: " ++ trend_str overall)%string.

(** ** Notions for the code around the detector *)

(** The rank [get_emotion_trends] gives an intensity level. *)
Definition intensity_value (level : intensity_level) : Z :=
  dict_get_default (intensity_str level) 1%Z intensity_values.

(** The memory of the response generator after a run of exchanges, each a
    user text, an emotion and a response. *)
Definition remember_all (exchanges : list (text * string * string))
  : list ResponseGenerator.memory_entry :=
  fold_left (fun memory '(user_text, emotion, response) =>
               ResponseGenerator._update_memory memory user_text emotion response)
            exchanges [].

(** The entry an exchange leaves in the memory when it is the [i]-th. *)
Definition memory_entry_of (i : nat) (exchange : text * string * string)
  : ResponseGenerator.memory_entry :=
  let '(user_text, emotion, response) := exchange in
  {| ResponseGenerator.mem_user_text := user_text;
     ResponseGenerator.mem_emotion := emotion;
     ResponseGenerator.mem_response := response;
     ResponseGenerator.mem_timestamp := Nat.min i 5 |}.

(** [f] applied to each element with its position, counted from [i]. *)
Fixpoint map_indexed {T U} (f : nat -> T -> U) (i : nat) (l : list T) : list U :=
  match l with
  | [] => []
  | x :: l' => f i x :: map_indexed f (S i) l'
  end.



(** The lowercased messages of a conversation, joined by spaces. *)
Definition all_messages {A} {PS : PyStr}
    (history : list (EmotionalChatbot.conversation_entry A)) : text :=
  join (text_of " ") (map (fun entry => lower (EmotionalChatbot.user_message entry)) history).

(** The cultural context a call of [process_message] works under. *)
Definition context_of_call {A} (cultural_context_arg : option string)
    (bot : EmotionalChatbot.chatbot A) : string :=
  match cultural_context_arg with
  | Some c => if String.eqb c "" then EmotionalChatbot.cultural_context bot else c
  | None => EmotionalChatbot.cultural_context bot
  end.

(** Whether a keyword of a theme occurs in the conversation. *)
Definition theme_found {A} {PS : PyStr} (theme : string)
    (history : list (EmotionalChatbot.conversation_entry A)) : bool :=
  any_in (dict_get_default theme [] EmotionalChatbot.theme_keywords) (all_messages history).

Section ChatbotBooks.
Context {A : Type} `{PyFloat A} {PS : PyStr}.
Import EmotionalChatbot.


(** A call that records nothing. *)
Definition same_books (bot bot' : chatbot A) : Prop :=
  cultural_context bot' = cultural_context bot /\
  conversation_memory bot' = conversation_memory bot /\
  conversation_history bot' = conversation_history bot /\
  emotion_history bot' = emotion_history bot /\
  profile bot' = profile bot.

End ChatbotBooks.

(** * Verification *)

(** ** Trend analyzer *)

Section TrendFacts.

Lemma last_n_short {T} (n : nat) (l : list T) :
  (List.length l <= n)%nat -> last_n n l = l.
Proof.
  intros Hlen. unfold last_n.
  replace (List.length l - n)%nat with 0%nat by lia.
  apply skipn_0.
Qed.

Lemma length_last_n {T} (n : nat) (l : list T) :
  List.length (last_n n l) = Nat.min n (List.length l).
Proof. unfold last_n. rewrite length_skipn. lia. Qed.

Lemma last_n_last_n {T} (n m : nat) (l : list T) :
  (n <= m)%nat -> last_n n (last_n m l) = last_n n l.
Proof.
  intros Hnm. unfold last_n at 1. rewrite length_last_n.
  unfold last_n. rewrite skipn_skipn. f_equal. lia.
Qed.

Lemma tl_skipn {T} (k : nat) (l : list T) : tl (skipn k l) = skipn (S k) l.
Proof.
  revert l. induction k as [|k IH]; intros [|a l]; try reflexivity.
  apply (IH l).
Qed.

(** One push on a buffer that holds the last [maxlen] elements. *)
Lemma deque_append_last_n (maxlen : nat) (l : list string) (x : string) :
  (0 < maxlen)%nat ->
  deque_append maxlen (last_n maxlen l) x = last_n maxlen (l ++ [x]).
Proof.
  intros Hpos. unfold deque_append.
  destruct (Nat.eqb_spec maxlen 0) as [->|_]; [lia|].
  rewrite length_last_n.
  destruct (Nat.eqb_spec (Nat.min maxlen (List.length l)) maxlen) as [Hfull|Hroom].
  - unfold last_n. rewrite tl_skipn, last_length.
    replace (S (List.length l) - maxlen)%nat with (S (List.length l - maxlen)) by lia.
    rewrite skipn_app.
    replace (S (List.length l - maxlen) - List.length l)%nat with 0%nat by lia.
    reflexivity.
  - rewrite (last_n_short maxlen l) by lia.
    rewrite last_n_short; [reflexivity|]. rewrite last_length. lia.
Qed.

Lemma fold_deque_append (maxlen : nat) (l : list string) :
  (0 < maxlen)%nat ->
  fold_left (deque_append maxlen) l [] = last_n maxlen l.
Proof.
  intros Hpos. induction l as [|x l IH] using rev_ind.
  - reflexivity.
  - rewrite fold_left_app. simpl. rewrite IH.
    now apply deque_append_last_n.
Qed.

Lemma recent_emotions_spec (emotion_results : list emotion_result) :
  recent_emotions emotion_results = last_n 10 (map primary_of emotion_results).
Proof.
  unfold recent_emotions.
  rewrite <- (fold_deque_append 10) by lia.
  generalize (@nil string).
  induction emotion_results as [|r rs IH]; intros acc; simpl.
  - reflexivity.
  - apply IH.
Qed.

Lemma trend_eqb_spec (a b : trend_label) :
  trend_eqb a b = if trend_label_eq_dec a b then true else false.
Proof. destruct a, b; reflexivity. Qed.

Lemma dict_set_not_nil {V} (k : string) (v : V) (d : dict V) : dict_set k v d <> [].
Proof.
  destruct d as [|[k' v'] d]; simpl; [discriminate|].
  destruct (String.eqb k k'); discriminate.
Qed.

Lemma emotion_counts_not_nil (rs : list emotion_result) (r : emotion_result)
      (counts : dict nat) :
  fold_left (fun counts r => count_emotion counts (primary_of r)) (r :: rs) counts <> [].
Proof.
  simpl. assert (Hne : count_emotion counts (primary_of r) <> [])
    by apply dict_set_not_nil.
  revert Hne. generalize (count_emotion counts (primary_of r)).
  induction rs as [|r' rs IH]; intros c Hc; simpl.
  - exact Hc.
  - apply IH, dict_set_not_nil.
Qed.

Lemma single_value_nodup (x : string) (l : list string) :
  (forall y, In y l -> y = x) -> (List.length (nodup string_dec l) <= 1)%nat.
Proof.
  intros Hall.
  assert (Hnd : NoDup (nodup string_dec l)) by apply NoDup_nodup.
  assert (Hin : forall y, In y (nodup string_dec l) -> y = x).
  { intros y Hy. apply Hall. now apply nodup_In in Hy. }
  revert Hnd Hin. generalize (nodup string_dec l). intros [|a [|b m]] Hnd Hin; simpl; try lia.
  exfalso. inversion Hnd as [|? ? Hnotin _]; subst.
  apply Hnotin. left.
  rewrite (Hin a), (Hin b); simpl; auto.
Qed.

(** [len(set(emotions)) == 1] says that all entries are the same. *)
Lemma set_size_one_iff (e : string) (rest : list string) :
  (List.length (pyset (e :: rest)) =? 1)%nat = all_identical (e :: rest).
Proof.
  unfold pyset. cbn [all_identical].
  destruct (forallb (String.eqb e) rest) eqn:Hall.
  - apply Nat.eqb_eq.
    assert (Hle : (List.length (nodup string_dec (e :: rest)) <= 1)%nat).
    { apply (single_value_nodup e). intros y [<-|Hy]; [reflexivity|].
      rewrite forallb_forall in Hall. symmetry. now apply String.eqb_eq, Hall. }
    assert (Hin : In e (nodup string_dec (e :: rest))) by (apply nodup_In; now left).
    destruct (nodup string_dec (e :: rest)) as [|a m]; [destruct Hin|].
    simpl in *. lia.
  - apply Nat.eqb_neq. intros Hone.
    assert (Hex : exists y, In y rest /\ y <> e).
    { clear Hone. induction rest as [|a rest IH]; simpl in Hall; [discriminate|].
      destruct (String.eqb_spec e a) as [->|Hne].
      - destruct (IH Hall) as [y [Hy Hye]]. exists y. split; [now right|exact Hye].
      - exists a. split; [now left|congruence]. }
    destruct Hex as [y [Hy Hye]].
    assert (Hiny : In y (nodup string_dec (e :: rest))) by (apply nodup_In; now right).
    assert (Hine : In e (nodup string_dec (e :: rest))) by (apply nodup_In; now left).
    destruct (nodup string_dec (e :: rest)) as [|a [|b m]]; simpl in *; try lia.
    destruct Hiny as [<-|[]], Hine as [<-|[]]. now apply Hye.
Qed.

(** Membership in a list of labels, decided either way. *)
Lemma str_in_decided (e : string) (labels : list string) :
  str_in e labels = if in_dec string_dec e labels then true else false.
Proof.
  unfold str_in. destruct (in_dec string_dec e labels) as [Hin|Hnot].
  - apply existsb_exists. exists e. split; [exact Hin|apply String.eqb_refl].
  - apply not_true_iff_false. intros Hex. apply existsb_exists in Hex.
    destruct Hex as [x [Hx Heq]]. apply String.eqb_eq in Heq. now subst.
Qed.

(** No label is of positive and of negative valence. *)
Lemma valences_disjoint (e : string) :
  In e positive_emotions -> In e negative_emotions -> False.
Proof.
  intros Hpos Hneg.
  assert (Hall : forallb (fun p => negb (str_in p negative_emotions)) positive_emotions
                 = true) by (vm_compute; reflexivity).
  rewrite forallb_forall in Hall. specialize (Hall e Hpos).
  rewrite str_in_decided in Hall.
  now destruct (in_dec string_dec e negative_emotions).
Qed.

(** The two counts of [_calculate_trend] are the numbers of entries of
    positive and of negative valence. *)
Lemma count_in_positive (emotions : list string) :
  count_in positive_emotions emotions = count_valence positive_valence emotions.
Proof.
  unfold count_in. induction emotions as [|e rest IH]; [reflexivity|].
  cbn [filter count_valence]. rewrite str_in_decided.
  unfold has_valence, valence_of.
  destruct (in_dec string_dec e positive_emotions).
  - cbn [List.length]. now rewrite IH.
  - destruct (in_dec string_dec e negative_emotions); exact IH.
Qed.

Lemma count_in_negative (emotions : list string) :
  count_in negative_emotions emotions = count_valence negative_valence emotions.
Proof.
  unfold count_in. induction emotions as [|e rest IH]; [reflexivity|].
  cbn [filter count_valence]. rewrite str_in_decided.
  unfold has_valence, valence_of.
  destruct (in_dec string_dec e negative_emotions) as [Hneg|Hneg].
  - destruct (in_dec string_dec e positive_emotions) as [Hpos|Hpos].
    + now elim (valences_disjoint e).
    + cbn [List.length]. now rewrite IH.
  - destruct (in_dec string_dec e positive_emotions); exact IH.
Qed.

End TrendFacts.

(** C5: [_calculate_trend] gives 'insufficient_data' for an empty window or
    an argument that is not a sequence, 'stable' when all entries are
    identical, else 'improving' when the positive-valence entries outnumber
    the negative-valence ones, else 'declining' when the negative ones
    outnumber the positive ones, and 'mixed' otherwise. *)
Theorem calculate_trend_follows_window_rule (window : py_window) :
  _calculate_trend window = trend_of_window window.
Proof.
  destruct window as [[|e rest]|]; try reflexivity.
  unfold _calculate_trend, trend_of_window.
  now rewrite set_size_one_iff, count_in_positive, count_in_negative.
Qed.

(** C4: for a non-empty sequence of records [get_emotion_trends] returns a
    report; its buffer holds the last 10 primary emotions in input order
    (the oldest evicted first); the short window is the last 3 and the
    medium window the last 7 of that buffer, hence of the history, and both
    are shorter only when the history is; the reported overall trend is the
    short-window trend when the two window trends are equal and 'mixed'
    otherwise. *)
Theorem trend_report_of_history {A : Type} `{PyFloat A} {PS : PyStr}
    (emotion_results : list emotion_result) :
  emotion_results <> [] ->
  let history := map primary_of emotion_results in
  let buffer := recent_emotions emotion_results in
  let short := _calculate_trend (WSeq (last_n 3 buffer)) in
  let medium := _calculate_trend (WSeq (last_n 7 buffer)) in
  buffer = last_n 10 history /\
  last_n 3 buffer = last_n 3 history /\
  last_n 7 buffer = last_n 7 history /\
  List.length (last_n 3 buffer) = Nat.min 3 (List.length history) /\
  List.length (last_n 7 buffer) = Nat.min 7 (List.length history) /\
  exists report : trend_report A,
    get_emotion_trends emotion_results = inr report /\
    trend report = trend_text short medium (overall_trend short medium).
Proof.
  intros Hne history buffer short medium.
  assert (Hbuf : buffer = last_n 10 history) by apply recent_emotions_spec.
  assert (H3 : last_n 3 buffer = last_n 3 history)
    by (rewrite Hbuf; apply last_n_last_n; lia).
  assert (H7 : last_n 7 buffer = last_n 7 history)
    by (rewrite Hbuf; apply last_n_last_n; lia).
  repeat split; try assumption.
  - rewrite H3. apply length_last_n.
  - rewrite H7. apply length_last_n.
  - destruct emotion_results as [|r rs]; [contradiction|].
    unfold get_emotion_trends.
    pose proof (emotion_counts_not_nil rs r []) as Hcounts.
    destruct (fold_left (fun counts r0 => count_emotion counts (primary_of r0)) (r :: rs) [])
      as [|kc counts] eqn:Ecounts; [contradiction|].
    cbn [max_key bind ret].
    eexists. split; [reflexivity|].
    cbn [trend]. fold buffer. fold short. fold medium.
    unfold trend_text, overall_trend. rewrite trend_eqb_spec.
    destruct (trend_label_eq_dec short medium); reflexivity.
Qed.

Lemma trend_report_of_history_witness :
  let rs := [ {| primary_emotion := Some "joy"; intensity := Some "high" |};
              {| primary_emotion := Some "anger"; intensity := None |} ] in
  rs <> [] /\
  exists report : trend_report float,
    get_emotion_trends (PS := basic_latin) rs = inr report /\
    trend report = "short-term: mixed, mid-term: mixed and overall: mixed".
Proof.
  intros rs. split; [discriminate|].
  destruct (trend_report_of_history (A := float) (PS := basic_latin) rs ltac:(discriminate))
    as (_ & _ & _ & _ & _ & report & Hrun & Htrend).
  exists report. split; [exact Hrun|]. rewrite Htrend. reflexivity.
Defined.

(** C10: on an empty result list [get_emotion_trends] returns the fixed
    report with dominant emotion 'neutral', trend 'stable' (and not
    'insufficient_data') and analysis 'No data available'; it has no other
    key. *)
Theorem trend_report_of_no_data {A : Type} `{PyFloat A} {PS : PyStr} :
  get_emotion_trends (A := A) [] =
    inr {| dominant_emotion := "neutral";
           emotion_distribution := None;
           average_intensity := None;
           trend := trend_str stable;
           total_messages := None;
           analysis := "No data available" |}
  /\ trend_str stable <> trend_str insufficient_data.
Proof. split; [reflexivity|discriminate]. Qed.

(** ** Score normalizer *)

Section DictFacts.
Context {V : Type}.

Lemma dict_mem_keys (k : string) (d : dict V) :
  dict_mem k d = str_in k (dict_keys d).
Proof.
  unfold dict_mem, str_in, dict_keys.
  induction d as [|[k' v] d IH]; simpl; [reflexivity|].
  destruct (String.eqb k k'); [reflexivity|exact IH].
Qed.

Lemma dict_keys_set (k : string) (v : V) (d : dict V) :
  dict_mem k d = true -> dict_keys (dict_set k v d) = dict_keys d.
Proof.
  unfold dict_mem, dict_keys.
  induction d as [|[k' v'] d IH]; simpl; [discriminate|].
  destruct (String.eqb k k'); simpl; [reflexivity|].
  intros Hmem. now rewrite IH.
Qed.

Lemma str_in_In (k : string) (l : list string) : str_in k l = true <-> In k l.
Proof.
  unfold str_in. rewrite existsb_exists. split.
  - intros [x [Hx Heq]]. apply String.eqb_eq in Heq. now subst.
  - intros Hin. exists k. split; [exact Hin|apply String.eqb_refl].
Qed.
End DictFacts.

Section NormalizerFacts.
Context {A : Type} `{PyFloat A}.

Lemma keys_init : dict_keys (emotion_scores_init (A := A)) = taxonomy.
Proof. reflexivity. Qed.

(** The loop never changes the keys of a dictionary that has 'neutral'. *)
Lemma store_item_keys (scores : dict A) (it : item A) :
  dict_mem "neutral" scores = true ->
  dict_keys (store_item scores it) = dict_keys scores.
Proof.
  intros Hneutral. unfold store_item.
  destruct (dict_mem (label it) scores) eqn:Hmem; now apply dict_keys_set.
Qed.

Lemma fold_store_item_keys (items : list (item A)) (scores : dict A) :
  dict_mem "neutral" scores = true ->
  dict_keys (fold_left store_item items scores) = dict_keys scores.
Proof.
  revert scores. induction items as [|it items IH]; intros scores Hneutral; simpl.
  - reflexivity.
  - assert (Hkeys := store_item_keys scores it Hneutral).
    rewrite IH; [exact Hkeys|].
    now rewrite dict_mem_keys, Hkeys, <- dict_mem_keys.
Qed.



(** Storing a zero under a recognized label, from the initial scores or
    from the initial scores with the sentinel. *)
Lemma store_zero (k : string) :
  In k taxonomy ->
  dict_set k (lit 0 1) emotion_scores_init = emotion_scores_init /\
  (dict_set k (lit 0 1) sentinel_scores = sentinel_scores \/
   dict_set k (lit 0 1) sentinel_scores = emotion_scores_init).
Proof.
  intros Hin. unfold taxonomy in Hin. simpl in Hin.
  repeat (destruct Hin as [<-|Hin];
          [split; vm_compute; first [reflexivity|left; reflexivity|right; reflexivity]|]).
  destruct Hin.
Qed.

(** With zero scores under every recognized label, the loop leaves the
    initial scores, or the initial scores with the sentinel. *)
Lemma fold_zero_items (items : list (item A)) (scores : dict A) :
  recognized_scores_zero items ->
  scores = emotion_scores_init \/ scores = sentinel_scores ->
  fold_left store_item items scores = emotion_scores_init \/
  fold_left store_item items scores = sentinel_scores.
Proof.
  revert scores. induction items as [|it items IH]; intros scores Hzero Hscores; simpl.
  - exact Hscores.
  - apply IH.
    + intros it' Hin. apply Hzero. now right.
    + assert (Hkeys : dict_keys scores = taxonomy) by (destruct Hscores; now subst).
      unfold store_item. rewrite dict_mem_keys, Hkeys.
      destruct (str_in (label it) taxonomy) eqn:Hrec.
      * rewrite (Hzero it (or_introl eq_refl) Hrec).
        apply str_in_In in Hrec. destruct (store_zero _ Hrec) as [Hinit Hsent].
        destruct Hscores as [->| ->]; [left; exact Hinit|].
        destruct Hsent as [->| ->]; [now right|now left].
      * right. destruct Hscores as [->| ->]; vm_compute; reflexivity.
Qed.
End NormalizerFacts.

(** C1: from the initial all-zero scores, an input that is empty (or not a
    list at all), or whose recognized labels all have score 0.0, makes
    [_process_model_output] return the degenerate distribution, 'neutral' at
    1.0 and every other label of the taxonomy at 0.0; the call returns, so
    no division error is raised.  Binary64 arithmetic. *)
Theorem normalizer_degenerate_on_zero_input (items : list (item float)) :
  recognized_scores_zero items ->
  _process_model_output (ResList items) emotion_scores_init
    = (inr degenerate_distribution, degenerate_distribution) /\
  _process_model_output ResOther emotion_scores_init
    = (inr degenerate_distribution, degenerate_distribution) /\
  dict_get "neutral" (degenerate_distribution (A := float)) = Some 1%float /\
  forall k, In k taxonomy -> k <> "neutral" ->
            dict_get k (degenerate_distribution (A := float)) = Some 0%float.
Proof.
  intros Hzero. split; [|split; [|split]].
  - destruct items as [|it items]; [vm_compute; reflexivity|].
    unfold _process_model_output.
    destruct (fold_zero_items (it :: items) emotion_scores_init Hzero (or_introl eq_refl))
      as [-> | ->]; vm_compute; reflexivity.
  - vm_compute. reflexivity.
  - vm_compute. reflexivity.
  - intros k Hin Hk. unfold taxonomy in Hin. simpl in Hin.
    repeat (destruct Hin as [<-|Hin]; [first [now elim Hk|vm_compute; reflexivity]|]).
    destruct Hin.
Qed.

Lemma normalizer_degenerate_on_zero_input_witness :
  let items := [ {| label := "joy"; score := 0%float |};
                 {| label := "not-an-emotion"; score := 7%float |};
                 {| label := "anger"; score := 0%float |} ] in
  recognized_scores_zero items /\
  _process_model_output (ResList items) emotion_scores_init
    = (inr degenerate_distribution, degenerate_distribution).
Proof.
  intros items.
  assert (Hzero : recognized_scores_zero items).
  { intros it [<-|[<-|[<-|[]]]] Hrec; try reflexivity. vm_compute in Hrec. discriminate. }
  split; [exact Hzero|].
  exact (proj1 (normalizer_degenerate_on_zero_input items Hzero)).
Defined.

(** The same in exact arithmetic. *)
Lemma normalizer_degenerate_exact (items : list (item Q)) :
  recognized_scores_zero items ->
  _process_model_output (ResList items) emotion_scores_init
    = (inr degenerate_distribution, degenerate_distribution).
Proof.
  intros Hzero.
  destruct items as [|it items]; [vm_compute; reflexivity|].
  unfold _process_model_output.
  destruct (fold_zero_items (it :: items) emotion_scores_init Hzero (or_introl eq_refl))
    as [-> | ->]; vm_compute; reflexivity.
Qed.



(** C7 fails on the code: [self.emotion_scores] is never reset, so what one
    call stored is read by the next.  After a call with joy 0.9, a call
    with anger 0.5 returns anger 1/3 and joy 2/3, where the same call on a
    fresh detector returns anger 1.0; and a call with an empty list returns
    joy 1.0 instead of the degenerate distribution.  Binary64 arithmetic. *)
Theorem normalizer_scores_survive_a_call :
  let first := ResList [ {| label := "joy"; score := lit 9 10 |} ] in
  let second := ResList [ {| label := "anger"; score := lit 5 10 |} ] in
  let scores_after_first :=
    snd (_process_model_output (A := float) first emotion_scores_init) in
  scores_after_first = dict_set "joy" (lit 1 1) emotion_scores_init /\
  fst (_process_model_output second emotion_scores_init)
    = inr (dict_set "anger" (lit 1 1) emotion_scores_init) /\
  fst (_process_model_output second scores_after_first)
    = inr (dict_set "anger" (fdiv (lit 5 10) (lit 15 10))
             (dict_set "joy" (fdiv (lit 1 1) (lit 15 10)) emotion_scores_init)) /\
  fst (_process_model_output (ResList []) scores_after_first)
    = inr (dict_set "joy" (lit 1 1) emotion_scores_init) /\
  fst (_process_model_output (A := float) (ResList []) emotion_scores_init)
    = inr degenerate_distribution.
Proof. cbv zeta. repeat split; vm_compute; reflexivity. Qed.

(** What the stored scores can and cannot change. *)

Section FullInput.
Context {A : Type} `{PyFloat A}.

Lemma dict_get_set (k k' : string) (v : A) (d : dict A) :
  dict_mem k' d = true ->
  dict_get k (dict_set k' v d) = if String.eqb k k' then Some v else dict_get k d.
Proof.
  unfold dict_mem.
  induction d as [|[k'' v''] d IH]; cbn [dict_get dict_set]; [discriminate|].
  destruct (String.eqb_spec k' k'') as [->|Hne]; cbn [dict_get].
  - intros _. destruct (String.eqb k k''); reflexivity.
  - intros Hmem. rewrite (IH Hmem).
    destruct (String.eqb_spec k k'') as [->|Hne'].
    + destruct (String.eqb_spec k'' k') as [->|_]; [contradiction|reflexivity].
    + reflexivity.
Qed.

(** Two dictionaries with the same keys, each once, and the same value
    under every key are the same dictionary. *)
Lemma dict_ext (d1 d2 : dict A) :
  dict_keys d1 = dict_keys d2 ->
  NoDup (dict_keys d1) ->
  (forall k, dict_get k d1 = dict_get k d2) ->
  d1 = d2.
Proof.
  assert (Hnone : forall (k : string) (d : dict A),
             ~ In k (dict_keys d) -> dict_get k d = None).
  { intros k d. induction d as [|[k' v'] d IHd]; cbn [dict_keys map fst dict_get];
      [reflexivity|].
    intros Hnot. destruct (String.eqb_spec k k') as [->|_].
    - elim Hnot. now left.
    - apply IHd. intros Hin. apply Hnot. now right. }
  revert d2. induction d1 as [|[k1 v1] d1 IH]; intros [|[k2 v2] d2] Hkeys Hnd Hget;
    try discriminate; [reflexivity|].
  cbn [dict_keys map fst] in Hkeys, Hnd.
  assert (Hk : k1 = k2) by congruence. subst k2.
  assert (Hkeys' : dict_keys d1 = dict_keys d2) by (unfold dict_keys; congruence).
  apply NoDup_cons_iff in Hnd. destruct Hnd as [Hnotin Hnd].
  pose proof (Hget k1) as Hv. cbn [dict_get] in Hv.
  rewrite String.eqb_refl in Hv. assert (Hv' : v1 = v2) by congruence. subst v2.
  f_equal. apply IH; [exact Hkeys'|exact Hnd|].
  intros k. specialize (Hget k). cbn [dict_get] in Hget.
  destruct (String.eqb k k1) eqn:Ek; [|exact Hget].
  apply String.eqb_eq in Ek. rewrite Ek.
  rewrite (Hnone k1 d1 Hnotin). symmetry. apply Hnone.
  now rewrite <- Hkeys'.
Qed.

Lemma store_item_get (scores : dict A) (it : item A) (k : string) :
  dict_keys scores = taxonomy ->
  dict_get k (store_item scores it)
    = if String.eqb k (write_target it)
      then Some (if str_in (label it) taxonomy then score it else lit 5 10)
      else dict_get k scores.
Proof.
  intros Hkeys. unfold store_item, write_target.
  rewrite dict_mem_keys, Hkeys.
  destruct (str_in (label it) taxonomy) eqn:Hrec;
    apply dict_get_set; now rewrite dict_mem_keys, Hkeys.
Qed.

Lemma fold_store_item_get (items : list (item A)) (s1 s2 : dict A) (k : string) :
  dict_keys s1 = taxonomy ->
  dict_keys s2 = taxonomy ->
  dict_get k s1 = dict_get k s2 \/ (exists it, In it items /\ write_target it = k) ->
  dict_get k (fold_left store_item items s1) = dict_get k (fold_left store_item items s2).
Proof.
  revert s1 s2. induction items as [|it items IH]; intros s1 s2 Hk1 Hk2 Hagree;
    cbn [fold_left].
  - destruct Hagree as [Heq|[it [[] _]]]. exact Heq.
  - assert (Hneutral : forall s : dict A, dict_keys s = taxonomy ->
                                          dict_mem "neutral" s = true)
      by (intros s Hs; now rewrite dict_mem_keys, Hs).
    apply IH.
    + rewrite store_item_keys; [exact Hk1|now apply Hneutral].
    + rewrite store_item_keys; [exact Hk2|now apply Hneutral].
    + rewrite !store_item_get by assumption.
      destruct (String.eqb_spec k (write_target it)) as [->|Hne]; [now left|].
      destruct Hagree as [Heq|[it' [[<-|Hin] Ht]]].
      * now left.
      * now elim Hne.
      * right. now exists it'.
Qed.

(** An input that names every label of the taxonomy overwrites every score:
    the result then does not depend on the scores found on entry. *)
Lemma normalizer_full_input_forgets (items : list (item A)) (s1 s2 : dict A) :
  dict_keys s1 = taxonomy ->
  dict_keys s2 = taxonomy ->
  (forall k, In k taxonomy -> exists it, In it items /\ label it = k) ->
  _process_model_output (ResList items) s1 = _process_model_output (ResList items) s2.
Proof.
  intros Hk1 Hk2 Hfull.
  assert (Hneutral : forall s : dict A, dict_keys s = taxonomy ->
                                        dict_mem "neutral" s = true)
    by (intros s Hs; now rewrite dict_mem_keys, Hs).
  assert (Hsame : fold_left store_item items s1 = fold_left store_item items s2).
  { apply dict_ext.
    - rewrite !fold_store_item_keys by now apply Hneutral. congruence.
    - rewrite fold_store_item_keys by now apply Hneutral.
      rewrite Hk1. unfold taxonomy.
      repeat (constructor; [cbn [In]; intuition discriminate|]). constructor.
    - intros k. apply fold_store_item_get; try assumption.
      destruct (str_in k taxonomy) eqn:Hk.
      + right. apply str_in_In in Hk. destruct (Hfull k Hk) as [it [Hin Hl]].
        exists it. split; [exact Hin|]. unfold write_target. rewrite Hl.
        apply str_in_In in Hk. now rewrite Hk.
      + left.
        assert (Hnone : forall s : dict A, dict_keys s = taxonomy -> dict_get k s = None).
        { intros s Hs. pose proof (dict_mem_keys k s) as Hm. rewrite Hs, Hk in Hm.
          unfold dict_mem in Hm. now destruct (dict_get k s). }
        now rewrite !Hnone. }
  unfold _process_model_output.
  destruct items as [|it items]; [|now rewrite Hsame].
  destruct (Hfull "neutral") as [it [[] _]]. apply str_in_In. reflexivity.
Qed.
End FullInput.

(** ** Intensity classifier *)

(** *** The numbers in order *)

Section SpecOrder.

Ltac fold_compare :=
  repeat match goal with
         | |- context [Pos.compare_cont Eq ?x ?y] =>
             change (Pos.compare_cont Eq x y) with (Pos.compare x y)
         end.

Lemma SFcompare_antisym (a b : spec_float) :
  SFcompare b a = option_map CompOpp (SFcompare a b).
Proof.
  destruct a as [sa|sa| |sa ma ea], b as [sb|sb| |sb mb eb];
    repeat match goal with s : bool |- _ => destruct s end;
    cbn [SFcompare option_map CompOpp]; try reflexivity;
    f_equal; fold_compare;
    destruct (Z.compare_spec ea eb), (Z.compare_spec eb ea); try lia;
    cbn [CompOpp]; try reflexivity;
    destruct (Pos.compare_spec ma mb), (Pos.compare_spec mb ma); try lia;
    reflexivity.
Qed.

Lemma SFleb_trans (a b c : spec_float) :
  SFleb a b = true -> SFleb b c = true -> SFleb a c = true.
Proof.
  unfold SFleb.
  destruct a as [sa|sa| |sa ma ea], b as [sb|sb| |sb mb eb], c as [sc|sc| |sc mc ec];
    repeat match goal with s : bool |- _ => destruct s end;
    cbn [SFcompare]; try reflexivity; try discriminate;
    fold_compare;
    destruct (Z.compare_spec ea eb), (Z.compare_spec eb ec), (Z.compare_spec ea ec);
    try reflexivity; try discriminate; try lia;
    destruct (Pos.compare_spec ma mb), (Pos.compare_spec mb mc), (Pos.compare_spec ma mc);
    cbn [CompOpp]; try reflexivity; try discriminate; try lia.
Qed.

Lemma SFleb_number (a b : spec_float) : SFleb a b = true -> SFleb a a = true.
Proof.
  unfold SFleb.
  destruct a as [sa|sa| |sa ma ea].
  - reflexivity.
  - now destruct sa.
  - now destruct b.
  - intros _. destruct sa; cbn [SFcompare]; fold_compare;
      rewrite Z.compare_refl, Pos.compare_refl; reflexivity.
Qed.

Lemma SFltb_SFleb (a b : spec_float) : SFltb a b = true -> SFleb a b = true.
Proof. unfold SFltb, SFleb. now destruct (SFcompare a b) as [[| |]|]. Qed.

Lemma SFltb_total (a b : spec_float) :
  SFleb a a = true -> SFleb b b = true -> SFltb a b = negb (SFleb b a).
Proof.
  unfold SFleb, SFltb. rewrite (SFcompare_antisym a b).
  destruct a as [sa|sa| |sa ma ea], b as [sb|sb| |sb mb eb];
    try discriminate; try (intros _; discriminate);
    intros _ _; destruct (SFcompare _ _) as [[| |]|] eqn:E; try reflexivity;
    exfalso; revert E;
    repeat match goal with s : bool |- _ => destruct s end; cbn [SFcompare]; discriminate.
Qed.
End SpecOrder.

(** Binary64's comparisons, by the specification of the primitive floats. *)
#[export] Instance binary64_order : PyOrder float.
Proof.
  split.
  - intros x y z. cbn [fleb binary64]. rewrite !leb_spec. apply SFleb_trans.
  - intros x y. cbn [fleb binary64]. rewrite !leb_spec. apply SFleb_number.
  - intros x y. cbn [fleb fltb binary64]. rewrite ltb_spec, leb_spec. apply SFltb_SFleb.
  - intros x y. cbn [fleb fltb binary64]. rewrite ltb_spec, !leb_spec. apply SFltb_total.
  - reflexivity.
  - reflexivity.
Qed.

(** The rationals. *)
#[export] Instance rational_order : PyOrder Q.
Proof.
  split.
  - intros x y z. cbn [fleb rational]. rewrite !Qle_bool_iff. apply Qle_trans.
  - intros x y _. cbn [fleb rational]. apply Qle_bool_iff, Qle_refl.
  - intros x y. cbn [fleb fltb rational]. intros Hlt.
    apply negb_true_iff, not_true_iff_false in Hlt. rewrite Qle_bool_iff in Hlt.
    apply Qle_bool_iff. apply Qlt_le_weak. now apply Qnot_le_lt.
  - reflexivity.
  - reflexivity.
  - vm_compute. reflexivity.
Qed.

Section PeakFacts.
Context {A : Type} `{PyFloat A} `{!PyOrder A}.

(** [max] of numbers is one of them, and none exceeds it. *)
Lemma pymax_is_peak (v : A) (vs : list A) :
  (forall x, In x (v :: vs) -> is_number x) ->
  In (pymax v vs) (v :: vs) /\ forall x, In x (v :: vs) -> fleb x (pymax v vs) = true.
Proof.
  unfold pymax. revert v. induction vs as [|y vs IH]; intros v Hnum; cbn [fold_left].
  - split; [now left|]. intros x [<-|[]]. apply Hnum. now left.
  - assert (Hv : is_number v) by (apply Hnum; now left).
    assert (Hy : is_number y) by (apply Hnum; right; now left).
    set (m := if fltb v y then y else v).
    assert (Hstep : fleb v m = true /\ fleb y m = true /\ is_number m).
    { subst m. destruct (fltb v y) eqn:Hlt.
      - split; [now apply fltb_fleb|]. split; exact Hy.
      - split; [exact Hv|]. split; [|exact Hv].
        rewrite (fltb_total v y Hv Hy) in Hlt. now apply negb_false_iff in Hlt. }
    destruct Hstep as (Hvm & Hym & Hm).
    destruct (IH m) as [Hin Hmax].
    { intros x [<-|Hx]; [exact Hm|]. apply Hnum. right. now right. }
    split.
    + destruct Hin as [Heq|Hin]; [|right; now right].
      rewrite <- Heq. subst m. destruct (fltb v y); [right; now left|now left].
    + intros x [<-|[<-|Hx]].
      * apply (fleb_trans _ m); [exact Hvm|]. apply Hmax. now left.
      * apply (fleb_trans _ m); [exact Hym|]. apply Hmax. now left.
      * apply Hmax. now right.
Qed.

Lemma in_dict_values (d : dict A) (v : A) :
  In v (dict_values d) <-> exists k, In (k, v) d.
Proof.
  unfold dict_values. rewrite in_map_iff. split.
  - intros ([k v'] & Heq & Hin). cbn [snd] in Heq. subst v'. now exists k.
  - intros [k Hin]. now exists (k, v).
Qed.

(** The score the classifier takes as [max_score] is a peak. *)
Lemma max_score_is_peak (distribution : dict A) :
  scores_are_numbers distribution -> is_peak distribution (max_score_of distribution).
Proof.
  intros Hnum. unfold max_score_of, is_peak.
  destruct distribution as [|[k v] rest]; [reflexivity|].
  cbn [dict_values map snd]. fold (dict_values rest).
  destruct (pymax_is_peak v (dict_values rest)) as [Hin Hmax].
  { intros x Hx. change (v :: dict_values rest) with (dict_values ((k, v) :: rest)) in Hx.
    apply in_dict_values in Hx. destruct Hx as [k' Hk']. now apply (Hnum k'). }
  change (v :: dict_values rest) with (dict_values ((k, v) :: rest)) in Hin, Hmax.
  split.
  - now apply in_dict_values.
  - intros k' v' Hin'. apply Hmax. apply in_dict_values. now exists k'.
Qed.

(** A distribution that has a peak holds numbers only. *)
Lemma peak_makes_numbers (distribution : dict A) (p : A) :
  is_peak distribution p -> scores_are_numbers distribution.
Proof.
  intros Hp k v Hin. destruct distribution as [|kv rest]; [destruct Hin|].
  destruct Hp as [_ Hmax]. apply (fleb_number v p). now apply (Hmax k).
Qed.

Lemma peak_is_number (distribution : dict A) (p : A) :
  is_peak distribution p -> is_number p.
Proof.
  intros Hp. destruct distribution as [|kv rest].
  - cbn [is_peak] in Hp. subst p. apply zero_is_number.
  - pose proof (peak_makes_numbers _ _ Hp) as Hnum.
    destruct Hp as [[k Hin] _]. now apply (Hnum k).
Qed.

(** Two peaks of a distribution pass the same threshold tests. *)
Lemma peaks_agree (distribution : dict A) (p q threshold : A) :
  is_peak distribution p -> is_peak distribution q ->
  fleb threshold p = fleb threshold q.
Proof.
  intros Hp Hq. destruct distribution as [|kv rest].
  - cbn [is_peak] in Hp, Hq. now subst.
  - destruct Hp as [[kp Hinp] Hmaxp], Hq as [[kq Hinq] Hmaxq].
    pose proof (Hmaxq kp p Hinp) as Hpq. pose proof (Hmaxp kq q Hinq) as Hqp.
    destruct (fleb threshold p) eqn:Ep, (fleb threshold q) eqn:Eq; try reflexivity.
    + rewrite (fleb_trans threshold p q Ep Hpq) in Eq. discriminate.
    + rewrite (fleb_trans threshold q p Eq Hqp) in Ep. discriminate.
Qed.

Lemma peak_tier (distribution : dict A) (p threshold : A) :
  is_peak distribution p ->
  fleb threshold (max_score_of distribution) = fleb threshold p.
Proof.
  intros Hp. apply (peaks_agree distribution); [|exact Hp].
  apply max_score_is_peak. now apply (peak_makes_numbers distribution p).
Qed.
End PeakFacts.

Section TextFacts.

Lemma starts_with_spec (sub s : text) :
  starts_with sub s = true <-> exists after, s = sub ++ after.
Proof.
  revert s. induction sub as [|c sub IH]; intros s; cbn [starts_with].
  - split; [intros _; now exists s|reflexivity].
  - destruct s as [|c' s].
    + split; [discriminate|]. intros [after Heq]. discriminate.
    + rewrite andb_true_iff, N.eqb_eq, IH. split.
      * intros [-> [after ->]]. now exists after.
      * intros [after Heq]. cbn [app] in Heq. injection Heq as -> ->.
        split; [reflexivity|now exists after].
Qed.

(** [sub in s] is true exactly when [sub] occurs in [s]. *)
Lemma contains_spec (sub s : text) :
  contains sub s = true <-> is_substring sub s.
Proof.
  unfold is_substring. induction s as [|c s IH].
  - cbn [contains]. destruct (starts_with sub []) eqn:Hs.
    + split; [intros _|reflexivity].
      apply starts_with_spec in Hs. destruct Hs as [after Heq]. now exists [], after.
    + split; [discriminate|]. intros (before & after & Heq). exfalso.
      destruct before as [|b before]; [|discriminate].
      apply not_true_iff_false in Hs. apply Hs, starts_with_spec. now exists after.
  - cbn [contains]. destruct (starts_with sub (c :: s)) eqn:Hs.
    + split; [intros _|reflexivity].
      apply starts_with_spec in Hs. destruct Hs as [after Heq]. now exists [], after.
    + rewrite IH. split.
      * intros (before & after & ->). now exists (c :: before), after.
      * intros (before & after & Heq). destruct before as [|b before].
        -- exfalso. apply not_true_iff_false in Hs. apply Hs, starts_with_spec.
           now exists after.
        -- cbn [app] in Heq. injection Heq as _ ->. now exists before, after.
Qed.

(** [s.count(c)] for a character [c] is the number of its occurrences. *)
Lemma count_of_character (c : codepoint) (s : text) :
  str_count [c] s = Z.of_nat (count_occ N.eq_dec s c).
Proof.
  unfold str_count. induction s as [|c' s IH]; [reflexivity|].
  cbn [count_from starts_with List.length Nat.sub count_occ].
  destruct (N.eq_dec c' c) as [->|Hne].
  - rewrite N.eqb_refl. cbn [andb]. rewrite IH. lia.
  - destruct (N.eqb_spec c c') as [Heq|_]; [now elim Hne|]. cbn [andb]. exact IH.
Qed.

Lemma sum_of_ones {T} (l : list T) :
  zsum (map (fun _ => 1%Z) l) = Z.of_nat (List.length l).
Proof.
  unfold zsum. assert (Hacc : forall acc,
    fold_left Z.add (map (fun _ : T => 1%Z) l) acc = (acc + Z.of_nat (List.length l))%Z).
  { induction l as [|x l IH]; intros acc; cbn [map fold_left List.length]; [lia|].
    rewrite IH. lia. }
  now rewrite Hacc.
Qed.
End TextFacts.

Section IntensityFacts.
Context {A : Type} `{PyFloat A} {PS : PyStr}.

(** The lexicon of a level, as the classifier looks it up. *)
Lemma lexicon_lookup (level : string) (t : text) :
  In level ["high"; "medium"; "low"] ->
  any_in (dict_get_default level [] intensity_modifiers) (lower t) = true
  <-> lexicon_match level t.
Proof.
  intros Hlevel. unfold lexicon_match, any_in. rewrite existsb_exists. split.
  - intros (phrase & Hin & Hsub). apply contains_spec in Hsub.
    exists (dict_get_default level [] intensity_modifiers), phrase.
    split; [|now split].
    destruct Hlevel as [<-|[<-|[<-|[]]]]; cbn; auto.
  - intros (phrases & phrase & Hlex & Hin & Hsub).
    exists phrase. split; [|now apply contains_spec].
    assert (Hphrases : phrases = dict_get_default level [] intensity_modifiers).
    { destruct Hlevel as [<-|[<-|[<-|[]]]];
        destruct Hlex as [Heq|[Heq|[Heq|[]]]];
        first [now injection Heq as <- | discriminate Heq]. }
    now rewrite <- Hphrases.
Qed.

(** On a string nothing in the [try] block raises, and the code computes
    the evidence of section 4.3. *)
Lemma calculate_intensity_try_str (distribution : dict A) (t : text) :
  _calculate_intensity_try distribution (TStr t)
    = inr (intensity_decision
             (max_score_of distribution)
             (Z.of_nat (count_occ N.eq_dec t exclamation_mark))
             (share_of_capitals t)
             (any_in (dict_get_default "high" [] intensity_modifiers) (lower t))
             (any_in (dict_get_default "medium" [] intensity_modifiers) (lower t))
             (any_in (dict_get_default "low" [] intensity_modifiers) (lower t))).
Proof.
  unfold _calculate_intensity_try.
  cbn [truthy py_count_exclam py_count_upper py_len].
  change (match intensity_modifiers with
          | [] => [("high", []); ("medium", []); ("low", [])]
          | _ :: _ => intensity_modifiers
          end) with intensity_modifiers.
  destruct t as [|c t].
  - reflexivity.
  - set (s := c :: t). cbn [is_empty negb bind ret].
    change (text_of "!") with [exclamation_mark]. rewrite count_of_character.
    unfold int_truediv. rewrite sum_of_ones.
    assert (Hlen : (1 <= Z.of_nat (List.length s))%Z) by (subst s; cbn [List.length]; lia).
    rewrite Z.max_r by lia.
    destruct (Z.eqb_spec (Z.of_nat (List.length s)) 0) as [Hz|_]; [lia|].
    reflexivity.
Qed.

(** The cascade of returns is the table read top to bottom, when the peak
    score is comparable with 0.45. *)
Lemma decision_is_first_match (e : evidence A) :
  (fleb (lit 45 100) (peak e) = false -> fltb (peak e) (lit 45 100) = true) ->
  first_match intensity_table e
    = Some (intensity_decision (peak e) (exclam e) (caps_ratio e)
                               (high_match e) (med_match e) (low_match e)).
Proof.
  intros Hcmp.
  unfold intensity_table, first_match, intensity_decision,
    peak_ge, peak_lt, strong_strict, strong, moderate, none_of_the_above.
  destruct (fleb (lit 75 100) (peak e)).
  - destruct ((2 <? exclam e)%Z || fltb (lit 3 10) (caps_ratio e) || high_match e);
      [reflexivity|].
    destruct ((1 <=? exclam e)%Z || fleb (lit 1 10) (caps_ratio e) || med_match e);
      [reflexivity|].
    destruct (low_match e); reflexivity.
  - cbn [andb].
    destruct (fleb (lit 45 100) (peak e)).
    + destruct ((3 <=? exclam e)%Z || fleb (lit 3 10) (caps_ratio e) || high_match e);
        [reflexivity|].
      destruct ((1 <=? exclam e)%Z || fleb (lit 1 10) (caps_ratio e) || med_match e);
        [reflexivity|].
      destruct (low_match e); reflexivity.
    + cbn [andb]. rewrite (Hcmp eq_refl).
      destruct ((3 <=? exclam e)%Z || fleb (lit 3 10) (caps_ratio e) || high_match e);
        [reflexivity|].
      destruct ((1 <=? exclam e)%Z || fleb (lit 1 10) (caps_ratio e) || med_match e);
        [reflexivity|].
      destruct (low_match e); reflexivity.
Qed.

Lemma same_truth (b c : bool) (P : Prop) :
  (b = true <-> P) -> (c = true <-> P) -> b = c.
Proof. destruct b, c; intuition congruence. Qed.

(** The evidence of a distribution and a text decides as the evidence the
    code computes. *)
Lemma decision_of_evidence `{!PyOrder A}
    (distribution : dict A) (t : text) (e : evidence A) :
  describes distribution t e ->
  intensity_decision (peak e) (exclam e) (caps_ratio e)
                     (high_match e) (med_match e) (low_match e)
  = intensity_decision
      (max_score_of distribution)
      (Z.of_nat (count_occ N.eq_dec t exclamation_mark))
      (share_of_capitals t)
      (any_in (dict_get_default "high" [] intensity_modifiers) (lower t))
      (any_in (dict_get_default "medium" [] intensity_modifiers) (lower t))
      (any_in (dict_get_default "low" [] intensity_modifiers) (lower t)).
Proof.
  intros [Hpeak Hexclam Hcaps Hhigh Hmed Hlow].
  rewrite Hexclam, Hcaps.
  rewrite (same_truth _ _ _ Hhigh (lexicon_lookup "high" t ltac:(cbn; auto))).
  rewrite (same_truth _ _ _ Hmed (lexicon_lookup "medium" t ltac:(cbn; auto))).
  rewrite (same_truth _ _ _ Hlow (lexicon_lookup "low" t ltac:(cbn; auto))).
  unfold intensity_decision.
  rewrite (peak_tier distribution (peak e) (lit 75 100) Hpeak).
  rewrite (peak_tier distribution (peak e) (lit 45 100) Hpeak).
  reflexivity.
Qed.

(** The evidence the code computes is the evidence of its arguments. *)
Lemma code_evidence_describes `{!PyOrder A} (distribution : dict A) (t : text) :
  scores_are_numbers distribution ->
  describes distribution t
    {| peak := max_score_of distribution;
       exclam := Z.of_nat (count_occ N.eq_dec t exclamation_mark);
       caps_ratio := share_of_capitals t;
       high_match := any_in (dict_get_default "high" [] intensity_modifiers) (lower t);
       med_match := any_in (dict_get_default "medium" [] intensity_modifiers) (lower t);
       low_match := any_in (dict_get_default "low" [] intensity_modifiers) (lower t) |}.
Proof.
  intros Hnum. split; cbn [peak exclam caps_ratio high_match med_match low_match].
  - now apply max_score_is_peak.
  - reflexivity.
  - reflexivity.
  - apply lexicon_lookup. cbn; auto.
  - apply lexicon_lookup. cbn; auto.
  - apply lexicon_lookup. cbn; auto.
Qed.

(** Whatever is raised inside the [try] block comes out as 'low'. *)
Lemma calculate_intensity_on_error (distribution : dict A) (text : py_text) (e : exn) :
  _calculate_intensity_try distribution text = inl e ->
  _calculate_intensity distribution text = Low.
Proof. unfold _calculate_intensity. now intros ->. Qed.

(** A text that is falsy gives no surface evidence. *)
Lemma calculate_intensity_try_falsy (distribution : dict A) (text : py_text) :
  truthy text = false ->
  (forall s, text <> TStr s) ->
  _calculate_intensity_try distribution text
    = inr (intensity_decision (max_score_of distribution) 0 (of_int 0)
                              false false false).
Proof.
  intros Hfalsy Hnot. unfold _calculate_intensity_try. rewrite Hfalsy.
  destruct text as [s| |n]; [now elim (Hnot s)| |]; reflexivity.
Qed.
End IntensityFacts.

(** C3: for every distribution and every string, [_calculate_intensity]
    returns the level of the first matching row of the table of section
    4.3, read top to bottom, on the evidence of the distribution and the
    text: the peak a score that no score exceeds (0 when there is no
    score), the exclamation marks counted, the capitals as a share of the
    characters, and a lexicon matched when one of its phrases occurs in the
    lowercased text.  It holds in binary64 as in exact arithmetic, and for
    every table of uppercase letters and lowercase forms. *)
Theorem intensity_follows_threshold_table {A : Type} `{PyFloat A} `{!PyOrder A}
    {PS : PyStr} (distribution : dict A) (t : text) (e : evidence A) :
  describes distribution t e ->
  first_match intensity_table e = Some (_calculate_intensity distribution (TStr t)).
Proof.
  intros He. unfold _calculate_intensity.
  rewrite calculate_intensity_try_str.
  rewrite <- (decision_of_evidence distribution t e He).
  apply decision_is_first_match.
  intros Hbelow.
  rewrite (fltb_total (peak e) (lit 45 100)).
  - now rewrite Hbelow.
  - apply (peak_is_number distribution). apply He.
  - apply threshold_is_number.
Qed.

Lemma intensity_follows_threshold_table_witness :
  describes (A := float) (PS := basic_latin)
    [ ("joy", lit 3 10); ("sadness", lit 3 10); ("neutral", lit 4 10) ]
    (text_of "a bit tired")
    {| peak := lit 4 10; exclam := 0; caps_ratio := lit 0 1;
       high_match := false; med_match := false; low_match := true |} /\
  first_match intensity_table
    {| peak := lit 4 10; exclam := 0; caps_ratio := lit 0 1;
       high_match := false; med_match := false; low_match := true |}
  = Some (_calculate_intensity (A := float) (PS := basic_latin)
            [ ("joy", lit 3 10); ("sadness", lit 3 10); ("neutral", lit 4 10) ]
            (TStr (text_of "a bit tired"))) /\
  _calculate_intensity (A := float) (PS := basic_latin)
    [ ("joy", lit 3 10); ("sadness", lit 3 10); ("neutral", lit 4 10) ]
    (TStr (text_of "a bit tired")) = Low.
Proof.
  assert (Hnum : scores_are_numbers (A := float)
                   [ ("joy", lit 3 10); ("sadness", lit 3 10); ("neutral", lit 4 10) ]).
  { intros k v [Heq|[Heq|[Heq|[]]]]; apply (f_equal snd) in Heq; cbn [snd] in Heq;
      subst v; reflexivity. }
  assert (He : describes (A := float) (PS := basic_latin)
                 [ ("joy", lit 3 10); ("sadness", lit 3 10); ("neutral", lit 4 10) ]
                 (text_of "a bit tired")
                 {| peak := lit 4 10; exclam := 0; caps_ratio := lit 0 1;
                    high_match := false; med_match := false; low_match := true |}).
  { exact (code_evidence_describes (A := float) (PS := basic_latin)
             [ ("joy", lit 3 10); ("sadness", lit 3 10); ("neutral", lit 4 10) ]
             (text_of "a bit tired") Hnum). }
  split; [exact He|]. split.
  - exact (intensity_follows_threshold_table (A := float) (PS := basic_latin)
             _ _ _ He).
  - vm_compute. reflexivity.
Defined.

(** Without surface evidence the cascade gives the default of the tier.
    Binary64 arithmetic. *)
Lemma decision_without_evidence (max_score : float) :
  intensity_decision max_score 0 (of_int 0) false false false = tier_default max_score.
Proof.
  unfold intensity_decision, tier_default.
  change (fltb (lit 3 10) (of_int (A := float) 0)) with false.
  change (fleb (lit 3 10) (of_int (A := float) 0)) with false.
  change (fleb (lit 1 10) (of_int (A := float) 0)) with false.
  cbn [Z.ltb Z.leb Z.compare orb].
  destruct (fleb (lit 75 100) max_score); [reflexivity|].
  destruct (fleb (lit 45 100) max_score); reflexivity.
Qed.

(** The default of a tier is the same for every peak of a distribution. *)
Lemma tier_default_of_peak (distribution : dict float) (p : float) :
  is_peak distribution p ->
  tier_default (max_score_of distribution) = tier_default p.
Proof.
  intros Hp. unfold tier_default.
  now rewrite !(peak_tier distribution p _ Hp).
Qed.

(** C9, as the code has it: [_calculate_intensity] never raises, and
    whatever is raised while it evaluates comes out as 'low' (a text that is
    a non-zero int does raise).  A text that is [None] or [0] raises
    nothing and carries no surface evidence: the result is the default of
    the tier of the peak, 'high' from 0.75, 'medium' from 0.45, 'low'
    below, the peak being a score that no score exceeds.  An empty
    distribution raises nothing either: its peak is 0 and the evidence of
    the text decides through the lowest tier.  Binary64 arithmetic, every
    table of uppercase letters and lowercase forms. *)
Theorem intensity_safe_defaults {PS : PyStr} (distribution : dict float) :
  (forall text e,
      _calculate_intensity_try distribution text = inl e ->
      _calculate_intensity distribution text = Low) /\
  (forall p, _calculate_intensity_try distribution (TInt (Z.pos p)) = inl AttributeError) /\
  (forall n, n <> 0%Z -> _calculate_intensity distribution (TInt n) = Low) /\
  (forall p,
      is_peak distribution p ->
      _calculate_intensity distribution (TInt 0) = tier_default p /\
      _calculate_intensity distribution TNone = tier_default p) /\
  (forall (t : text) (e : evidence float),
      describes [] t e ->
      _calculate_intensity (A := float) [] (TStr t) = lowest_tier e).
Proof.
  split; [|split; [|split; [|split]]].
  - intros text e. apply calculate_intensity_on_error.
  - reflexivity.
  - intros n Hn. unfold _calculate_intensity, _calculate_intensity_try. cbn [truthy].
    destruct (Z.eqb_spec n 0) as [|_]; [contradiction|]. reflexivity.
  - intros p Hp. rewrite <- (tier_default_of_peak distribution p Hp).
    unfold _calculate_intensity.
    rewrite !calculate_intensity_try_falsy; try reflexivity; try discriminate.
    split; apply decision_without_evidence.
  - intros t e He. unfold _calculate_intensity.
    rewrite calculate_intensity_try_str.
    rewrite <- (decision_of_evidence [] t e He).
    assert (Hpeak : peak e = of_int 0) by apply He.
    unfold intensity_decision, lowest_tier, strong, moderate. rewrite Hpeak.
    change (fleb (lit 75 100) (of_int (A := float) 0)) with false.
    change (fleb (lit 45 100) (of_int (A := float) 0)) with false.
    cbv iota.
    destruct ((3 <=? exclam e)%Z || fleb (lit 3 10) (caps_ratio e) || high_match e);
      [reflexivity|].
    destruct ((1 <=? exclam e)%Z || fleb (lit 1 10) (caps_ratio e) || med_match e);
      [reflexivity|].
    destruct (low_match e); reflexivity.
Qed.

(** Three exclamation marks make an empty distribution 'high', whatever
    the tables of uppercase letters and lowercase forms are. *)
Lemma three_marks_are_high {PS : PyStr} :
  _calculate_intensity (A := float) [] (TStr (text_of "!!!")) = High.
Proof.
  unfold _calculate_intensity. rewrite calculate_intensity_try_str.
  unfold intensity_decision.
  change (max_score_of (A := float) []) with (of_int (A := float) 0).
  change (fleb (lit 75 100) (of_int (A := float) 0)) with false.
  change (fleb (lit 45 100) (of_int (A := float) 0)) with false.
  reflexivity.
Qed.

(** C9, as stated, fails: an empty distribution with an emphatic text is
    'high', and so is a text of [None] under a high peak score.  Binary64
    arithmetic. *)
Lemma intensity_not_low_on_empty_or_missing :
  _calculate_intensity (A := float) (PS := basic_latin) [] (TStr (text_of "!!!")) = High /\
  _calculate_intensity (A := float) (PS := basic_latin)
    [("joy", lit 9 10); ("neutral", lit 1 10)] TNone = High /\
  High <> Low.
Proof. repeat split; try (vm_compute; reflexivity). discriminate. Qed.

(** ** Cultural adjuster *)

Section AdjusterFacts.
Local Open Scope Q_scope.

Lemma fadd_exact (a b : Q) : fadd a b == a + b.
Proof. apply Qred_correct. Qed.

Lemma fmul_exact (a b : Q) : fmul a b == a * b.
Proof. apply Qred_correct. Qed.

Lemma fdiv_exact (a b : Q) : fdiv a b == a / b.
Proof. apply Qred_correct. Qed.

Lemma lit_exact (n : Z) (d : positive) : lit n d == n # d.
Proof. apply Qred_correct. Qed.

Lemma fold_fadd_exact (l : list Q) (acc : Q) :
  fold_left fadd l acc == acc + fold_right Qplus 0 l.
Proof.
  revert acc. induction l as [|v l IH]; intros acc; cbn [fold_left fold_right].
  - lra.
  - rewrite IH, fadd_exact. lra.
Qed.

Lemma total_values (d : dict Q) : fold_right Qplus 0 (dict_values d) == total d.
Proof.
  induction d as [|[k v] d IH]; cbn [dict_values map snd fold_right total];
    [reflexivity|].
  unfold dict_values in IH. now rewrite IH.
Qed.

Lemma pysum_exact (d : dict Q) : pysum (dict_values d) == total d.
Proof.
  unfold pysum. rewrite fold_fadd_exact, total_values. cbn [of_int rational].
  unfold inject_Z. lra.
Qed.

Lemma comprehension_exact (t : Q) (d : dict Q) :
  ~ t == 0 ->
  dict_comprehension (fun _ v => truediv v t) d = inr (normalized t d).
Proof.
  intros Ht. induction d as [|[k v] d IH]; cbn [dict_comprehension]; [reflexivity|].
  unfold truediv at 1. cbn [feqb of_int rational].
  destruct (Qeq_bool t (inject_Z 0)) eqn:Hz.
  - apply Qeq_bool_iff in Hz. now elim Ht.
  - cbn [bind ret]. rewrite IH. reflexivity.
Qed.

Lemma total_normalized (t : Q) (d : dict Q) :
  total (normalized t d) == total d / t.
Proof.
  induction d as [|[k v] d IH]; cbn [normalized map total fst snd].
  - unfold Qdiv. lra.
  - fold (normalized t d). rewrite IH, Qred_correct. unfold Qdiv. lra.
Qed.

Lemma total_split (d : dict Q) : total d == outward_total d + neutral_total d.
Proof.
  induction d as [|[k v] d IH]; cbn [total outward_total neutral_total]; [lra|].
  rewrite IH. destruct (negb (str_in k neutral_emotions)); lra.
Qed.

Lemma total_scaled (factor : Q) (d : dict Q) :
  total (scale_outward factor d) == factor * outward_total d + neutral_total d.
Proof.
  induction d as [|[k v] d IH];
    cbn [scale_outward map total outward_total neutral_total]; [lra|].
  fold (scale_outward factor d).
  destruct (negb (str_in k neutral_emotions)); cbn [total]; rewrite IH.
  - rewrite fmul_exact. lra.
  - lra.
Qed.

Lemma nonnegative_tail (kv : string * Q) (d : dict Q) :
  nonnegative (kv :: d) -> nonnegative d.
Proof. intros Hd k v Hin. apply (Hd k v). now right. Qed.

Lemma totals_nonnegative (d : dict Q) :
  nonnegative d -> 0 <= outward_total d /\ 0 <= neutral_total d.
Proof.
  induction d as [|[k v] d IH]; intros Hd; cbn [outward_total neutral_total];
    [split; lra|].
  destruct (IH (nonnegative_tail _ _ Hd)) as [Ho Hn].
  assert (Hv : 0 <= v) by (apply (Hd k v); now left).
  destruct (negb (str_in k neutral_emotions)); split; lra.
Qed.

Lemma dict_get_In (k : string) (v : Q) (d : dict Q) :
  dict_get k d = Some v -> In (k, v) d.
Proof.
  induction d as [|[k' v'] d IH]; simpl; [discriminate|].
  destruct (String.eqb_spec k k') as [->|Hne].
  - intros [= ->]. now left.
  - intros Hget. right. now apply IH.
Qed.

Lemma dict_get_scaled (factor : Q) (k : string) (d : dict Q) :
  dict_get k (scale_outward factor d)
    = option_map (fun v => if negb (str_in k neutral_emotions) then fmul v factor else v)
                 (dict_get k d).
Proof.
  induction d as [|[k' v'] d IH]; cbn [scale_outward map dict_get option_map];
    [reflexivity|].
  fold (scale_outward factor d).
  destruct (negb (str_in k' neutral_emotions)) eqn:Hk'; cbn [dict_get];
    destruct (String.eqb_spec k k') as [->|Hne]; cbn [option_map];
    try rewrite Hk'; auto.
Qed.

Lemma dict_get_normalized (t : Q) (k : string) (d : dict Q) :
  dict_get k (normalized t d) = option_map (fun v => Qred (v / t)) (dict_get k d).
Proof.
  induction d as [|[k' v'] d IH]; cbn [normalized map dict_get fst snd option_map];
    [reflexivity|].
  destruct (String.eqb k k'); [reflexivity|exact IH].
Qed.

Lemma keys_scaled (factor : Q) (d : dict Q) :
  dict_keys (scale_outward factor d) = dict_keys d.
Proof.
  unfold dict_keys, scale_outward. rewrite map_map. apply map_ext.
  intros [k v]. now destruct (negb (str_in k neutral_emotions)).
Qed.

Lemma keys_normalized (t : Q) (d : dict Q) : dict_keys (normalized t d) = dict_keys d.
Proof. unfold dict_keys, normalized. rewrite map_map. now apply map_ext. Qed.

Lemma keys_adjusted (style : pyval) (d : dict Q) :
  dict_keys (adjust_for_style style d) = dict_keys d.
Proof.
  unfold adjust_for_style.
  destruct (pyval_is style "reserved"); [apply keys_scaled|].
  destruct (pyval_is style "expressive"); [apply keys_scaled|reflexivity].
Qed.

(** The total after the style branch of a complete distribution. *)
Lemma adjusted_total (style : pyval) (d : dict Q) :
  complete d ->
  let t := total (adjust_for_style style d) in
  (pyval_is style "reserved" = true -> (8 # 10) <= t <= 1) /\
  (pyval_is style "reserved" = false -> pyval_is style "expressive" = true ->
   1 <= t <= (12 # 10)) /\
  (pyval_is style "reserved" = false -> pyval_is style "expressive" = false -> t == 1).
Proof.
  intros [Hnn Hone] t. subst t.
  destruct (totals_nonnegative d Hnn) as [Ho Hn].
  pose proof (total_split d) as Hsplit. rewrite Hone in Hsplit.
  unfold adjust_for_style.
  destruct (pyval_is style "reserved").
  - split; [intros _|split; discriminate].
    rewrite total_scaled, lit_exact. lra.
  - destruct (pyval_is style "expressive").
    + split; [discriminate|split; [intros _ _|discriminate]].
      rewrite total_scaled, lit_exact. lra.
    + split; [discriminate|split; [discriminate|intros _ _; exact Hone]].
Qed.

Lemma adjusted_total_positive (style : pyval) (d : dict Q) :
  complete d -> 0 < total (adjust_for_style style d).
Proof.
  intros Hd. destruct (adjusted_total style d Hd) as (Hr & He & Hi).
  destruct (pyval_is style "reserved"); [specialize (Hr eq_refl); lra|].
  destruct (pyval_is style "expressive"); [specialize (He eq_refl eq_refl); lra|].
  specialize (Hi eq_refl eq_refl). rewrite Hi. lra.
Qed.

(** On a complete distribution the [try] block divides by a positive
    total and returns the quotients. *)
Lemma apply_cultural_context_try_exact
    (cultural_context : dict profile) (d : dict Q) (context : string) :
  complete d ->
  let adjusted := adjust_for_style (expression_style cultural_context context) d in
  _apply_cultural_context_try cultural_context d context
    = inr (normalized (pysum (dict_values adjusted)) adjusted).
Proof.
  intros Hd adjusted. unfold _apply_cultural_context_try. fold adjusted.
  pose proof (adjusted_total_positive (expression_style cultural_context context) d Hd)
    as Hpos. fold adjusted in Hpos.
  pose proof (pysum_exact adjusted) as Hsum.
  cbn [fltb of_int rational].
  destruct (Qle_bool (pysum (dict_values adjusted)) (inject_Z 0)) eqn:Hle.
  - apply Qle_bool_iff in Hle. rewrite Hsum in Hle. unfold inject_Z in Hle. lra.
  - cbn [negb]. apply comprehension_exact. rewrite Hsum. lra.
Qed.
End AdjusterFacts.

Section AdjusterResults.
Local Open Scope Q_scope.

Lemma nonnegative_scaled (factor : Q) (d : dict Q) :
  0 <= factor -> nonnegative d -> nonnegative (scale_outward factor d).
Proof.
  intros Hf Hd k v Hin. unfold scale_outward in Hin.
  apply in_map_iff in Hin. destruct Hin as [[k' v'] [Heq Hin']].
  assert (Hv' : 0 <= v') by apply (Hd k' v' Hin').
  cbv beta iota in Heq.
  destruct (negb (str_in k' neutral_emotions));
    apply (f_equal snd) in Heq; cbn [snd] in Heq; subst v.
  - rewrite fmul_exact. now apply Qmult_le_0_compat.
  - exact Hv'.
Qed.

Lemma nonnegative_adjusted (style : pyval) (d : dict Q) :
  nonnegative d -> nonnegative (adjust_for_style style d).
Proof.
  intros Hd. unfold adjust_for_style.
  destruct (pyval_is style "reserved").
  - apply nonnegative_scaled; [rewrite lit_exact; lra|exact Hd].
  - destruct (pyval_is style "expressive"); [|exact Hd].
    apply nonnegative_scaled; [rewrite lit_exact; lra|exact Hd].
Qed.

Lemma nonnegative_normalized (t : Q) (d : dict Q) :
  0 < t -> nonnegative d -> nonnegative (normalized t d).
Proof.
  intros Ht Hd k v Hin. unfold normalized in Hin.
  apply in_map_iff in Hin. destruct Hin as [[k' v'] [Heq Hin']].
  apply (f_equal snd) in Heq. cbn [snd] in Heq. subst v. rewrite Qred_correct.
  apply Qle_shift_div_l; [exact Ht|].
  assert (Hv' : 0 <= v') by apply (Hd k' v' Hin'). lra.
Qed.

Lemma style_exclusive (style : pyval) :
  pyval_is style "expressive" = true -> pyval_is style "reserved" = false.
Proof.
  destruct style as [s|l]; cbn [pyval_is]; [|discriminate].
  intros Hs. apply String.eqb_eq in Hs. now subst s.
Qed.
End AdjusterResults.

(** [except Exception]: when the [try] block raises, the scores come back
    as they were given. *)
Lemma apply_cultural_context_on_error {A : Type} `{PyFloat A}
    (cultural_context : dict profile) (d : dict A) (context : string) (e : exn) :
  _apply_cultural_context_try cultural_context d context = inl e ->
  _apply_cultural_context cultural_context d context = d.
Proof. unfold _apply_cultural_context. now intros ->. Qed.

(** C2: for every complete distribution and every context name, under any
    registry of profiles, the [try] block of [_apply_cultural_context] does
    not raise and the function returns a distribution over the same labels
    that is complete again: non-negative scores that sum to 1.  Exact
    arithmetic: the floating tolerance of the claim is the rounding error
    that this reading leaves out. *)
Theorem cultural_adjuster_keeps_distribution
    (cultural_context : dict profile) (d : dict Q) (context : string) :
  complete d ->
  exists out : dict Q,
    _apply_cultural_context_try cultural_context d context = inr out /\
    _apply_cultural_context cultural_context d context = out /\
    dict_keys out = dict_keys d /\
    complete out.
Proof.
  intros Hd.
  set (style := expression_style cultural_context context).
  set (adjusted := adjust_for_style style d).
  pose proof (apply_cultural_context_try_exact cultural_context d context Hd) as Htry.
  cbv zeta in Htry. fold style adjusted in Htry.
  pose proof (adjusted_total_positive style d Hd) as Hpos. fold adjusted in Hpos.
  pose proof (pysum_exact adjusted) as Hsum.
  exists (normalized (pysum (dict_values adjusted)) adjusted).
  split; [exact Htry|]. split; [|split; [|split]].
  - unfold _apply_cultural_context. now rewrite Htry.
  - rewrite keys_normalized. apply keys_adjusted.
  - apply nonnegative_normalized.
    + rewrite Hsum. exact Hpos.
    + apply nonnegative_adjusted, Hd.
  - rewrite total_normalized, Hsum. field. lra.
Qed.

Lemma cultural_adjuster_keeps_distribution_witness :
  let d : dict Q := [ ("joy", 6 # 10); ("anger", 1 # 10); ("neutral", 3 # 10) ]%Q in
  complete d /\
  exists out : dict Q,
    _apply_cultural_context load_cultural_context d "eastern" = out /\
    out = [ ("joy", 24 # 43); ("anger", 4 # 43); ("neutral", 15 # 43) ]%Q /\
    complete out.
Proof.
  intros d.
  assert (Hd : complete d).
  { split.
    - intros k v [[= <- <-]|[[= <- <-]|[[= <- <-]|[]]]]; discriminate.
    - reflexivity. }
  split; [exact Hd|].
  destruct (cultural_adjuster_keeps_distribution load_cultural_context d "eastern" Hd)
    as (out & _ & Hout & _ & Hcomplete).
  exists out. split; [exact Hout|]. split; [|exact Hcomplete].
  rewrite <- Hout. vm_compute. reflexivity.
Defined.

(** C8, in exact arithmetic: on a complete distribution, a label outside
    the neutral class never ends above its input score under a 'reserved'
    profile and never below it under an 'expressive' one, and in every
    style the score of a neutral-class label is the input score until the
    scores are normalized. *)
Theorem cultural_adjustment_direction
    (cultural_context : dict profile) (d : dict Q) (context k : string) (v : Q) :
  complete d ->
  dict_get k d = Some v ->
  let style := expression_style cultural_context context in
  let final := _apply_cultural_context cultural_context d context in
  (str_in k neutral_emotions = false ->
   exists v' : Q,
     dict_get k final = Some v' /\
     (pyval_is style "reserved" = true -> (v' <= v)%Q) /\
     (pyval_is style "expressive" = true -> (v <= v')%Q)) /\
  (str_in k neutral_emotions = true ->
   dict_get k (adjust_for_style style d) = Some v).
Proof.
  intros Hd Hget style final. split.
  - intros Hout.
    pose proof (apply_cultural_context_try_exact cultural_context d context Hd) as Htry.
    cbv zeta in Htry. fold style in Htry.
    assert (Hfinal : final = normalized (pysum (dict_values (adjust_for_style style d)))
                                        (adjust_for_style style d)).
    { unfold final, _apply_cultural_context. now rewrite Htry. }
    pose proof (pysum_exact (adjust_for_style style d)) as Hsum.
    destruct (adjusted_total style d Hd) as (Hres & Hexp & _).
    assert (Hv : (0 <= v)%Q) by (apply (proj1 Hd k v), dict_get_In, Hget).
    rewrite Hfinal, dict_get_normalized.
    revert Hsum Hres Hexp.
    generalize (pysum (dict_values (adjust_for_style style d))). intros t Hsum.
    rewrite <- Hsum. clear Hsum. unfold adjust_for_style.
    destruct (pyval_is style "reserved") eqn:Hr.
    + intros Hres _. specialize (Hres eq_refl).
      rewrite dict_get_scaled, Hget, Hout. cbn [option_map negb].
      eexists. split; [reflexivity|]. split.
      * intros _. rewrite Qred_correct, fmul_exact, lit_exact.
        apply Qle_shift_div_r; [lra|]. nra.
      * intros He. apply style_exclusive in He. congruence.
    + destruct (pyval_is style "expressive") eqn:He.
      * intros _ Hexp. specialize (Hexp eq_refl eq_refl).
        rewrite dict_get_scaled, Hget, Hout. cbn [option_map negb].
        eexists. split; [reflexivity|]. split; [discriminate|].
        intros _. rewrite Qred_correct, fmul_exact, lit_exact.
        apply Qle_shift_div_l; [lra|]. nra.
      * intros _ _. rewrite Hget. cbn [option_map].
        eexists. split; [reflexivity|]. split; discriminate.
  - intros Hneutral. unfold adjust_for_style.
    destruct (pyval_is style "reserved");
      [|destruct (pyval_is style "expressive")];
      try exact Hget;
      rewrite dict_get_scaled, Hget, Hneutral; reflexivity.
Qed.

Lemma cultural_adjustment_direction_witness :
  let d : dict Q := [ ("joy", 6 # 10); ("anger", 1 # 10); ("neutral", 3 # 10) ]%Q in
  complete d /\
  dict_get "anger" d = Some (1 # 10)%Q /\
  exists v' : Q,
    dict_get "anger" (_apply_cultural_context load_cultural_context d "eastern") = Some v' /\
    (v' <= 1 # 10)%Q.
Proof.
  intros d.
  assert (Hd : complete d).
  { split.
    - intros k v [[= <- <-]|[[= <- <-]|[[= <- <-]|[]]]]; discriminate.
    - reflexivity. }
  split; [exact Hd|]. split; [reflexivity|].
  destruct (cultural_adjustment_direction load_cultural_context d "eastern" "anger"
              (1 # 10)%Q Hd eq_refl) as [Hout _].
  destruct (Hout eq_refl) as (v' & Hget & Hres & _).
  exists v'. split; [exact Hget|]. apply Hres. reflexivity.
Defined.

(** C8, as stated, fails in binary64.  The scores joy 0.9 and anger 0.1 sum
    to 1.0; under the 'reserved' profile of 'eastern' the final score of
    anger is 0.10000000000000002, above its input 0.1, and under the
    'expressive' profile of 'western' the final score of joy is
    0.8999999999999999, below its input 0.9. *)
Lemma cultural_adjustment_rounds_past_input :
  let d : dict float :=
    dict_set "anger" (lit 1 10) (dict_set "joy" (lit 9 10) emotion_scores_init) in
  pysum (dict_values d) = lit 1 1 /\
  forallb (fun kv => fleb (of_int 0) (snd kv)) d = true /\
  str_in "anger" neutral_emotions = false /\
  str_in "joy" neutral_emotions = false /\
  expression_style load_cultural_context "eastern" = VStr "reserved" /\
  expression_style load_cultural_context "western" = VStr "expressive" /\
  (exists v' : float,
      dict_get "anger" (_apply_cultural_context load_cultural_context d "eastern") = Some v' /\
      fltb (lit 1 10) v' = true) /\
  (exists v' : float,
      dict_get "joy" (_apply_cultural_context load_cultural_context d "western") = Some v' /\
      fltb v' (lit 9 10) = true).
Proof.
  cbv zeta. repeat split; try (vm_compute; reflexivity).
  - eexists. split; vm_compute; reflexivity.
  - eexists. split; vm_compute; reflexivity.
Qed.

(** In binary64 the sum of the adjusted scores is 1.0 up to rounding only:
    for joy 0.9 and anger 0.1 under 'western' it is 0.9999999999999999, one
    unit in the last place below 1.0. *)
Lemma cultural_adjuster_sum_in_binary64 :
  let d : dict float :=
    dict_set "anger" (lit 1 10) (dict_set "joy" (lit 9 10) emotion_scores_init) in
  let s := pysum (dict_values (_apply_cultural_context load_cultural_context d "western")) in
  fltb s (lit 1 1) = true /\
  fleb (PrimFloat.sub (lit 1 1) (fdiv (lit 1 1) (of_int (2 ^ 52)))) s = true.
Proof. cbv zeta. split; vm_compute; reflexivity. Qed.

Section AdjusterZero.
Local Open Scope Q_scope.

Lemma zero_total_zero_scores (d : dict Q) :
  nonnegative d -> total d == 0 -> forall k v, In (k, v) d -> v == 0.
Proof.
  induction d as [|[k' v'] d IH]; intros Hd Hzero k v Hin; [destruct Hin|].
  cbn [total] in Hzero.
  assert (Hv' : 0 <= v') by (apply (Hd k' v'); now left).
  assert (Hrest : 0 <= total d).
  { rewrite total_split.
    destruct (totals_nonnegative d (nonnegative_tail _ _ Hd)). lra. }
  destruct Hin as [Heq|Hin].
  - apply (f_equal snd) in Heq. cbn [snd] in Heq. subst v'. lra.
  - apply (IH (nonnegative_tail _ _ Hd)) with (k := k); [lra|exact Hin].
Qed.

(** When the scores are non-negative and the total after the style branch
    is not positive, nothing is divided and every label comes back with
    its input score. *)
Lemma apply_cultural_context_zero_total
    (cultural_context : dict profile) (d : dict Q) (context k : string) (v : Q) :
  nonnegative d ->
  total d == 0 ->
  dict_get k d = Some v ->
  exists v' : Q,
    dict_get k (_apply_cultural_context cultural_context d context) = Some v' /\
    v' == v.
Proof.
  intros Hd Hzero Hget.
  set (style := expression_style cultural_context context).
  assert (Hall : forall k v, In (k, v) d -> v == 0)
    by now apply zero_total_zero_scores.
  destruct (totals_nonnegative d Hd) as [Ho Hn].
  pose proof (total_split d) as Hsplit. rewrite Hzero in Hsplit.
  assert (Htotal : total (adjust_for_style style d) == 0).
  { unfold adjust_for_style.
    destruct (pyval_is style "reserved");
      [|destruct (pyval_is style "expressive")];
      try exact Hzero; rewrite total_scaled, lit_exact; nra. }
  assert (Hrun : _apply_cultural_context cultural_context d context
                 = adjust_for_style style d).
  { unfold _apply_cultural_context, _apply_cultural_context_try. fold style.
    cbn [fltb of_int rational].
    destruct (Qle_bool (pysum (dict_values (adjust_for_style style d))) (inject_Z 0))
      eqn:Hle; [reflexivity|].
    exfalso. apply not_true_iff_false in Hle. apply Hle, Qle_bool_iff.
    rewrite pysum_exact, Htotal. unfold inject_Z. lra. }
  rewrite Hrun. pose proof (Hall k v (dict_get_In k v d Hget)) as Hv.
  unfold adjust_for_style.
  destruct (pyval_is style "reserved");
    [|destruct (pyval_is style "expressive")];
    try (exists v; split; [exact Hget|reflexivity]);
    rewrite dict_get_scaled, Hget; cbn [option_map];
    (destruct (negb (str_in k neutral_emotions));
     eexists; (split; [reflexivity|]);
     [rewrite fmul_exact, Hv; lra|reflexivity]).
Qed.
End AdjusterZero.

(** ** Score normalizer and peak score, in exact arithmetic *)

Section NormalizerExact.
Local Open Scope Q_scope.

Lemma total_set (k : string) (v old : Q) (d : dict Q) :
  dict_get k d = Some old -> total (dict_set k v d) == total d - old + v.
Proof.
  induction d as [|[k' v'] d IH]; cbn [dict_get dict_set total]; [discriminate|].
  destruct (String.eqb k k').
  - intros [= ->]. cbn [total]. lra.
  - intros Hget. cbn [total]. rewrite (IH Hget). lra.
Qed.

Lemma in_dict_set (k k' : string) (v v' : Q) (d : dict Q) :
  In (k, v) (dict_set k' v' d) -> In (k, v) d \/ v = v'.
Proof.
  induction d as [|[k'' v''] d IH]; cbn [dict_set].
  - intros [[= <- <-]|[]]. now right.
  - destruct (String.eqb k' k'').
    + intros [[= <- <-]|Hin]; [now right|left; now right].
    + intros [Heq|Hin]; [left; now left|].
      destruct (IH Hin) as [Hd| ->]; [left; now right|now right].
Qed.

Lemma nonnegative_set (k : string) (v : Q) (d : dict Q) :
  0 <= v -> nonnegative d -> nonnegative (dict_set k v d).
Proof.
  intros Hv Hd k' v' Hin.
  destruct (in_dict_set _ _ _ _ _ Hin) as [Hold| ->]; [apply (Hd k' v' Hold)|exact Hv].
Qed.

Lemma nonnegative_store_item (scores : dict Q) (it : item Q) :
  0 <= score it -> nonnegative scores -> nonnegative (store_item scores it).
Proof.
  intros Hit Hs. unfold store_item.
  destruct (dict_mem (label it) scores); apply nonnegative_set; try assumption.
  rewrite lit_exact. lra.
Qed.

Lemma nonnegative_fold_store_item (items : list (item Q)) (scores : dict Q) :
  (forall it, In it items -> 0 <= score it) ->
  nonnegative scores -> nonnegative (fold_left store_item items scores).
Proof.
  revert scores. induction items as [|it items IH]; intros scores Hitems Hs;
    cbn [fold_left]; [exact Hs|].
  apply IH.
  - intros it' Hin. apply Hitems. now right.
  - apply nonnegative_store_item; [apply Hitems; now left|exact Hs].
Qed.

(** From non-negative scores, on non-negative input scores, the normalizer
    returns a complete distribution: the quotients when the total is
    positive, the degenerate one when it is zero. *)
Lemma normalizer_output_complete (items : list (item Q)) (scores : dict Q) :
  nonnegative scores ->
  dict_mem "neutral" scores = true ->
  (forall it, In it items -> 0 <= score it) ->
  exists out : dict Q,
    _process_model_output (ResList items) scores = (inr out, out) /\
    complete out.
Proof.
  intros Hs Hneutral Hitems.
  unfold _process_model_output.
  set (stored := match items with
                 | [] => scores
                 | _ :: _ => fold_left store_item items scores
                 end).
  assert (Hstored : stored = fold_left store_item items scores)
    by (subst stored; now destruct items).
  assert (Hnn : nonnegative stored)
    by (rewrite Hstored; now apply nonnegative_fold_store_item).
  assert (Hmem : dict_mem "neutral" stored = true).
  { rewrite Hstored, dict_mem_keys, fold_store_item_keys by exact Hneutral.
    now rewrite <- dict_mem_keys. }
  clearbody stored. clear Hstored.
  pose proof (pysum_exact stored) as Hsum.
  cbn [fltb of_int rational].
  destruct (Qle_bool (pysum (dict_values stored)) (inject_Z 0)) eqn:Hle; cbn [negb].
  - apply Qle_bool_iff in Hle. rewrite Hsum in Hle. unfold inject_Z in Hle.
    assert (Hzero : total stored == 0).
    { destruct (totals_nonnegative stored Hnn). rewrite total_split in *. lra. }
    eexists. split; [reflexivity|]. split.
    + apply nonnegative_set; [rewrite lit_exact; lra|exact Hnn].
    + unfold dict_mem in Hmem.
      destruct (dict_get "neutral" stored) as [old|] eqn:Hget; [|discriminate].
      rewrite (total_set _ _ old _ Hget), lit_exact, Hzero.
      rewrite (zero_total_zero_scores stored Hnn Hzero "neutral" old (dict_get_In _ _ _ Hget)).
      reflexivity.
  - assert (Hpos : 0 < total stored).
    { apply not_true_iff_false in Hle. rewrite Qle_bool_iff, Hsum in Hle.
      unfold inject_Z in Hle. lra. }
    rewrite comprehension_exact by (rewrite Hsum; lra).
    eexists. split; [reflexivity|]. split.
    + apply nonnegative_normalized; [rewrite Hsum; exact Hpos|exact Hnn].
    + rewrite total_normalized, Hsum. field. lra.
Qed.

(** The peak score of a non-empty distribution is one of its scores, and no
    score is above it. *)
Lemma pymax_is_maximum (v : Q) (vs : list Q) :
  In (pymax v vs) (v :: vs) /\ forall x, In x (v :: vs) -> x <= pymax v vs.
Proof.
  unfold pymax. revert v. induction vs as [|y vs IH]; intros v; cbn [fold_left].
  - split; [now left|]. intros x [<-|[]]. lra.
  - destruct (IH (if fltb v y then y else v)) as [Hin Hmax].
    assert (Hstep : v <= (if fltb v y then y else v) /\
                    y <= (if fltb v y then y else v)).
    { cbn [fltb rational]. destruct (Qle_bool y v) eqn:Hyv; cbn [negb].
      - apply Qle_bool_iff in Hyv. split; lra.
      - apply not_true_iff_false in Hyv. rewrite Qle_bool_iff in Hyv. split; lra. }
    destruct Hstep as [Hv Hy].
    pose proof (Hmax _ (or_introl eq_refl)) as Hm.
    split.
    + destruct Hin as [Heq|Hin]; [|right; now right].
      rewrite <- Heq. destruct (fltb v y); [right; now left|now left].
    + intros x [<-|[<-|Hx]]; [lra|lra|].
      apply Hmax. now right.
Qed.
End NormalizerExact.

(** ** The worked examples of the specification, in binary64 *)

(** Raw scores joy 0.9 and neutral 0.1 are already normalized, the 'default'
    profile leaves them alone, and "I'm so happy!!!" makes them 'high'. *)
Example happy_message_is_high :
  let raw := ResList [ {| label := "joy"; score := lit 9 10 |};
                       {| label := "neutral"; score := lit 1 10 |} ] in
  let scores := dict_set "neutral" (lit 1 10)
                  (dict_set "joy" (lit 9 10) (emotion_scores_init (A := float))) in
  fst (_process_model_output raw emotion_scores_init) = inr scores /\
  _apply_cultural_context load_cultural_context scores "default" = scores /\
  _calculate_intensity (PS := basic_latin) scores (TStr (text_of "I'm so happy!!!")) = High.
Proof. cbv zeta. repeat split; vm_compute; reflexivity. Qed.

(** Three sad messages: dominant 'sadness', every trend 'stable'. *)
Example three_sad_messages {PS : PyStr} :
  let sad := {| primary_emotion := Some "sadness"; intensity := Some "low" |} in
  exists report : trend_report float,
    get_emotion_trends [sad; sad; sad] = inr report /\
    dominant_emotion report = "sadness" /\
    trend report = "short-term: stable, mid-term: stable and overall: stable".
Proof. cbv zeta. eexists. repeat split; vm_compute; reflexivity. Qed.

(** Seven messages with one 'anger' among 'joy': the medium window is
    'improving', the short window 'stable', the overall trend 'mixed'. *)
Example joy_with_one_anger {PS : PyStr} :
  let record e := {| primary_emotion := Some e; intensity := Some "medium" |} in
  exists report : trend_report float,
    get_emotion_trends (map record ["joy"; "joy"; "anger"; "joy"; "joy"; "joy"; "joy"])
      = inr report /\
    trend report = "short-term: stable, mid-term: improving and overall: mixed".
Proof. cbv zeta. eexists. split; vm_compute; reflexivity. Qed.

(** * Further properties of the code *)

(** ** Intensity and peak score *)

Section IntensityOrder.
Local Open Scope Q_scope.

(** In exact arithmetic a caps ratio other than 0.3 passes the strict test
    of the top tier exactly when it passes the test of the other tiers. *)
Lemma strict_caps_test (caps : Q) :
  ~ caps == 3 # 10 ->
  fltb (lit 3 10) caps = fleb (lit 3 10) caps.
Proof.
  intros Hne.
  change (negb (Qle_bool caps (Qred (3 # 10))) = Qle_bool (Qred (3 # 10)) caps).
  destruct (Qle_bool caps (Qred (3 # 10))) eqn:Hle, (Qle_bool (Qred (3 # 10)) caps) eqn:Hge;
    try reflexivity; exfalso.
  - apply Qle_bool_iff in Hle, Hge. rewrite Qred_correct in Hle, Hge.
    apply Hne. now apply Qle_antisym.
  - apply not_true_iff_false in Hle. apply not_true_iff_false in Hge.
    rewrite Qle_bool_iff, Qred_correct in Hle.
    rewrite Qle_bool_iff, Qred_correct in Hge. lra.
Qed.

Lemma tier_monotone (p1 p2 : Q) (n : Z) (d : positive) :
  p1 <= p2 -> fleb (lit n d) p1 = true -> fleb (lit n d) p2 = true.
Proof.
  cbn [fleb rational]. intros Hle H1. apply Qle_bool_iff in H1. apply Qle_bool_iff. lra.
Qed.
End IntensityOrder.

(** X1: in exact arithmetic, for one text, a higher peak score never gives a
    lower intensity, provided the share of capital letters in the text is
    not exactly 0.3 (there the top tier tests [caps > 0.3] where the others
    test [caps >= 0.3]).  The peak is a score that no score exceeds, the
    share is taken over the characters of the text; every table of
    uppercase letters and lowercase forms. *)
Theorem intensity_grows_with_peak {PS : PyStr}
    (d1 d2 : dict Q) (t : text) (p1 p2 : Q) :
  is_peak d1 p1 ->
  is_peak d2 p2 ->
  (p1 <= p2)%Q ->
  ~ (share_of_capitals t == 3 # 10)%Q ->
  (intensity_value (_calculate_intensity d1 (TStr t))
   <= intensity_value (_calculate_intensity d2 (TStr t)))%Z.
Proof.
  intros Hp1 Hp2 Hpeak Hcaps. unfold _calculate_intensity.
  rewrite !calculate_intensity_try_str.
  revert Hcaps.
  generalize (share_of_capitals (A := Q) t)
    (Z.of_nat (count_occ N.eq_dec t exclamation_mark))
    (any_in (dict_get_default "high" [] intensity_modifiers) (lower t))
    (any_in (dict_get_default "medium" [] intensity_modifiers) (lower t))
    (any_in (dict_get_default "low" [] intensity_modifiers) (lower t)).
  intros caps ex hm mm lm Hcaps.
  unfold intensity_decision. rewrite (strict_caps_test caps Hcaps).
  rewrite !(peak_tier d1 p1 _ Hp1).
  rewrite !(peak_tier d2 p2 _ Hp2).
  replace (2 <? ex)%Z with (3 <=? ex)%Z
    by (destruct (Z.leb_spec 3 ex), (Z.ltb_spec 2 ex); try reflexivity; lia).
  pose proof (tier_monotone _ _ 75 100 Hpeak) as H75.
  pose proof (tier_monotone _ _ 45 100 Hpeak) as H45.
  destruct (fleb (lit 75 100) p1) eqn:T1.
  - rewrite (H75 eq_refl). lia.
  - destruct (fleb (lit 45 100) p1) eqn:T2.
    + rewrite (H45 eq_refl).
      destruct (fleb (lit 75 100) p2);
        destruct ((3 <=? ex)%Z || fleb (lit 3 10) caps || hm);
        destruct ((1 <=? ex)%Z || fleb (lit 1 10) caps || mm);
        destruct lm; vm_compute; congruence.
    + destruct (fleb (lit 75 100) p2);
        destruct (fleb (lit 45 100) p2);
        destruct ((3 <=? ex)%Z || fleb (lit 3 10) caps || hm);
        destruct ((1 <=? ex)%Z || fleb (lit 1 10) caps || mm);
        destruct lm; vm_compute; congruence.
Qed.

Lemma intensity_grows_with_peak_witness :
  is_peak [ ("joy", 5 # 10); ("neutral", 5 # 10) ]%Q (5 # 10)%Q /\
  is_peak [ ("joy", 9 # 10); ("neutral", 1 # 10) ]%Q (9 # 10)%Q /\
  (5 # 10 <= 9 # 10)%Q /\
  ~ (share_of_capitals (PS := basic_latin) (text_of "what a day") == 3 # 10)%Q /\
  _calculate_intensity (PS := basic_latin) [ ("joy", 5 # 10); ("neutral", 5 # 10) ]%Q
                       (TStr (text_of "what a day")) = Medium /\
  _calculate_intensity (PS := basic_latin) [ ("joy", 9 # 10); ("neutral", 1 # 10) ]%Q
                       (TStr (text_of "what a day")) = High /\
  (intensity_value
     (_calculate_intensity (PS := basic_latin) [ ("joy", 5 # 10); ("neutral", 5 # 10) ]%Q
                           (TStr (text_of "what a day")))
   <= intensity_value
        (_calculate_intensity (PS := basic_latin) [ ("joy", 9 # 10); ("neutral", 1 # 10) ]%Q
                              (TStr (text_of "what a day"))))%Z.
Proof.
  assert (Hp1 : is_peak [ ("joy", 5 # 10); ("neutral", 5 # 10) ]%Q (5 # 10)%Q).
  { split; [exists "joy"; now left|].
    intros k v [Heq|[Heq|[]]]; apply (f_equal snd) in Heq; cbn [snd] in Heq;
      subst v; reflexivity. }
  assert (Hp2 : is_peak [ ("joy", 9 # 10); ("neutral", 1 # 10) ]%Q (9 # 10)%Q).
  { split; [exists "joy"; now left|].
    intros k v [Heq|[Heq|[]]]; apply (f_equal snd) in Heq; cbn [snd] in Heq;
      subst v; reflexivity. }
  assert (Hle : (5 # 10 <= 9 # 10)%Q) by (vm_compute; discriminate).
  assert (Hcaps : ~ (share_of_capitals (PS := basic_latin) (text_of "what a day")
                     == 3 # 10)%Q) by (vm_compute; discriminate).
  split; [exact Hp1|]. split; [exact Hp2|]. split; [exact Hle|]. split; [exact Hcaps|].
  split; [vm_compute; reflexivity|]. split; [vm_compute; reflexivity|].
  exact (intensity_grows_with_peak (PS := basic_latin) _ _ _ _ _ Hp1 Hp2 Hle Hcaps).
Defined.

(** At a share of exactly 0.3 the order is broken: of ten letters of which
    three are capitals, a peak of 0.5 makes 'high' and a peak of 0.9
    'medium'. *)
Example intensity_drops_at_three_tenths :
  _calculate_intensity (A := Q) (PS := basic_latin)
    [("joy", (5 # 10)%Q)] (TStr (text_of "ABCdefghij")) = High /\
  _calculate_intensity (A := Q) (PS := basic_latin)
    [("joy", (9 # 10)%Q)] (TStr (text_of "ABCdefghij")) = Medium /\
  _calculate_intensity (A := float) (PS := basic_latin)
    [("joy", lit 5 10)] (TStr (text_of "ABCdefghij")) = High /\
  _calculate_intensity (A := float) (PS := basic_latin)
    [("joy", lit 9 10)] (TStr (text_of "ABCdefghij")) = Medium.
Proof. repeat split; vm_compute; reflexivity. Qed.

(** ** Trend analyzer, continued *)

Section TrendOrder.

Lemma count_in_permutation (labels l l' : list string) :
  Permutation l l' -> count_in labels l = count_in labels l'.
Proof.
  unfold count_in. intros Hperm.
  induction Hperm as [|x l l' _ IH|x y l|l l' l'' _ IH1 _ IH2]; cbn [filter].
  - reflexivity.
  - destruct (str_in x labels); cbn [List.length]; now rewrite IH.
  - destruct (str_in x labels), (str_in y labels); reflexivity.
  - now rewrite IH1.
Qed.

Lemma pyset_permutation (l l' : list string) :
  Permutation l l' -> List.length (pyset l) = List.length (pyset l').
Proof.
  intros Hperm. unfold pyset. apply Permutation_length, NoDup_Permutation.
  - apply NoDup_nodup.
  - apply NoDup_nodup.
  - intros x. rewrite !nodup_In. split; intros Hin.
    + now apply (Permutation_in x Hperm).
    + now apply (Permutation_in x (Permutation_sym Hperm)).
Qed.
End TrendOrder.

(** X2: [_calculate_trend] does not look at the order of the emotions in a
    window: two windows with the same emotions, each as often, get the same
    trend, so 'improving' and 'declining' say which valence outnumbers the
    other, not in which direction the conversation moves. *)
Theorem calculate_trend_ignores_order (window window' : list string) :
  Permutation window window' ->
  _calculate_trend (WSeq window) = _calculate_trend (WSeq window').
Proof.
  intros Hperm.
  destruct window as [|e rest].
  - apply Permutation_nil in Hperm. now subst.
  - destruct window' as [|e' rest'].
    + apply Permutation_sym, Permutation_nil in Hperm. discriminate.
    + unfold _calculate_trend.
      rewrite (pyset_permutation _ _ Hperm).
      rewrite (count_in_permutation positive_emotions _ _ Hperm).
      rewrite (count_in_permutation negative_emotions _ _ Hperm).
      reflexivity.
Qed.

Lemma calculate_trend_ignores_order_witness :
  Permutation ["joy"; "joy"; "sadness"] ["sadness"; "joy"; "joy"] /\
  _calculate_trend (WSeq ["joy"; "joy"; "sadness"]) = improving /\
  _calculate_trend (WSeq ["sadness"; "joy"; "joy"]) = improving.
Proof.
  assert (Hperm : Permutation ["joy"; "joy"; "sadness"] ["sadness"; "joy"; "joy"]).
  { apply Permutation_sym. change (Permutation (["sadness"] ++ ["joy"; "joy"])
                                               (["joy"; "joy"] ++ ["sadness"])).
    apply Permutation_app_comm. }
  split; [exact Hperm|].
  rewrite <- (calculate_trend_ignores_order _ _ Hperm).
  split; vm_compute; reflexivity.
Defined.

Section Counting.

(** The loop that counts primary emotions, on the emotions themselves. *)
Lemma emotion_counts_map (rs : list emotion_result) (counts : dict nat) :
  fold_left (fun counts r => count_emotion counts (primary_of r)) rs counts
  = fold_left count_emotion (map primary_of rs) counts.
Proof.
  revert counts. induction rs as [|r rs IH]; intros counts; cbn [fold_left map].
  - reflexivity.
  - apply IH.
Qed.

Lemma dict_get_set_any {V} (k k' : string) (v : V) (d : dict V) :
  dict_get k (dict_set k' v d) = if String.eqb k k' then Some v else dict_get k d.
Proof.
  induction d as [|[k'' v''] d IH]; cbn [dict_get dict_set].
  - destruct (String.eqb k k'); reflexivity.
  - destruct (String.eqb_spec k' k'') as [->|Hne]; cbn [dict_get].
    + destruct (String.eqb k k''); reflexivity.
    + rewrite IH. destruct (String.eqb_spec k k'') as [->|Hne'].
      * destruct (String.eqb_spec k'' k') as [->|_]; [contradiction|reflexivity].
      * reflexivity.
Qed.

Lemma dict_keys_set_any {V} (k : string) (v : V) (d : dict V) :
  dict_keys (dict_set k v d)
  = if dict_mem k d then dict_keys d else dict_keys d ++ [k].
Proof.
  unfold dict_mem, dict_keys.
  induction d as [|[k' v'] d IH]; cbn [dict_get dict_set map fst app].
  - reflexivity.
  - destruct (String.eqb k k'); cbn [map fst].
    + reflexivity.
    + rewrite IH. now destruct (dict_get k d).
Qed.

Lemma dict_mem_In {V} (k : string) (d : dict V) :
  dict_mem k d = true <-> In k (dict_keys d).
Proof. rewrite dict_mem_keys. apply str_in_In. Qed.

(** After the loop every emotion has its number of occurrences, the keys
    are the emotions met, each once. *)
Lemma emotion_counts_spec (emotions : list string) (counts : dict nat) :
  NoDup (dict_keys counts) ->
  let counts' := fold_left count_emotion emotions counts in
  NoDup (dict_keys counts') /\
  (forall k, dict_get_default k 0%nat counts'
             = (dict_get_default k 0%nat counts + count_occ string_dec emotions k)%nat) /\
  (forall k, In k (dict_keys counts') <-> In k (dict_keys counts) \/ In k emotions).
Proof.
  revert counts. induction emotions as [|e emotions IH]; intros counts Hnd; cbn [fold_left].
  - split; [exact Hnd|]. split; [intros k; cbn [count_occ]; lia|].
    intros k. cbn [In]. tauto.
  - assert (Hnd' : NoDup (dict_keys (count_emotion counts e))).
    { unfold count_emotion. rewrite dict_keys_set_any.
      destruct (dict_mem e counts) eqn:Hmem; [exact Hnd|].
      apply NoDup_app; [exact Hnd|repeat constructor; intros []| ].
      intros x Hx [<-|[]]. apply dict_mem_In in Hx. congruence. }
    destruct (IH _ Hnd') as (Hnd'' & Hcount & Hkeys).
    split; [exact Hnd''|]. split.
    + intros k. rewrite Hcount. unfold count_emotion, dict_get_default.
      rewrite dict_get_set_any. cbn [count_occ].
      destruct (String.eqb k e) eqn:Eke.
      * apply String.eqb_eq in Eke. subst k.
        destruct (string_dec e e) as [_|Hc]; [|contradiction]. lia.
      * apply String.eqb_neq in Eke.
        destruct (string_dec e k) as [Hc|_]; [congruence|]. reflexivity.
    + intros k. rewrite Hkeys. unfold count_emotion. rewrite dict_keys_set_any.
      cbn [In].
      destruct (dict_mem e counts) eqn:Hmem.
      * apply dict_mem_In in Hmem. split; [tauto|].
        intros [Hk|[<-|Hk]]; tauto.
      * rewrite in_app_iff. cbn [In]. tauto.
Qed.

(** [max] with a key picks an entry whose count no other entry exceeds. *)
Lemma max_key_spec (kc : string * nat) (rest : dict nat) :
  let best := fold_left (fun best kc' => if (snd best <? snd kc')%nat then kc' else best)
                        rest kc in
  In best (kc :: rest) /\ forall kc', In kc' (kc :: rest) -> (snd kc' <= snd best)%nat.
Proof.
  revert kc. induction rest as [|kc1 rest IH]; intros kc; cbn [fold_left].
  - split; [now left|]. intros kc' [<-|[]]. lia.
  - destruct (IH (if (snd kc <? snd kc1)%nat then kc1 else kc)) as [Hin Hmax].
    assert (Hstep : (snd kc <= snd (if (snd kc <? snd kc1)%nat then kc1 else kc))%nat /\
                    (snd kc1 <= snd (if (snd kc <? snd kc1)%nat then kc1 else kc))%nat).
    { destruct (Nat.ltb_spec (snd kc) (snd kc1)); split; lia. }
    destruct Hstep as [H0 H1].
    pose proof (Hmax _ (or_introl eq_refl)) as Hm.
    split.
    + destruct Hin as [Heq|Hin]; [|right; now right].
      rewrite <- Heq. destruct (snd kc <? snd kc1)%nat; [right; now left|now left].
    + intros kc' [<-|[<-|Hin']]; [lia|lia|]. apply Hmax. now right.
Qed.

Lemma dict_get_of_In {V} (k : string) (v : V) (d : dict V) :
  NoDup (dict_keys d) -> In (k, v) d -> dict_get k d = Some v.
Proof.
  induction d as [|[k' v'] d IH]; intros Hnd Hin; [destruct Hin|].
  cbn [dict_keys map fst] in Hnd. apply NoDup_cons_iff in Hnd. destruct Hnd as [Hnotin Hnd].
  cbn [dict_get]. destruct Hin as [[= -> ->]|Hin].
  - now rewrite String.eqb_refl.
  - destruct (String.eqb_spec k k') as [->|_].
    + elim Hnotin. change (In (fst (k', v)) (map fst d)). now apply in_map.
    + now apply IH.
Qed.

Lemma In_dict_get {V} (k : string) (v : V) (d : dict V) :
  dict_get k d = Some v -> In (k, v) d.
Proof.
  induction d as [|[k' v'] d IH]; cbn [dict_get]; [discriminate|].
  destruct (String.eqb_spec k k') as [->|_].
  - intros [= ->]. now left.
  - intros Hget. right. now apply IH.
Qed.
End Counting.

(** X3: for a non-empty list of results [get_emotion_trends] returns a
    report whose distribution gives every emotion the number of results
    that have it as primary emotion (a result without one counts as
    'neutral'), whose [total_messages] is the number of results, and whose
    dominant emotion occurs in the results at least as often as any
    other. *)
Theorem trend_report_counts {A : Type} `{PyFloat A} {PS : PyStr}
    (emotion_results : list emotion_result) :
  emotion_results <> [] ->
  let emotions := map primary_of emotion_results in
  exists (report : trend_report A) (counts : dict nat),
    get_emotion_trends emotion_results = inr report /\
    emotion_distribution report = Some counts /\
    total_messages report = Some (List.length emotion_results) /\
    NoDup (dict_keys counts) /\
    (forall k, In k (dict_keys counts) <-> In k emotions) /\
    (forall k, dict_get_default k 0%nat counts = count_occ string_dec emotions k) /\
    In (dominant_emotion report) emotions /\
    (forall k, (count_occ string_dec emotions k
                <= count_occ string_dec emotions (dominant_emotion report))%nat).
Proof.
  intros Hne emotions.
  destruct emotion_results as [|r rs]; [contradiction|].
  unfold get_emotion_trends.
  rewrite emotion_counts_map. fold emotions.
  destruct (emotion_counts_spec emotions [] (NoDup_nil _)) as (Hnd & Hcount & Hkeys).
  cbv zeta in Hnd, Hcount, Hkeys.
  pose proof (emotion_counts_not_nil rs r []) as Hnotnil.
  rewrite emotion_counts_map in Hnotnil. fold emotions in Hnotnil.
  destruct (fold_left count_emotion emotions []) as [|kc counts] eqn:Ecounts;
    [contradiction|].
  cbn [max_key bind ret].
  destruct (max_key_spec kc counts) as [Hin Hmax]. cbv zeta in Hin, Hmax.
  set (best := fold_left (fun best kc' => if (snd best <? snd kc')%nat then kc' else best)
                         counts kc) in *.
  assert (Hbest : dict_get_default (fst best) 0%nat (kc :: counts) = snd best).
  { unfold dict_get_default. rewrite (dict_get_of_In (fst best) (snd best)); auto.
    now destruct best. }
  eexists. exists (kc :: counts).
  split; [reflexivity|]. cbn [emotion_distribution total_messages dominant_emotion].
  split; [reflexivity|]. split; [reflexivity|]. split; [exact Hnd|].
  assert (Hcount' : forall k, dict_get_default k 0%nat (kc :: counts)
                              = count_occ string_dec emotions k).
  { intros k. now rewrite Hcount. }
  assert (Hkeys' : forall k, In k (dict_keys (kc :: counts)) <-> In k emotions).
  { intros k. rewrite Hkeys. cbn [dict_keys map In]. tauto. }
  split; [exact Hkeys'|]. split; [exact Hcount'|].
  split.
  - apply Hkeys'. change (In (fst best) (map fst (kc :: counts))). now apply in_map.
  - intros k. rewrite <- !Hcount'. rewrite Hbest.
    unfold dict_get_default.
    destruct (dict_get k (kc :: counts)) as [c|] eqn:Hget; [|lia].
    apply (Hmax (k, c)). now apply In_dict_get.
Qed.

Lemma trend_report_counts_witness :
  [ {| primary_emotion := Some "joy"; intensity := Some "high" |};
    {| primary_emotion := None; intensity := None |};
    {| primary_emotion := Some "joy"; intensity := Some "low" |} ] <> [] /\
  exists report : trend_report float,
    get_emotion_trends (PS := basic_latin)
      [ {| primary_emotion := Some "joy"; intensity := Some "high" |};
        {| primary_emotion := None; intensity := None |};
        {| primary_emotion := Some "joy"; intensity := Some "low" |} ] = inr report /\
    emotion_distribution report = Some [("joy", 2%nat); ("neutral", 1%nat)] /\
    dominant_emotion report = "joy".
Proof.
  split; [discriminate|].
  destruct (trend_report_counts (A := float) (PS := basic_latin)
              [ {| primary_emotion := Some "joy"; intensity := Some "high" |};
                {| primary_emotion := None; intensity := None |};
                {| primary_emotion := Some "joy"; intensity := Some "low" |} ]
              ltac:(discriminate))
    as (report & counts & Hrun & _).
  exists report. split; [exact Hrun|].
  vm_compute in Hrun. injection Hrun as <-. split; reflexivity.
Defined.

Section AverageIntensity.

Lemma intensity_value_range (i : string) :
  (1 <= dict_get_default i 1 intensity_values <= 3)%Z.
Proof.
  unfold dict_get_default, intensity_values. cbn [dict_get].
  destruct (String.eqb i "low"); [lia|].
  destruct (String.eqb i "medium"); [lia|].
  destruct (String.eqb i "high"); lia.
Qed.

Lemma sum_of_intensities (l : list Z) (acc : Z) :
  (forall z, In z l -> 1 <= z <= 3)%Z ->
  (acc + Z.of_nat (List.length l) <= fold_left Z.add l acc
   <= acc + 3 * Z.of_nat (List.length l))%Z.
Proof.
  revert acc. induction l as [|z l IH]; intros acc Hl; cbn [fold_left List.length].
  - lia.
  - assert (Hz : (1 <= z <= 3)%Z) by (apply Hl; now left).
    specialize (IH (acc + z)%Z (fun z' Hin => Hl z' (or_intror Hin))). lia.
Qed.

Lemma np_mean_range (l : list Z) :
  l <> [] -> (forall z, In z l -> 1 <= z <= 3)%Z ->
  (1 <= np_mean (A := Q) l <= 3)%Q.
Proof.
  intros Hne Hl. unfold np_mean. rewrite fdiv_exact. cbn [of_int rational].
  pose proof (sum_of_intensities l 0 Hl) as Hsum.
  assert (Hlen : (0 < Z.of_nat (List.length l))%Z)
    by (destruct l; [contradiction|cbn [List.length]; lia]).
  set (s := fold_left Z.add l 0%Z) in *. set (n := Z.of_nat (List.length l)) in *.
  assert (Hn : (0 < inject_Z n)%Q) by (rewrite Zlt_Qlt in Hlen; exact Hlen).
  split.
  - apply Qle_shift_div_l; [exact Hn|].
    rewrite Qmult_1_l. rewrite <- Zle_Qle. lia.
  - apply Qle_shift_div_r; [exact Hn|].
    change 3%Q with (inject_Z 3). rewrite <- inject_Z_mult, <- Zle_Qle. lia.
Qed.
End AverageIntensity.

(** X4: the average intensity [get_emotion_trends] reports for a non-empty
    list of results lies, in exact arithmetic, between 1 ('low') and 3
    ('high'), whatever the intensity entries are: one that is missing or is
    none of 'low', 'medium' and 'high' counts as 1. *)
Theorem average_intensity_range {PS : PyStr} (emotion_results : list emotion_result) :
  emotion_results <> [] ->
  exists (report : trend_report Q) (avg : Q),
    get_emotion_trends emotion_results = inr report /\
    average_intensity report = Some avg /\
    (1 <= avg <= 3)%Q.
Proof.
  intros Hne. destruct emotion_results as [|r rs]; [contradiction|].
  unfold get_emotion_trends.
  pose proof (emotion_counts_not_nil rs r []) as Hnotnil.
  destruct (fold_left (fun counts r0 => count_emotion counts (primary_of r0)) (r :: rs) [])
    as [|kc counts]; [contradiction|].
  cbn [max_key bind ret].
  eexists. eexists. split; [reflexivity|]. cbn [average_intensity].
  split; [reflexivity|].
  apply np_mean_range.
  - discriminate.
  - intros z Hin. apply in_map_iff in Hin. destruct Hin as (i & <- & _).
    apply intensity_value_range.
Qed.

Lemma average_intensity_range_witness :
  exists (report : trend_report Q) (avg : Q),
    get_emotion_trends (PS := basic_latin)
      [ {| primary_emotion := Some "joy"; intensity := Some "high" |};
        {| primary_emotion := Some "fear"; intensity := Some "extreme" |};
        {| primary_emotion := Some "joy"; intensity := None |} ] = inr report /\
    average_intensity report = Some avg /\
    (1 <= avg <= 3)%Q.
Proof.
  apply average_intensity_range. discriminate.
Defined.

Section AdaptiveStyle.
Local Open Scope Q_scope.

(** The registry [load_cultural_context] gives every name but 'western'
    and 'eastern' the 'adaptive' style of the default profile. *)
Lemma style_of_other_context (context : string) :
  context <> "western" -> context <> "eastern" ->
  expression_style load_cultural_context context = VStr "adaptive".
Proof.
  intros Hw He. unfold expression_style, dict_get_default, load_cultural_context.
  cbn [dict_get].
  destruct (String.eqb context "western") eqn:Ew;
    [apply String.eqb_eq in Ew; contradiction|].
  destruct (String.eqb context "eastern") eqn:Ee;
    [apply String.eqb_eq in Ee; contradiction|].
  destruct (String.eqb context "default"); vm_compute; reflexivity.
Qed.
End AdaptiveStyle.

(** X5: with the profiles of [load_cultural_context], a context other than
    'western' and 'eastern' (so 'default', and every name the registry does
    not know) changes nothing: in exact arithmetic [_apply_cultural_context]
    returns a complete distribution with the same labels in the same order
    and, for every label, a score equal to the one it was given. *)
Theorem other_context_keeps_scores (d : dict Q) (context : string) :
  complete d ->
  context <> "western" -> context <> "eastern" ->
  let adjusted := _apply_cultural_context load_cultural_context d context in
  dict_keys adjusted = dict_keys d /\
  forall k v, dict_get k d = Some v ->
    exists v', dict_get k adjusted = Some v' /\ (v' == v)%Q.
Proof.
  intros Hd Hw He adjusted. subst adjusted. unfold _apply_cultural_context.
  rewrite (apply_cultural_context_try_exact load_cultural_context d context Hd).
  rewrite (style_of_other_context context Hw He).
  change (adjust_for_style (VStr "adaptive") d) with d.
  split; [apply keys_normalized|].
  intros k v Hget. rewrite dict_get_normalized, Hget. cbn [option_map].
  eexists. split; [reflexivity|].
  rewrite Qred_correct, pysum_exact. destruct Hd as [_ Hone]. rewrite Hone.
  unfold Qdiv. change (/ 1)%Q with 1%Q. ring.
Qed.

Lemma other_context_keeps_scores_witness :
  complete [("joy", 7 # 10); ("fear", 1 # 10); ("neutral", 2 # 10)]%Q /\
  "latin" <> "western" /\ "latin" <> "eastern" /\
  dict_keys (_apply_cultural_context load_cultural_context
               [("joy", 7 # 10); ("fear", 1 # 10); ("neutral", 2 # 10)]%Q "latin")
  = ["joy"; "fear"; "neutral"] /\
  forall k v,
    dict_get k [("joy", 7 # 10); ("fear", 1 # 10); ("neutral", 2 # 10)]%Q = Some v ->
    exists v',
      dict_get k (_apply_cultural_context load_cultural_context
                    [("joy", 7 # 10); ("fear", 1 # 10); ("neutral", 2 # 10)]%Q "latin")
      = Some v' /\ (v' == v)%Q.
Proof.
  assert (Hd : complete [("joy", 7 # 10); ("fear", 1 # 10); ("neutral", 2 # 10)]%Q).
  { split; [|vm_compute; reflexivity].
    intros k v [Heq|[Heq|[Heq|[]]]]; apply (f_equal snd) in Heq; cbn [snd] in Heq;
      subst v; discriminate. }
  split; [exact Hd|]. split; [discriminate|]. split; [discriminate|].
  exact (other_context_keeps_scores _ "latin" Hd ltac:(discriminate) ltac:(discriminate)).
Defined.

(** ** Detection *)

Section DetectionReturns.
Context {A : Type} `{PyFloat A} {PS : PyStr}.

Lemma int_comprehension_returns (t : Z) (d : dict Z) :
  t <> 0%Z ->
  dict_comprehension (fun _ v => int_truediv (A := A) v t) d
  = inr (map (fun kv => (fst kv, fdiv (of_int (snd kv)) (of_int t))) d).
Proof.
  intros Ht. induction d as [|[k v] d IH]; cbn [dict_comprehension map fst snd];
    [reflexivity|].
  unfold int_truediv at 1.
  destruct (Z.eqb_spec t 0) as [Hz|_]; [contradiction|].
  cbn [bind ret]. rewrite IH. reflexivity.
Qed.

Lemma simple_detect_emotion_returns (text : py_text) (cultural_context : string) :
  exists r : detection A,
    SimpleEmotionDetector.detect_emotion text cultural_context = inr r.
Proof.
  unfold SimpleEmotionDetector.detect_emotion.
  destruct text as [text| |n]; try (eexists; reflexivity).
  destruct (is_empty text); [eexists; reflexivity|].
  set (scores := SimpleEmotionDetector.keyword_scores (lower text)).
  destruct (zsum (dict_values scores) =? 0)%Z eqn:Hsum; [eexists; reflexivity|].
  assert (Hcons : exists kv rest, scores = kv :: rest).
  { subst scores. unfold SimpleEmotionDetector.keyword_scores,
      SimpleEmotionDetector.emotion_keywords. cbn [map]. eauto. }
  destruct Hcons as (kv & rest & ->).
  cbn [argmax bind ret].
  unfold int_truediv at 1.
  destruct (Z.eqb_spec (Z.max 1 (zsum (dict_values (kv :: rest)))) 0) as [Hz|_]; [lia|].
  cbn [bind ret].
  destruct (0 <? zsum (dict_values (kv :: rest)))%Z eqn:Hpos.
  - rewrite int_comprehension_returns by (apply Z.ltb_lt in Hpos; lia).
    cbn [bind ret]. eexists; reflexivity.
  - cbn [bind ret]. eexists; reflexivity.
Qed.

Lemma fallback_result_returns (env : detector_env A) (text : text)
    (cultural_context : string) :
  exists r : detection A, fallback_result env text cultural_context = inr r.
Proof.
  unfold fallback_result. destruct (simple_detector env).
  - apply simple_detect_emotion_returns.
  - eexists; reflexivity.
Qed.

Lemma detect_emotion_returns (env : detector_env A) (text : py_text)
    (cultural_context : string) (self_scores : dict A) :
  exists (r : detection A) (self_scores' : dict A),
    detect_emotion env text cultural_context self_scores = (inr r, self_scores').
Proof.
  unfold detect_emotion.
  destruct text as [text| |n]; try (do 2 eexists; reflexivity).
  destruct (is_empty text); [do 2 eexists; reflexivity|].
  destruct (fallback_result_returns env text cultural_context) as [r Hr].
  destruct (emotion_pipeline env) as [pipeline|].
  - destruct (detect_emotion_try pipeline text (preprocess_text env text)
                                 cultural_context self_scores) as [[e|r'] s'].
    + rewrite Hr. do 2 eexists; reflexivity.
    + do 2 eexists; reflexivity.
  - rewrite Hr. do 2 eexists; reflexivity.
Qed.
End DetectionReturns.

(** X6: whatever the transformers pipeline returns or raises,
    [detect_emotion] returns a result, for every text (a string or not),
    every cultural context and every state of the detector, and
    [batch_detect_emotions] returns a list with one result for each text.
    (The text preprocessor is taken to return.) *)
Theorem detection_never_raises {A : Type} `{PyFloat A} {PS : PyStr}
    (env : detector_env A) (cultural_context : string) (self_scores : dict A) :
  (forall text : py_text,
     exists (r : detection A) (self_scores' : dict A),
       detect_emotion env text cultural_context self_scores = (inr r, self_scores')) /\
  (forall texts : list py_text,
     exists (rs : list (detection A)) (self_scores' : dict A),
       batch_detect_emotions env texts cultural_context self_scores = (inr rs, self_scores') /\
       List.length rs = List.length texts).
Proof.
  split.
  - intros text. apply detect_emotion_returns.
  - intros texts. revert self_scores.
    induction texts as [|text texts IH]; intros self_scores; cbn [batch_detect_emotions].
    + exists [], self_scores. split; reflexivity.
    + destruct (detect_emotion_returns env text cultural_context self_scores)
        as (r & s' & ->).
      destruct (IH s') as (rs & s'' & -> & Hlen).
      exists (r :: rs), s''. split; [reflexivity|]. cbn [List.length]. now rewrite Hlen.
Qed.

Section DetectionExact.
Local Open Scope Q_scope.

(** The adjuster maps complete distributions to complete distributions
    over the same labels. *)
Lemma apply_cultural_context_complete
    (cultural_context : dict profile) (d : dict Q) (context : string) :
  complete d ->
  complete (_apply_cultural_context cultural_context d context) /\
  dict_keys (_apply_cultural_context cultural_context d context) = dict_keys d.
Proof.
  intros Hd. unfold _apply_cultural_context.
  rewrite (apply_cultural_context_try_exact cultural_context d context Hd).
  set (style := expression_style cultural_context context).
  pose proof (adjusted_total_positive style d Hd) as Hpos.
  pose proof (pysum_exact (adjust_for_style style d)) as Hsum.
  split; [split|].
  - apply nonnegative_normalized; [rewrite Hsum; exact Hpos|].
    apply nonnegative_adjusted. apply Hd.
  - rewrite total_normalized, Hsum. field. lra.
  - rewrite keys_normalized. apply keys_adjusted.
Qed.

(** [max] with a key on exact scores: an entry no other entry exceeds. *)
Lemma argmax_is_maximum (kv : string * Q) (rest : dict Q) :
  let best := fold_left (fun best kv' => if fgtb (snd kv') (snd best) then kv' else best)
                        rest kv in
  In best (kv :: rest) /\ forall kv', In kv' (kv :: rest) -> snd kv' <= snd best.
Proof.
  revert kv. induction rest as [|kv1 rest IH]; intros kv; cbn [fold_left].
  - split; [now left|]. intros kv' [<-|[]]. lra.
  - destruct (IH (if fgtb (snd kv1) (snd kv) then kv1 else kv)) as [Hin Hmax].
    assert (Hstep : snd kv <= snd (if fgtb (snd kv1) (snd kv) then kv1 else kv) /\
                    snd kv1 <= snd (if fgtb (snd kv1) (snd kv) then kv1 else kv)).
    { unfold fgtb. cbn [fltb rational].
      destruct (Qle_bool (snd kv1) (snd kv)) eqn:Hle; cbn [negb].
      - apply Qle_bool_iff in Hle. split; lra.
      - apply not_true_iff_false in Hle. rewrite Qle_bool_iff in Hle. split; lra. }
    destruct Hstep as [H0 H1].
    pose proof (Hmax _ (or_introl eq_refl)) as Hm.
    split.
    + destruct Hin as [Heq|Hin]; [|right; now right].
      rewrite <- Heq. destruct (fgtb (snd kv1) (snd kv)); [right; now left|now left].
    + intros kv' [<-|[<-|Hin']]; [lra|lra|]. apply Hmax. now right.
Qed.

Lemma complete_not_nil (d : dict Q) : complete d -> d <> [].
Proof. intros [_ Hone] ->. cbn [total] in Hone. lra. Qed.

End DetectionExact.

(** X7: in exact arithmetic, when the pipeline returns a list of
    non-negative scores and the stored scores are non-negative (as they are
    initially, and after every such call), [detect_emotion] returns a
    result whose [all_emotions] is a complete distribution, whose primary
    emotion is a label of it carrying the confidence, and whose confidence
    no score of the distribution exceeds; the scores it stores are again a
    complete distribution, over the labels of [all_emotions]. *)
Theorem detect_emotion_distribution {PS : PyStr}
    (env : detector_env Q) (pipeline : text -> result (py_results Q))
    (text : text) (cultural_context : string) (items : list (item Q))
    (self_scores : dict Q) :
  text <> [] ->
  emotion_pipeline env = Some pipeline ->
  pipeline (preprocess_text env text) = inr (ResList items) ->
  (forall it, In it items -> 0 <= score it)%Q ->
  nonnegative self_scores ->
  dict_mem "neutral" self_scores = true ->
  exists (r : detection Q) (self_scores' : dict Q),
    detect_emotion env (TStr text) cultural_context self_scores = (inr r, self_scores') /\
    complete (det_all_emotions r) /\
    In (det_primary_emotion r, det_confidence r) (det_all_emotions r) /\
    (forall k v, In (k, v) (det_all_emotions r) -> v <= det_confidence r)%Q /\
    complete self_scores' /\
    dict_keys (det_all_emotions r) = dict_keys self_scores'.
Proof.
  intros Hne Hpipe Hres Hitems Hnn Hneutral.
  unfold detect_emotion.
  destruct text as [|c text]; [contradiction|]. cbn [is_empty].
  rewrite Hpipe. unfold detect_emotion_try. rewrite Hres.
  destruct (normalizer_output_complete items self_scores Hnn Hneutral Hitems)
    as (out & -> & Hout).
  cbn [bind ret].
  destruct (apply_cultural_context_complete load_cultural_context out cultural_context Hout)
    as [Hadj Hkeys].
  set (adjusted := _apply_cultural_context load_cultural_context out cultural_context) in *.
  pose proof (complete_not_nil adjusted Hadj) as Hnil.
  destruct adjusted as [|kv rest] eqn:Eadj; [contradiction|].
  cbn [argmax bind ret].
  destruct (argmax_is_maximum kv rest) as [Hin Hmax]. cbv zeta in Hin, Hmax.
  set (best := fold_left (fun best kv' => if fgtb (snd kv') (snd best) then kv' else best)
                         rest kv) in *.
  eexists. eexists. split; [reflexivity|].
  cbn [det_all_emotions det_primary_emotion det_confidence].
  split; [exact Hadj|]. split; [now destruct best|].
  split; [intros k v Hkv; apply (Hmax (k, v) Hkv)|].
  split; [exact Hout|exact Hkeys].
Qed.

Lemma detect_emotion_distribution_witness :
  exists (r : detection Q) (self_scores' : dict Q),
    detect_emotion (PS := basic_latin)
      {| emotion_pipeline :=
           Some (fun _ => inr (ResList [ {| label := "joy"; score := (3 # 4)%Q |};
                                         {| label := "fear"; score := (1 # 4)%Q |} ]));
         preprocess_text := lower (PyStr := basic_latin);
         simple_detector := true |}
      (TStr (text_of "Good news")) "eastern" emotion_scores_init = (inr r, self_scores') /\
    complete (det_all_emotions r) /\
    In (det_primary_emotion r, det_confidence r) (det_all_emotions r) /\
    (forall k v, In (k, v) (det_all_emotions r) -> v <= det_confidence r)%Q /\
    complete self_scores' /\
    dict_keys (det_all_emotions r) = dict_keys self_scores'.
Proof.
  apply (detect_emotion_distribution (PS := basic_latin)
           _ (fun _ => inr (ResList [ {| label := "joy"; score := (3 # 4)%Q |};
                                      {| label := "fear"; score := (1 # 4)%Q |} ]))
           (text_of "Good news") "eastern"
           [ {| label := "joy"; score := (3 # 4)%Q |};
             {| label := "fear"; score := (1 # 4)%Q |} ]).
  - discriminate.
  - reflexivity.
  - reflexivity.
  - intros it [<-|[<-|[]]]; discriminate.
  - intros k v Hin. unfold emotion_scores_init in Hin. apply in_map_iff in Hin.
    destruct Hin as (k' & Heq & _). apply (f_equal snd) in Heq. cbn [snd] in Heq.
    subst v. discriminate.
  - vm_compute. reflexivity.
Defined.

(** ** The stored scores across calls *)

Section StoredScores.
Context {A : Type} `{PyFloat A}.

Lemma comprehension_keys {V W} (f : string -> V -> result W) (d : dict V) (d' : dict W) :
  dict_comprehension f d = inr d' -> dict_keys d' = dict_keys d.
Proof.
  revert d'. induction d as [|[k v] d IH]; intros d'; cbn [dict_comprehension].
  - intros [= <-]. reflexivity.
  - destruct (f k v) as [e|w]; cbn [bind]; [discriminate|].
    destruct (dict_comprehension f d) as [e|rest]; cbn [bind ret]; [discriminate|].
    intros [= <-]. cbn [dict_keys map fst]. f_equal. now apply IH.
Qed.

Lemma process_model_output_keys (results : py_results A) (self_scores : dict A) :
  dict_mem "neutral" self_scores = true ->
  dict_keys (snd (_process_model_output results self_scores)) = dict_keys self_scores.
Proof.
  intros Hneutral. unfold _process_model_output.
  set (scores := match results with
                 | ResList ((_ :: _) as items) => fold_left store_item items self_scores
                 | _ => self_scores
                 end).
  assert (Hkeys : dict_keys scores = dict_keys self_scores).
  { subst scores. destruct results as [[|it items]|]; try reflexivity.
    now apply fold_store_item_keys. }
  assert (Hmem : dict_mem "neutral" scores = true)
    by (rewrite dict_mem_keys, Hkeys, <- dict_mem_keys; exact Hneutral).
  clearbody scores.
  destruct (fltb (of_int 0) (pysum (dict_values scores))).
  - destruct (dict_comprehension _ scores) as [e|normalized] eqn:Hc; cbn [snd].
    + exact Hkeys.
    + now rewrite (comprehension_keys _ _ _ Hc).
  - cbn [snd]. now rewrite dict_keys_set.
Qed.
End StoredScores.

(** X8: the scores a detector stores always have the 28 labels of the
    taxonomy as their keys, in the order of the taxonomy: [detect_emotion]
    keeps them so for every text, every context and everything the pipeline
    may return or raise. *)
Theorem stored_scores_keep_the_taxonomy {A : Type} `{PyFloat A} {PS : PyStr}
    (env : detector_env A) (text : py_text) (cultural_context : string)
    (self_scores : dict A) :
  dict_keys self_scores = taxonomy ->
  dict_keys (snd (detect_emotion env text cultural_context self_scores)) = taxonomy.
Proof.
  intros Hkeys. unfold detect_emotion.
  destruct text as [text| |n]; try exact Hkeys.
  destruct (is_empty text); [exact Hkeys|].
  destruct (emotion_pipeline env) as [pipeline|]; [|exact Hkeys].
  unfold detect_emotion_try.
  destruct (pipeline (preprocess_text env text)) as [e|results]; [exact Hkeys|].
  assert (Hneutral : dict_mem "neutral" self_scores = true)
    by now rewrite dict_mem_keys, Hkeys.
  pose proof (process_model_output_keys results self_scores Hneutral) as Hout.
  destruct (_process_model_output results self_scores) as [processed stored].
  cbn [snd] in Hout.
  destruct processed as [e|emotion_scores]; cbn [bind].
  - cbn [snd]. now rewrite Hout.
  - destruct (argmax fgtb _) as [e|primary]; cbn [bind ret snd]; now rewrite Hout.
Qed.

Lemma stored_scores_keep_the_taxonomy_witness :
  dict_keys (emotion_scores_init (A := float)) = taxonomy /\
  dict_keys (snd (detect_emotion (PS := basic_latin)
                    {| emotion_pipeline :=
                         Some (fun _ => inr (ResList [ {| label := "joy"; score := lit 9 10 |};
                                                       {| label := "glee"; score := lit 3 10 |} ]));
                       preprocess_text := lower (PyStr := basic_latin);
                       simple_detector := true |}
                    (TStr (text_of "What a day")) "western" emotion_scores_init)) = taxonomy.
Proof.
  split; [vm_compute; reflexivity|].
  apply stored_scores_keep_the_taxonomy. vm_compute. reflexivity.
Defined.

(** X9: when the pipeline scores each of the 28 labels, as the primary
    model does, [detect_emotion] forgets what earlier calls stored: whatever
    scores two detectors hold under the labels of the taxonomy, the call
    returns the same result on both and leaves the same scores in both. *)
Theorem full_pipeline_forgets_history {A : Type} `{PyFloat A} {PS : PyStr}
    (env : detector_env A) (pipeline : text -> result (py_results A))
    (text : text) (cultural_context : string) (items : list (item A))
    (s1 s2 : dict A) :
  text <> [] ->
  emotion_pipeline env = Some pipeline ->
  pipeline (preprocess_text env text) = inr (ResList items) ->
  (forall k, In k taxonomy -> exists it, In it items /\ label it = k) ->
  dict_keys s1 = taxonomy ->
  dict_keys s2 = taxonomy ->
  detect_emotion env (TStr text) cultural_context s1
  = detect_emotion env (TStr text) cultural_context s2.
Proof.
  intros Hne Hpipe Hres Hfull Hk1 Hk2. unfold detect_emotion.
  destruct text as [|c text]; [contradiction|]. cbn [is_empty].
  rewrite Hpipe. unfold detect_emotion_try. rewrite Hres.
  now rewrite (normalizer_full_input_forgets items s1 s2 Hk1 Hk2 Hfull).
Qed.

Lemma full_pipeline_forgets_history_witness :
  detect_emotion (PS := basic_latin)
    {| emotion_pipeline :=
         Some (fun _ => inr (ResList (map (fun k => {| label := k; score := lit 1 28 |})
                                          taxonomy)));
       preprocess_text := lower (PyStr := basic_latin);
       simple_detector := true |}
    (TStr (text_of "Hello")) "default" (emotion_scores_init (A := float))
  = detect_emotion (PS := basic_latin)
      {| emotion_pipeline :=
           Some (fun _ => inr (ResList (map (fun k => {| label := k; score := lit 1 28 |})
                                            taxonomy)));
         preprocess_text := lower (PyStr := basic_latin);
         simple_detector := true |}
      (TStr (text_of "Hello")) "default" (dict_set "joy" (lit 1 1) emotion_scores_init).
Proof.
  apply (full_pipeline_forgets_history (PS := basic_latin)
           _ (fun _ => inr (ResList (map (fun k => {| label := k; score := lit 1 28 |})
                                         taxonomy)))
           (text_of "Hello") "default"
           (map (fun k => {| label := k; score := lit 1 28 |}) taxonomy)).
  - discriminate.
  - reflexivity.
  - reflexivity.
  - intros k Hin. exists {| label := k; score := lit 1 28 |}.
    split; [|reflexivity]. apply in_map_iff. now exists k.
  - vm_compute. reflexivity.
  - vm_compute. reflexivity.
Defined.

(** ** The simple detector *)

Section KeywordCounts.
Context {PS : PyStr}.

Lemma count_from_nonneg (sub s : text) (skip : nat) : (0 <= count_from sub s skip)%Z.
Proof.
  revert skip. induction s as [|c s IH]; intros skip; cbn [count_from]; [lia|].
  destruct skip as [|k]; [|apply IH].
  destruct (starts_with sub (c :: s)).
  - specialize (IH (List.length sub - 1)%nat). lia.
  - apply IH.
Qed.

Lemma str_count_nonneg (sub s : text) : (0 <= str_count sub s)%Z.
Proof.
  unfold str_count. destruct sub; [lia|apply count_from_nonneg].
Qed.

Lemma keyword_total_nonneg (keywords : list string) (s : text) (acc : Z) :
  (0 <= acc)%Z ->
  (0 <= fold_left (fun score keyword => score + str_count (text_of keyword) s)
                  keywords acc)%Z.
Proof.
  revert acc. induction keywords as [|k keywords IH]; intros acc Hacc; cbn [fold_left];
    [exact Hacc|].
  apply IH. pose proof (str_count_nonneg (text_of k) s). lia.
Qed.

Lemma keyword_scores_nonneg (s : text) (k : string) (v : Z) :
  In (k, v) (SimpleEmotionDetector.keyword_scores s) -> (0 <= v)%Z.
Proof.
  unfold SimpleEmotionDetector.keyword_scores. intros Hin.
  apply in_map_iff in Hin. destruct Hin as ([e keywords] & Heq & _).
  apply (f_equal snd) in Heq. cbn [snd] in Heq. subst v.
  now apply keyword_total_nonneg.
Qed.

Lemma keyword_scores_keys (s : text) :
  dict_keys (SimpleEmotionDetector.keyword_scores s)
  = ["joy"; "sadness"; "anger"; "fear"; "surprise"; "disgust"].
Proof.
  unfold SimpleEmotionDetector.keyword_scores, dict_keys. rewrite map_map.
  unfold SimpleEmotionDetector.emotion_keywords. reflexivity.
Qed.

Lemma zsum_shift (l : list Z) (acc : Z) :
  fold_left Z.add l acc = (acc + zsum l)%Z.
Proof.
  unfold zsum. revert acc. induction l as [|z l IH]; intros acc; cbn [fold_left]; [lia|].
  rewrite IH, (IH (0 + z)%Z). lia.
Qed.

Lemma zsum_cons (z : Z) (l : list Z) : zsum (z :: l) = (z + zsum l)%Z.
Proof. unfold zsum at 1. cbn [fold_left]. now rewrite zsum_shift. Qed.

(** [max] with a key on counts: an entry no other entry exceeds. *)
Lemma argmax_count (kv : string * Z) (rest : dict Z) :
  let best := fold_left (fun best kv' => if (snd kv' >? snd best)%Z then kv' else best)
                        rest kv in
  In best (kv :: rest) /\ forall kv', In kv' (kv :: rest) -> (snd kv' <= snd best)%Z.
Proof.
  revert kv. induction rest as [|kv1 rest IH]; intros kv; cbn [fold_left].
  - split; [now left|]. intros kv' [<-|[]]. lia.
  - destruct (IH (if (snd kv1 >? snd kv)%Z then kv1 else kv)) as [Hin Hmax].
    assert (Hstep : (snd kv <= snd (if (snd kv1 >? snd kv)%Z then kv1 else kv) /\
                     snd kv1 <= snd (if (snd kv1 >? snd kv)%Z then kv1 else kv))%Z).
    { destruct (Z.gtb_spec (snd kv1) (snd kv)); split; lia. }
    destruct Hstep as [H0 H1].
    pose proof (Hmax _ (or_introl eq_refl)) as Hm.
    split.
    + destruct Hin as [Heq|Hin]; [|right; now right].
      rewrite <- Heq. destruct (snd kv1 >? snd kv)%Z; [right; now left|now left].
    + intros kv' [<-|[<-|Hin']]; [lia|lia|]. apply Hmax. now right.
Qed.

Lemma zsum_le_length (d : dict Z) (m : Z) :
  (forall kv, In kv d -> snd kv <= m)%Z ->
  (zsum (dict_values d) <= Z.of_nat (List.length d) * m)%Z.
Proof.
  induction d as [|[k v] d IH]; intros Hm.
  - cbn. lia.
  - change (dict_values ((k, v) :: d)) with (v :: dict_values d).
    rewrite zsum_cons. cbn [List.length]. rewrite Nat2Z.inj_succ.
    assert (Hv : (v <= m)%Z) by apply (Hm (k, v) (or_introl eq_refl)).
    specialize (IH (fun kv Hin => Hm kv (or_intror Hin))). lia.
Qed.

Lemma zsum_nonneg (d : dict Z) :
  (forall k v, In (k, v) d -> 0 <= v)%Z -> (0 <= zsum (dict_values d))%Z.
Proof.
  induction d as [|[k v] d IH]; intros Hnn; [cbn; lia|].
  change (dict_values ((k, v) :: d)) with (v :: dict_values d). rewrite zsum_cons.
  assert (Hv : (0 <= v)%Z) by (apply (Hnn k); now left).
  specialize (IH (fun k0 v0 Hin => Hnn k0 v0 (or_intror Hin))). lia.
Qed.

Lemma zsum_ge_member (d : dict Z) (kv : string * Z) :
  (forall k v, In (k, v) d -> 0 <= v)%Z -> In kv d ->
  (snd kv <= zsum (dict_values d))%Z.
Proof.
  induction d as [|[k v] d IH]; intros Hnn Hin; [destruct Hin|].
  change (dict_values ((k, v) :: d)) with (v :: dict_values d). rewrite zsum_cons.
  assert (Hv : (0 <= v)%Z) by (apply (Hnn k); now left).
  pose proof (zsum_nonneg d (fun k0 v0 Hin0 => Hnn k0 v0 (or_intror Hin0))) as Hrest.
  destruct Hin as [<-|Hin]; [cbn [snd]; lia|].
  specialize (IH (fun k0 v0 Hin0 => Hnn k0 v0 (or_intror Hin0)) Hin). lia.
Qed.

Local Open Scope Q_scope.

Lemma total_of_counts (t : Z) (d : dict Z) :
  total (map (fun kv => (fst kv, fdiv (of_int (snd kv)) (of_int t))) d)
  == inject_Z (zsum (dict_values d)) / inject_Z t.
Proof.
  induction d as [|[k v] d IH]; cbn [map total fst snd].
  - change (zsum (dict_values [])) with 0%Z. change (inject_Z 0) with 0.
    unfold Qdiv. lra.
  - change (dict_values ((k, v) :: d)) with (v :: dict_values d).
    rewrite zsum_cons, inject_Z_plus, IH, fdiv_exact. cbn [of_int rational].
    unfold Qdiv. lra.
Qed.

Lemma pymin_cases (a b : Q) :
  (pymin a b = b /\ b < a) \/ (pymin a b = a /\ a <= b).
Proof.
  unfold pymin. cbn [fltb rational].
  destruct (Qle_bool a b) eqn:Hle; cbn [negb].
  - right. apply Qle_bool_iff in Hle. now split.
  - left. apply not_true_iff_false in Hle. rewrite Qle_bool_iff in Hle.
    split; [reflexivity|lra].
Qed.

(** The cultural adjustment of the simple detector keeps a confidence of
    at least one third between 0.3 and 0.95. *)
Lemma simple_confidence_range (confidence : Q) (emotion : string) (text : text)
    (context : string) :
  1 # 3 <= confidence <= 95 # 100 ->
  3 # 10 <= SimpleEmotionDetector._apply_cultural_context confidence emotion text context
         <= 95 # 100.
Proof.
  intros Hc. unfold SimpleEmotionDetector._apply_cultural_context.
  set (c := if String.eqb context "eastern" then _ else _).
  assert (Hrange : 3 # 10 <= c).
  { subst c. destruct (String.eqb context "eastern").
    - destruct (str_in emotion ["anger"; "joy"]); [|lra].
      rewrite fmul_exact, lit_exact. lra.
    - destruct (String.eqb context "western"); [|lra].
      destruct (any_in ["i feel"; "i am"] (lower text)); [|lra].
      rewrite fmul_exact, lit_exact. lra. }
  clearbody c.
  pose proof (lit_exact 95 100) as Hlit.
  destruct (pymin_cases (lit 95 100) c) as [[-> Hlt]|[-> Hle]].
  - rewrite Hlit in Hlt. lra.
  - rewrite Hlit. lra.
Qed.
End KeywordCounts.

(** X10: when some keyword of the simple detector occurs in the lowercased
    text, its [detect_emotion] returns, in exact arithmetic, a result whose
    [all_emotions] is a complete distribution over the six emotions of the
    lexicon, whose primary emotion is one of the six and has the largest
    number of keyword occurrences, reported as [keyword_matches] and at
    least 1, and whose confidence lies between 0.3 and 0.95, whatever the
    cultural context. *)
Theorem simple_detection_on_keywords {PS : PyStr} (text : text)
    (cultural_context : string) :
  text <> [] ->
  zsum (dict_values (SimpleEmotionDetector.keyword_scores (lower text))) <> 0%Z ->
  exists (r : detection Q) (matches : Z),
    SimpleEmotionDetector.detect_emotion (TStr text) cultural_context = inr r /\
    complete (det_all_emotions r) /\
    dict_keys (det_all_emotions r)
      = ["joy"; "sadness"; "anger"; "fear"; "surprise"; "disgust"] /\
    det_keyword_matches r = Some matches /\
    In (det_primary_emotion r, matches)
       (SimpleEmotionDetector.keyword_scores (lower text)) /\
    (forall k v, In (k, v) (SimpleEmotionDetector.keyword_scores (lower text)) ->
                 (v <= matches)%Z) /\
    (1 <= matches)%Z /\
    (3 # 10 <= det_confidence r <= 95 # 100)%Q.
Proof.
  intros Hne Hhits. unfold SimpleEmotionDetector.detect_emotion.
  destruct text as [|c text']; [contradiction|]. cbn [is_empty].
  set (text := c :: text') in *.
  pose proof (keyword_scores_nonneg (lower text)) as Hnn.
  pose proof (keyword_scores_keys (lower text)) as Hkeys.
  set (scores := SimpleEmotionDetector.keyword_scores (lower text)) in *.
  set (t := zsum (dict_values scores)) in *.
  destruct (Z.eqb_spec t 0) as [Hz|_]; [contradiction|].
  destruct scores as [|kv rest] eqn:Escores; [discriminate|].
  cbn [argmax bind ret].
  destruct (argmax_count kv rest) as [Hin Hmax]. cbv zeta in Hin, Hmax.
  set (best := fold_left (fun best kv' => if (snd kv' >? snd best)%Z then kv' else best)
                         rest kv) in *.
  assert (Hlen : List.length (kv :: rest) = 6%nat).
  { rewrite <- (length_map fst). change (map fst (kv :: rest)) with (dict_keys (kv :: rest)).
    now rewrite Hkeys. }
  pose proof (zsum_le_length (kv :: rest) (snd best) Hmax) as Hsix.
  rewrite Hlen in Hsix. fold t in Hsix.
  assert (Hbest0 : (0 <= snd best)%Z) by (apply (Hnn (fst best)); now destruct best).
  pose proof (zsum_nonneg (kv :: rest) Hnn) as Ht0. fold t in Ht0.
  assert (Htpos : (0 < t)%Z) by lia.
  assert (Hbest1 : (1 <= snd best)%Z) by lia.
  pose proof (zsum_ge_member (kv :: rest) best Hnn Hin) as Hbestt. fold t in Hbestt.
  unfold int_truediv at 1.
  destruct (Z.eqb_spec (Z.max 1 t) 0) as [Hm|_]; [lia|].
  cbn [bind ret].
  destruct (Z.ltb_spec 0 t) as [_|Hc]; [|lia].
  rewrite int_comprehension_returns by lia.
  cbn [bind ret].
  eexists. exists (snd best). split; [reflexivity|].
  cbn [det_all_emotions det_keyword_matches det_primary_emotion det_confidence].
  assert (HtQ : (0 < inject_Z t)%Q) by (rewrite Zlt_Qlt in Htpos; exact Htpos).
  split; [split|].
  - intros k v Hkv. apply in_map_iff in Hkv. destruct Hkv as ([k' v'] & Heq & Hin').
    apply (f_equal snd) in Heq. cbn [snd fst] in Heq. subst v.
    rewrite fdiv_exact. cbn [of_int rational].
    apply Qle_shift_div_l; [exact HtQ|].
    rewrite Qmult_0_l. change 0%Q with (inject_Z 0). rewrite <- Zle_Qle.
    now apply (Hnn k').
  - rewrite total_of_counts. fold t. field. lra.
  - split.
    { unfold dict_keys. rewrite map_map. cbn [fst]. exact Hkeys. }
    split; [reflexivity|].
    split; [now destruct best|].
    split; [intros k v Hkv; apply (Hmax (k, v) Hkv)|].
    split; [exact Hbest1|].
    apply simple_confidence_range.
    replace (Z.max 1 t) with t by lia.
    assert (Hratio : (1 # 6 <= inject_Z (snd best) / inject_Z t <= 1)%Q).
    { split.
      - apply Qle_shift_div_l; [exact HtQ|].
        assert (H6 : (inject_Z t <= inject_Z 6 * inject_Z (snd best))%Q).
        { rewrite <- inject_Z_mult, <- Zle_Qle. lia. }
        change (inject_Z 6) with 6%Q in H6. lra.
      - apply Qle_shift_div_r; [exact HtQ|].
        rewrite Qmult_1_l, <- Zle_Qle. exact Hbestt. }
    set (raw := fadd (fmul (fdiv (of_int (snd best)) (of_int t)) (lit 8 10)) (lit 2 10)).
    assert (Hraw : (raw == inject_Z (snd best) / inject_Z t * (8 # 10) + (2 # 10))%Q).
    { subst raw. rewrite fadd_exact, fmul_exact, fdiv_exact, !lit_exact. reflexivity. }
    pose proof (lit_exact 95 100) as Hlit.
    destruct (pymin_cases (lit 95 100) raw) as [[-> Hlt]|[-> Hle]].
    + rewrite Hraw in *. rewrite Hlit in Hlt. lra.
    + rewrite Hlit. lra.
Qed.

Lemma simple_detection_on_keywords_witness :
  exists (r : detection Q) (matches : Z),
    SimpleEmotionDetector.detect_emotion (PS := basic_latin)
      (TStr (text_of "I am so happy and proud, but worried")) "western" = inr r /\
    complete (det_all_emotions r) /\
    dict_keys (det_all_emotions r)
      = ["joy"; "sadness"; "anger"; "fear"; "surprise"; "disgust"] /\
    det_keyword_matches r = Some matches /\
    In (det_primary_emotion r, matches)
       (SimpleEmotionDetector.keyword_scores
          (lower (PyStr := basic_latin) (text_of "I am so happy and proud, but worried"))) /\
    (forall k v, In (k, v) (SimpleEmotionDetector.keyword_scores
                              (lower (PyStr := basic_latin)
                                     (text_of "I am so happy and proud, but worried"))) ->
                 (v <= matches)%Z) /\
    (1 <= matches)%Z /\
    (3 # 10 <= det_confidence r <= 95 # 100)%Q.
Proof.
  apply (simple_detection_on_keywords (PS := basic_latin)).
  - discriminate.
  - vm_compute. discriminate.
Defined.

(** ** The two trend analyses *)

Section TrendsCompared.

Lemma three_last (emotions : list string) :
  (3 <= List.length emotions)%nat ->
  exists a b c, last_n 3 emotions = [a; b; c].
Proof.
  intros Hlen. pose proof (length_last_n 3 emotions) as Hl.
  rewrite Nat.min_l in Hl by exact Hlen.
  destruct (last_n 3 emotions) as [|a [|b [|c [|d rest]]]]; try discriminate.
  now exists a, b, c.
Qed.

Lemma among_two (e x y : string) :
  str_in e [x; y] = true -> e = x \/ e = y.
Proof.
  intros Hin. apply str_in_In in Hin. destruct Hin as [<-|[<-|[]]]; auto.
Qed.

Lemma among_three (e x y z : string) :
  str_in e [x; y; z] = true -> e = x \/ e = y \/ e = z.
Proof.
  intros Hin. apply str_in_In in Hin. destruct Hin as [<-|[<-|[<-|[]]]]; auto.
Qed.
End TrendsCompared.

(** X11: the trend of the simple detector and the short-term trend of the
    main detector read the same last three emotions and never contradict
    each other: where the simple detector says 'improving' the main one
    says 'improving' or 'stable', and where it says 'declining' the main
    one says 'declining' or 'stable'. *)
Theorem simple_trend_agrees_with_short_term (emotions : list string) :
  (SimpleEmotionDetector.simple_trend emotions = "improving" ->
   _calculate_trend (WSeq (last_n 3 emotions)) = improving \/
   _calculate_trend (WSeq (last_n 3 emotions)) = stable) /\
  (SimpleEmotionDetector.simple_trend emotions = "declining" ->
   _calculate_trend (WSeq (last_n 3 emotions)) = declining \/
   _calculate_trend (WSeq (last_n 3 emotions)) = stable).
Proof.
  unfold SimpleEmotionDetector.simple_trend.
  destruct (Nat.leb_spec 3 (List.length emotions)) as [Hlen|_];
    [|split; discriminate].
  destruct (three_last emotions Hlen) as (a & b & c & ->).
  cbn [forallb].
  split.
  - destruct (str_in a ["joy"; "surprise"]) eqn:Ha;
      [|cbn [andb]; destruct (_ && _); discriminate].
    destruct (str_in b ["joy"; "surprise"]) eqn:Hb;
      [|cbn [andb]; destruct (_ && _); discriminate].
    destruct (str_in c ["joy"; "surprise"]) eqn:Hc;
      [|cbn [andb]; destruct (_ && _); discriminate].
    intros _.
    destruct (among_two _ _ _ Ha) as [->| ->], (among_two _ _ _ Hb) as [->| ->],
             (among_two _ _ _ Hc) as [->| ->];
      vm_compute; auto.
  - destruct (str_in a ["joy"; "surprise"] && (str_in b ["joy"; "surprise"]
              && (str_in c ["joy"; "surprise"] && true))); [discriminate|].
    destruct (str_in a ["sadness"; "anger"; "fear"]) eqn:Ha; [|discriminate].
    destruct (str_in b ["sadness"; "anger"; "fear"]) eqn:Hb; [|discriminate].
    destruct (str_in c ["sadness"; "anger"; "fear"]) eqn:Hc; [|discriminate].
    intros _.
    destruct (among_three _ _ _ _ Ha) as [->|[->| ->]],
             (among_three _ _ _ _ Hb) as [->|[->| ->]],
             (among_three _ _ _ _ Hc) as [->|[->| ->]];
      vm_compute; auto.
Qed.

Lemma simple_trend_agrees_with_short_term_witness :
  SimpleEmotionDetector.simple_trend ["fear"; "joy"; "surprise"; "joy"] = "improving" /\
  _calculate_trend (WSeq (last_n 3 ["fear"; "joy"; "surprise"; "joy"])) = improving.
Proof.
  split; [vm_compute; reflexivity|].
  destruct (simple_trend_agrees_with_short_term ["fear"; "joy"; "surprise"; "joy"])
    as [Himproving _].
  destruct (Himproving ltac:(vm_compute; reflexivity)) as [Hi|Hs]; [exact Hi|].
  vm_compute in Hs. discriminate.
Defined.

(** ** Continuity of the responses *)

Section ContinuityFacts.


End ContinuityFacts.



(** ** The memory of the response generator *)

Section MemoryFacts.

Lemma map_indexed_app {T U} (f : nat -> T -> U) (i : nat) (l : list T) (x : T) :
  map_indexed f i (l ++ [x]) = map_indexed f i l ++ [f (i + List.length l)%nat x].
Proof.
  revert i. induction l as [|y l IH]; intros i; cbn [map_indexed app List.length].
  - now rewrite Nat.add_0_r.
  - rewrite IH. now rewrite Nat.add_succ_comm.
Qed.

Lemma length_map_indexed {T U} (f : nat -> T -> U) (i : nat) (l : list T) :
  List.length (map_indexed f i l) = List.length l.
Proof.
  revert i. induction l as [|y l IH]; intros i; cbn [map_indexed List.length];
    [reflexivity|now rewrite IH].
Qed.

(** One push on a memory that holds the last five entries. *)
Lemma push_last_five {T} (l : list T) (x : T) :
  (let memory := last_n 5 l ++ [x] in
   if (5 <? List.length memory)%nat then tl memory else memory)
  = last_n 5 (l ++ [x]).
Proof.
  cbv zeta. rewrite length_app, length_last_n. cbn [List.length].
  unfold last_n. rewrite length_app. cbn [List.length].
  destruct (Nat.ltb_spec 5 (Nat.min 5 (List.length l) + 1)) as [Hfull|Hroom].
  - assert (Hlen : (5 <= List.length l)%nat) by lia.
    rewrite skipn_app.
    replace (List.length l + 1 - 5 - List.length l)%nat with 0%nat by lia.
    cbn [skipn].
    replace (List.length l + 1 - 5)%nat with (S (List.length l - 5)) by lia.
    rewrite <- tl_skipn.
    destruct (skipn (List.length l - 5) l) as [|y rest] eqn:Hskip; [|reflexivity].
    apply (f_equal (@List.length T)) in Hskip. rewrite length_skipn in Hskip.
    cbn [List.length] in Hskip. lia.
  - replace (List.length l - 5)%nat with 0%nat by lia.
    replace (List.length l + 1 - 5)%nat with 0%nat by lia. reflexivity.
Qed.
End MemoryFacts.

(** X13: the memory of the response generator after any run of exchanges
    holds the last five of them, oldest first, and never more; the
    ['timestamp'] of an entry is the position of its exchange in the run
    for the first five and 5 for every later one, so it does not order the
    entries of a long conversation. *)
Theorem memory_keeps_last_five (exchanges : list (text * string * string)) :
  remember_all exchanges = last_n 5 (map_indexed memory_entry_of 0 exchanges) /\
  List.length (remember_all exchanges) = Nat.min 5 (List.length exchanges).
Proof.
  assert (Hmem : remember_all exchanges
                 = last_n 5 (map_indexed memory_entry_of 0 exchanges)).
  { induction exchanges as [|[[user_text emotion] response] exchanges IH] using rev_ind.
    - reflexivity.
    - unfold remember_all in *. rewrite fold_left_app. cbn [fold_left].
      rewrite IH, map_indexed_app. cbn [Nat.add memory_entry_of].
      unfold ResponseGenerator._update_memory.
      rewrite <- push_last_five. cbv zeta.
      rewrite length_last_n, length_map_indexed.
      replace (Nat.min 5 (List.length exchanges)) with (Nat.min (List.length exchanges) 5)
        by apply Nat.min_comm.
      reflexivity. }
  split; [exact Hmem|].
  rewrite Hmem, length_last_n, length_map_indexed. reflexivity.
Qed.

(** ** The chatbot *)

Section ChatbotFacts.
Context {A : Type} `{PyFloat A} {PS : PyStr}.
Import EmotionalChatbot.




Lemma last_n_map {T U} (f : T -> U) (n : nat) (l : list T) :
  last_n n (map f l) = map f (last_n n l).
Proof. unfold last_n. now rewrite length_map, skipn_map. Qed.




End ChatbotFacts.


(** X15: a message sent under a cultural context that is not one of the
    loaded profiles ('western', 'eastern', 'default') is never answered:
    whatever the detector and the language model do, [process_message]
    returns the error reply, with the missing key as processing error, and
    records nothing in the histories, the profile and the memory. *)
Theorem unregistered_context_is_an_error {A : Type} `{PyFloat A} {PS : PyStr}
    (env : detector_env A) (answer : outcome string) (message : text)
    (cultural_context_arg : option string) (bot : EmotionalChatbot.chatbot A) :
  message <> [] ->
  dict_mem (context_of_call cultural_context_arg bot) load_cultural_context = false ->
  let result := EmotionalChatbot.process_message env answer (TStr message)
                                                 cultural_context_arg bot in
  EmotionalChatbot.reply_error (fst result)
    = Some (EmotionalChatbot.Processing_error
              (KeyError (context_of_call cultural_context_arg bot))) /\
  EmotionalChatbot.reply_response_type (fst result) = "error" /\
  same_books bot (snd result).
Proof.
  intros Hne Hctx. cbv zeta. unfold EmotionalChatbot.process_message.
  destruct message as [|c message']; [contradiction|]. cbn [is_empty].
  set (message := c :: message') in *.
  fold (context_of_call cultural_context_arg bot).
  set (context := context_of_call cultural_context_arg bot) in *.
  unfold EmotionalChatbot.process_message_try.
  destruct (detect_emotion_returns env (TStr message) context
                                   (EmotionalChatbot.emotion_scores bot))
    as (r & scores & ->).
  unfold ResponseGenerator.get_contextual_response,
    ResponseGenerator._generate_continuity_response,
    ResponseGenerator.generate_response, ResponseGenerator._construct_response.
  rewrite Hctx.
  destruct (ResponseGenerator.emotion_continues _ _);
    (split; [reflexivity|split; [reflexivity|repeat split; reflexivity]]).
Qed.

Lemma unregistered_context_is_an_error_witness :
  text_of "I am so happy" <> [] /\
  dict_mem (context_of_call None (EmotionalChatbot.new_chatbot (A := float) "martian"))
           load_cultural_context = false /\
  EmotionalChatbot.reply_error
    (fst (EmotionalChatbot.process_message (PS := basic_latin)
            {| emotion_pipeline := None; preprocess_text := lower (PyStr := basic_latin);
               simple_detector := true |}
            (inr "Glad to hear it.") (TStr (text_of "I am so happy")) None
            (EmotionalChatbot.new_chatbot (A := float) "martian")))
    = Some (EmotionalChatbot.Processing_error (KeyError "martian")).
Proof.
  split; [discriminate|]. split; [vm_compute; reflexivity|].
  apply (unregistered_context_is_an_error (PS := basic_latin)
           {| emotion_pipeline := None; preprocess_text := lower (PyStr := basic_latin);
              simple_detector := true |}
           (inr "Glad to hear it.") (text_of "I am so happy") None
           (EmotionalChatbot.new_chatbot (A := float) "martian")).
  - discriminate.
  - vm_compute. reflexivity.
Defined.

(** ** Session analytics *)

Section SessionFacts.
Context {A : Type} `{PyFloat A} {PS : PyStr}.

Lemma pyset_size (l : list string) :
  l <> [] -> (1 <= List.length (pyset l) <= List.length l)%nat.
Proof.
  intros Hne. unfold pyset. split.
  - destruct l as [|x l]; [contradiction|].
    assert (Hin : In x (nodup string_dec (x :: l))) by (apply nodup_In; now left).
    destruct (nodup string_dec (x :: l)); [destruct Hin|cbn [List.length]; lia].
  - apply NoDup_incl_length; [apply NoDup_nodup|].
    intros x Hx. now apply nodup_In in Hx.
Qed.

Lemma identify_themes_filter (history : list (EmotionalChatbot.conversation_entry A)) :
  history <> [] ->
  EmotionalChatbot._identify_themes history
  = firstn 3 (filter (fun theme => theme_found theme history)
                     (dict_keys EmotionalChatbot.theme_keywords)).
Proof.
  intros Hne. destruct history as [|entry history]; [contradiction|].
  unfold EmotionalChatbot._identify_themes, theme_found, all_messages.
  set (text := join (text_of " ") _).
  unfold EmotionalChatbot.theme_keywords.
  cbn [fold_left dict_keys map fst filter dict_get_default dict_get String.eqb Ascii.eqb
       Bool.eqb].
  repeat match goal with
         | |- context [any_in ?keywords text] =>
             let b := fresh "found" in
             generalize (any_in keywords text); intros b
         end.
  repeat match goal with b : bool |- _ => destruct b end; reflexivity.
Qed.
End SessionFacts.

(** X16: [_identify_themes] reports the themes whose keywords occur in the
    lowercased conversation, in the order 'work', 'relationships',
    'health', 'personal_growth', 'daily_life', cut after the third.  So the
    first three themes are reported whenever they are found, and the
    recommendations, which look for 'work' and 'relationships' only, do not
    depend on the cut. *)
Theorem themes_in_declared_order {A : Type} {PS : PyStr}
    (history : list (EmotionalChatbot.conversation_entry A)) :
  history <> [] ->
  EmotionalChatbot._identify_themes history
  = firstn 3 (filter (fun theme => theme_found theme history)
                     ["work"; "relationships"; "health"; "personal_growth"; "daily_life"]) /\
  (forall theme, In theme ["work"; "relationships"; "health"] ->
                 str_in theme (EmotionalChatbot._identify_themes history)
                 = theme_found theme history).
Proof.
  intros Hne.
  assert (Hthemes := identify_themes_filter history Hne).
  change (dict_keys EmotionalChatbot.theme_keywords)
    with ["work"; "relationships"; "health"; "personal_growth"; "daily_life"] in Hthemes.
  split; [exact Hthemes|].
  intros theme Hin. rewrite Hthemes. cbn [filter].
  destruct (theme_found "work" history) eqn:Hwork,
           (theme_found "relationships" history) eqn:Hrel,
           (theme_found "health" history) eqn:Hhealth,
           (theme_found "personal_growth" history),
           (theme_found "daily_life" history);
    destruct Hin as [<-|[<-|[<-|[]]]];
    first [rewrite Hwork|rewrite Hrel|rewrite Hhealth]; reflexivity.
Qed.

Lemma themes_in_declared_order_witness :
  EmotionalChatbot._identify_themes (PS := basic_latin)
    [ {| EmotionalChatbot.user_message :=
           text_of "My boss ruined my day at home, I feel sick";
         EmotionalChatbot.emotion := "anger";
         EmotionalChatbot.confidence := (9 # 10)%Q;
         EmotionalChatbot.entry_intensity := High;
         EmotionalChatbot.bot_response := "That sounds hard.";
         EmotionalChatbot.entry_response_type := "validating" |} ]
  = ["work"; "health"; "daily_life"].
Proof.
  destruct (themes_in_declared_order (PS := basic_latin)
              [ {| EmotionalChatbot.user_message :=
                     text_of "My boss ruined my day at home, I feel sick";
                   EmotionalChatbot.emotion := "anger";
                   EmotionalChatbot.confidence := (9 # 10)%Q;
                   EmotionalChatbot.entry_intensity := High;
                   EmotionalChatbot.bot_response := "That sounds hard.";
                   EmotionalChatbot.entry_response_type := "validating" |} ]
              ltac:(discriminate)) as [-> _].
  vm_compute. reflexivity.
Defined.

(** X17: for a conversation that has begun, [_assess_conversation_quality]
    returns a report in which the emotional openness, the number of
    distinct emotions, lies between 1 and the number of messages and the
    engagement score between 2 and 10; the depth is 'deep' exactly when
    more than six distinct emotions were met (the test on the length of
    the conversation never decides), and a 'good' quality needs at least
    five distinct emotions. *)
Theorem conversation_quality_bounds {A : Type} `{PyFloat A}
    (history : list (EmotionalChatbot.conversation_entry A)) :
  history <> [] ->
  exists (report : EmotionalChatbot.quality_report) (variety engagement : Z),
    EmotionalChatbot._assess_conversation_quality history = inr report /\
    EmotionalChatbot.emotional_openness report = Some variety /\
    EmotionalChatbot.engagement_score report = Some engagement /\
    (1 <= variety <= Z.of_nat (List.length history))%Z /\
    (2 <= engagement <= 10)%Z /\
    (EmotionalChatbot.depth report = "deep" <-> 6 < variety)%Z /\
    (EmotionalChatbot.quality report = "good" -> 5 <= variety)%Z.
Proof.
  intros Hne. destruct history as [|entry rest]; [contradiction|].
  unfold EmotionalChatbot._assess_conversation_quality. cbv iota.
  set (history := entry :: rest) in *.
  unfold int_truediv.
  destruct (Z.eqb_spec (Z.of_nat (List.length history)) 0) as [Hz|_].
  { subst history. cbn [List.length] in Hz. lia. }
  cbn [bind ret].
  assert (Hsize := pyset_size (map EmotionalChatbot.emotion history)).
  rewrite length_map in Hsize.
  assert (Hmap : map EmotionalChatbot.emotion history <> []).
  { subst history. discriminate. }
  specialize (Hsize Hmap).
  set (variety := Z.of_nat (List.length (pyset (map EmotionalChatbot.emotion history)))) in *.
  set (count := Z.of_nat (List.length history)) in *.
  assert (Hv : (1 <= variety <= count)%Z) by (subst variety count; lia).
  eexists. exists variety, (Z.min 10 (count + variety)).
  split; [reflexivity|].
  cbn [EmotionalChatbot.emotional_openness EmotionalChatbot.engagement_score
       EmotionalChatbot.depth EmotionalChatbot.quality].
  split; [reflexivity|]. split; [reflexivity|]. split; [exact Hv|]. split; [lia|].
  split.
  - destruct (Z.ltb_spec 5 count), (Z.ltb_spec 6 variety); cbn [andb];
      split; intros Hd; try reflexivity; try discriminate; try lia.
  - destruct (Z.ltb_spec 4 variety); [intros _; lia|].
    rewrite andb_false_r. discriminate.
Qed.

Lemma conversation_quality_bounds_witness :
  exists (report : EmotionalChatbot.quality_report) (variety engagement : Z),
    EmotionalChatbot._assess_conversation_quality
      [ {| EmotionalChatbot.user_message := text_of "I passed the exam";
           EmotionalChatbot.emotion := "joy";
           EmotionalChatbot.confidence := (9 # 10)%Q;
           EmotionalChatbot.entry_intensity := High;
           EmotionalChatbot.bot_response := "Congratulations.";
           EmotionalChatbot.entry_response_type := "celebratory" |} ] = inr report /\
    EmotionalChatbot.emotional_openness report = Some variety /\
    EmotionalChatbot.engagement_score report = Some engagement /\
    (1 <= variety <= 1)%Z /\
    (2 <= engagement <= 10)%Z /\
    (EmotionalChatbot.depth report = "deep" <-> 6 < variety)%Z /\
    (EmotionalChatbot.quality report = "good" -> 5 <= variety)%Z.
Proof.
  apply (conversation_quality_bounds
           [ {| EmotionalChatbot.user_message := text_of "I passed the exam";
                EmotionalChatbot.emotion := "joy";
                EmotionalChatbot.confidence := (9 # 10)%Q;
                EmotionalChatbot.entry_intensity := High;
                EmotionalChatbot.bot_response := "Congratulations.";
                EmotionalChatbot.entry_response_type := "celebratory" |} ]).
  discriminate.
Defined.

(** X18: [_generate_session_recommendations] returns for every
    conversation, never more than four recommendations, and its final cut
    to four removes nothing: at most two recommendations come from the
    share of negative emotions and at most two from the themes. *)
Theorem session_recommendations_fit {A : Type} `{PyFloat A} {PS : PyStr}
    (history : list (EmotionalChatbot.conversation_entry A)) :
  exists recommendations : list string,
    EmotionalChatbot._generate_session_recommendations history = inr recommendations /\
    (List.length recommendations <= 4)%nat /\
    (history <> [] ->
     EmotionalChatbot.session_recommendations_uncut history = inr recommendations).
Proof.
  destruct history as [|entry rest].
  - eexists. split; [reflexivity|]. split; [cbn; lia|]. intros Hc. now elim Hc.
  - unfold EmotionalChatbot._generate_session_recommendations. cbv iota.
    set (history := entry :: rest) in *.
    unfold EmotionalChatbot.session_recommendations_uncut, int_truediv.
    destruct (Z.eqb_spec (Z.of_nat (List.length history)) 0) as [Hz|_].
    { subst history. cbn [List.length] in Hz. lia. }
    cbn [bind ret].
    set (share := fdiv _ _).
    set (themes := EmotionalChatbot._identify_themes history).
    assert (Hlen : forall l : list string, (List.length l <= 4)%nat -> firstn 4 l = l).
    { intros l Hl. now apply firstn_all2. }
    destruct (fltb (lit 6 10) share); [|destruct (fltb share (lit 2 10))];
      destruct (str_in "work" themes), (str_in "relationships" themes);
      cbn [app]; (eexists; split; [rewrite Hlen by (cbn [List.length]; lia); reflexivity|];
                  split; [cbn [List.length]; lia|reflexivity]).
Qed.
